(** * YaMDb: the integrity rules of the review platform

    A shallow embedding of [api_yamdb/reviews/models.py],
    [api_yamdb/api/serializers.py] and [api_yamdb/api/views.py].

    - The relational store is a record of tables, each table a list of rows
      in insertion order.  The constraints that the models declare
      ([unique=True], [UniqueConstraint]) are tests made by the writes
      ([User_insert], [Review_insert], ...) and predicates on the store
      ([store_ok]); every [on_delete] is written out in the deletes.
    - A view is a function in a state-and-exception monad over the store:
      it returns a [Response] or raises an [exn].
    - What Django and Django REST framework do on behalf of the
      declarations of the source is written out next to the declaration
      that asks for it: the cleaning of a CharField, the unique
      validators, [get_object_or_404], [get_or_create], [Avg], the
      rendering of an IntegerField.  What they compute from secrets,
      clocks and patterns (the token generator, the encoding of a JWT, the
      username and e-mail patterns) and the settings are fields of [Env].
    - The permission classes live in [api/permissions.py]; they run before
      a handler.  A view below is the handler of a request that they have
      let through, and [request.user] is an argument of the views that
      read it.
    - Request data: a key of the request is absent or holds a string (an
      integer for [score]).  A Python [str] whose characters lie below
      U+0100 is the string of its code points.
    - [send_mail] hands a message to the e-mail backend of the settings,
      which takes it (the outbox gains it) or raises; the call is made
      with [fail_silently] left at False and under no [try].
    - A table gives a new row a key that it has never given: the store
      records the last key of each table it inserts into.
    - The clock and the random source are read by a request: the views
      that read them take the time [now] (and the [jti] drawn for a
      token) as arguments. *)

From Stdlib Require Import ZArith List String Ascii Bool QArith Lia DecimalString.
Import ListNotations.
Open Scope string_scope.
Open Scope list_scope.
Open Scope Z_scope.

Set Implicit Arguments.

(** ** Exceptions, responses and the view monad *)

(** The messages the source passes to [serializers.ValidationError], and the
    error codes of the fields and validators the source declares. *)
Inductive code : Type :=
| required            (* the key is absent and the field is required *)
| blank               (* '' or whitespace only, allow_blank=False *)
| null_characters     (* ProhibitNullCharactersValidator *)
| max_length          (* max_length=... *)
| invalid             (* UnicodeUsernameValidator, EmailValidator *)
| invalid_choice      (* choices=roles *)
| unique              (* UniqueValidator *)
| min_value           (* MinValueValidator(1) *)
| max_value           (* MaxValueValidator(10) *)
| username_me         (* 'Username me is not valid' *)
| score_1_to_10       (* 'Оценкой может быть только целое число от 1 до 10.' *)
| one_review_only.    (* 'На произведение можно оставить только один отзыв.' *)

(** [errors]: the dict a serializer collects, field name to error list;
    the object-level [validate] reports under [non_field_errors]. *)
Definition errors : Type := list (string * list code).

Definition non_field_errors : string := "non_field_errors".

Inductive exn : Type :=
| ValidationError (detail : errors)  (* rest_framework.serializers.ValidationError *)
| Http404                            (* get_object_or_404 *)
| IntegrityError (constraint : string) (* the store refuses a row: unique=True, UniqueConstraint *)
| DoesNotExist                       (* queryset.get() on no row *)
| MultipleObjectsReturned            (* queryset.get() on several rows *)
| SMTPException.                     (* send_mail: the e-mail backend fails *)

(** The error classes the specification names, and the class of each
    exception of the code: a [ValidationError] is a ValidationError, a
    missing object is a NotFoundError, a row the store refuses for
    uniqueness is a ConflictError; the two failures of [get] and the
    failure of the e-mail backend are none of them. *)
Inductive error_class : Type :=
| ValidationErrorClass
| ConflictErrorClass
| NotFoundErrorClass.

Definition classify (e : exn) : option error_class :=
  match e with
  | ValidationError _ => Some ValidationErrorClass
  | Http404 => Some NotFoundErrorClass
  | IntegrityError _ => Some ConflictErrorClass
  | DoesNotExist | MultipleObjectsReturned | SMTPException => None
  end.

Definition HTTP_200_OK : Z := 200.
Definition HTTP_201_CREATED : Z := 201.
Definition HTTP_204_NO_CONTENT : Z := 204.
Definition HTTP_400_BAD_REQUEST : Z := 400.
Definition HTTP_405_METHOD_NOT_ALLOWED : Z := 405.

Inductive Method : Type := GET | POST | PUT | PATCH | DELETE.

Definition Method_eqb (a b : Method) : bool :=
  match a, b with
  | GET, GET | POST, POST | PUT, PUT | PATCH, PATCH | DELETE, DELETE => true
  | _, _ => false
  end.

Section Monad.
Variable S : Type.

(** A computation either raises or returns, and carries the store on. *)
Definition M (A : Type) : Type := S -> (exn + A) * S.

Definition ret {A} (a : A) : M A := fun s => (inr a, s).
Definition raise {A} (e : exn) : M A := fun s => (inl e, s).
Definition bind {A B} (m : M A) (k : A -> M B) : M B :=
  fun s => match m s with
           | (inl e, s') => (inl e, s')
           | (inr a, s') => k a s'
           end.
Definition get_state : M S := fun s => (inr s, s).
Definition modify (f : S -> S) : M unit := fun s => (inr tt, f s).
Definition lift {A} (r : exn + A) : M A := fun s => (r, s).
End Monad.

Arguments ret {S A} a.
Arguments raise {S A} e.
Arguments bind {S A B} m k.
Arguments get_state {S}.
Arguments modify {S} f.
Arguments lift {S A} r.

Declare Scope view_scope.
Delimit Scope view_scope with view.
Notation "x <- m ;; k" := (bind m (fun x => k))
  (at level 61, m at next level, right associativity) : view_scope.
Notation "m ;;; k" := (bind m (fun _ => k))
  (at level 61, right associativity) : view_scope.

(** ** Strings as the fields clean them *)

(** [str.isspace] on the code points below U+0100. *)
Definition isspace (c : ascii) : bool :=
  let n := N_of_ascii c in
  (((9 <=? n) && (n <=? 13)) || ((28 <=? n) && (n <=? 32))
   || (n =? 133) || (n =? 160))%N.

Fixpoint lstrip (s : list ascii) : list ascii :=
  match s with
  | c :: s' => if isspace c then lstrip s' else s
  | [] => []
  end.

(** [str.strip()] *)
Definition strip (s : string) : string :=
  string_of_list_ascii
    (rev (lstrip (rev (lstrip (list_ascii_of_string s))))).

Fixpoint contains (c : ascii) (s : string) : bool :=
  match s with
  | EmptyString => false
  | String c' s' => Ascii.eqb c c' || contains c s'
  end.

Definition len (s : string) : Z := Z.of_nat (String.length s).

Definition option_eqb {A} (eqb : A -> A -> bool) (a b : option A) : bool :=
  match a, b with
  | Some x, Some y => eqb x y
  | None, None => true
  | _, _ => false
  end.

(** ** reviews/models.py: the rows *)

Inductive Role : Type := ADMIN | MODERATOR | USER.

Definition Role_eqb (a b : Role) : bool :=
  match a, b with
  | ADMIN, ADMIN | MODERATOR, MODERATOR | USER, USER => true
  | _, _ => false
  end.

(** [role] is a CharField with [choices=roles]; the three stored values. *)
Definition Role_value (r : Role) : string :=
  match r with
  | ADMIN => "admin"
  | MODERATOR => "moderator"
  | USER => "user"
  end.

Module User.
(** [username] has [null=True]; [bio] has [null=True, blank=True];
    [first_name] and [last_name] come from AbstractUser. *)
Record t : Type := Build {
  id : Z;
  username : option string;
  email : string;
  role : Role;
  bio : option string;
  first_name : string;
  last_name : string
}.

Definition is_moderator (u : t) : bool := Role_eqb (role u) MODERATOR.
Definition is_admin (u : t) : bool := Role_eqb (role u) ADMIN.
End User.

Module Category.
Record t : Type := Build { id : Z; name : string; slug : string }.
End Category.

Module Genre.
Record t : Type := Build { id : Z; name : string; slug : string }.
End Genre.

Module Title.
(** [category] is a foreign key with [null=True]: the id of a Category
    row, or NULL. *)
Record t : Type := Build {
  id : Z;
  name : string;
  year : Z;
  description : option string;
  category : option Z
}.

Definition set_category (c : option Z) (x : t) : t :=
  Build (id x) (name x) (year x) (description x) c.
End Title.

Module GenreTitle.
(** Both foreign keys have [null=True]. *)
Record t : Type := Build { id : Z; title : option Z; genre : option Z }.
End GenreTitle.

Module Review.
Record t : Type := Build {
  id : Z;
  title : Z;
  text : string;
  author : Z;
  score : Z;
  pub_date : Z
}.
End Review.

Module Comment.
Record t : Type := Build {
  id : Z;
  review : Z;
  text : string;
  author : Z;
  pub_date : Z
}.
End Comment.

(** A message handed to [send_mail].  [message] is built by
    [send_confirm_mail] from the confirmation code alone, so the row keeps
    the code. *)
Module Mail.
Record t : Type := Build {
  subject : string;
  confirmation_code : string;
  from_email : string;
  recipient_list : list string
}.
End Mail.

(** ** The store *)

(** The last key that each table written by an INSERT below has given
    (the AutoField of the model: the sequence of the table). *)
Record Sequences : Type := mkSequences {
  User_seq : Z;
  Category_seq : Z;
  Genre_seq : Z;
  Review_seq : Z;
  Comment_seq : Z
}.

Record Store : Type := mkStore {
  users : list User.t;
  categories : list Category.t;
  genres : list Genre.t;
  titles : list Title.t;
  genre_titles : list GenreTitle.t;
  reviews : list Review.t;
  comments : list Comment.t;
  outbox : list Mail.t;
  sequences : Sequences
}.

Definition set_users (x : list User.t) (s : Store) : Store :=
  mkStore x (categories s) (genres s) (titles s) (genre_titles s)
          (reviews s) (comments s) (outbox s) (sequences s).
Definition set_categories (x : list Category.t) (s : Store) : Store :=
  mkStore (users s) x (genres s) (titles s) (genre_titles s)
          (reviews s) (comments s) (outbox s) (sequences s).
Definition set_genres (x : list Genre.t) (s : Store) : Store :=
  mkStore (users s) (categories s) x (titles s) (genre_titles s)
          (reviews s) (comments s) (outbox s) (sequences s).
Definition set_titles (x : list Title.t) (s : Store) : Store :=
  mkStore (users s) (categories s) (genres s) x (genre_titles s)
          (reviews s) (comments s) (outbox s) (sequences s).
Definition set_genre_titles (x : list GenreTitle.t) (s : Store) : Store :=
  mkStore (users s) (categories s) (genres s) (titles s) x
          (reviews s) (comments s) (outbox s) (sequences s).
Definition set_reviews (x : list Review.t) (s : Store) : Store :=
  mkStore (users s) (categories s) (genres s) (titles s) (genre_titles s)
          x (comments s) (outbox s) (sequences s).
Definition set_comments (x : list Comment.t) (s : Store) : Store :=
  mkStore (users s) (categories s) (genres s) (titles s) (genre_titles s)
          (reviews s) x (outbox s) (sequences s).
Definition set_outbox (x : list Mail.t) (s : Store) : Store :=
  mkStore (users s) (categories s) (genres s) (titles s) (genre_titles s)
          (reviews s) (comments s) x (sequences s).

Definition set_sequences (x : Sequences) (s : Store) : Store :=
  mkStore (users s) (categories s) (genres s) (titles s) (genre_titles s)
          (reviews s) (comments s) (outbox s) x.

Definition V : Type -> Type := M Store.

(** The key a table gives a new row: one more than the largest key it has
    ever held, which is the larger of the last key it gave and of the
    keys it holds now.  A key is not given twice, also after the row is
    deleted. *)
Definition next_id (last : Z) (ids : list Z) : Z :=
  1 + Z.max last (fold_right Z.max 0 ids).

(** The sequences once a table has given the key [k]. *)
Definition User_key_given (k : Z) (q : Sequences) : Sequences :=
  mkSequences k (Category_seq q) (Genre_seq q) (Review_seq q) (Comment_seq q).
Definition Category_key_given (k : Z) (q : Sequences) : Sequences :=
  mkSequences (User_seq q) k (Genre_seq q) (Review_seq q) (Comment_seq q).
Definition Genre_key_given (k : Z) (q : Sequences) : Sequences :=
  mkSequences (User_seq q) (Category_seq q) k (Review_seq q) (Comment_seq q).
Definition Review_key_given (k : Z) (q : Sequences) : Sequences :=
  mkSequences (User_seq q) (Category_seq q) (Genre_seq q) k (Comment_seq q).
Definition Comment_key_given (k : Z) (q : Sequences) : Sequences :=
  mkSequences (User_seq q) (Category_seq q) (Genre_seq q) (Review_seq q) k.

(** [queryset.exists()] *)
Definition exists_ {A} (q : list A) : bool :=
  match q with [] => false | _ :: _ => true end.

(** [queryset.get()] *)
Definition get {A} (q : list A) : exn + A :=
  match q with
  | [] => inl DoesNotExist
  | [x] => inr x
  | _ :: _ :: _ => inl MultipleObjectsReturned
  end.

(** [get_object_or_404(Model, lookup)], on the rows the lookup selects:
    [get], with DoesNotExist turned into Http404. *)
Definition get_object_or_404 {A} (q : list A) : exn + A :=
  match get q with
  | inl DoesNotExist => inl Http404
  | r => r
  end.

(** *** Constraints of the tables *)

(** [unique=True] on [User.username] (NULLs do not collide) and on
    [User.email]; [exclude] is the key of the row being written. *)
Definition username_taken (s : Store) (exclude : option Z) (n : option string) : bool :=
  match n with
  | None => false
  | Some _ =>
      exists_ (filter (fun u => option_eqb String.eqb (User.username u) n
                                && negb (option_eqb Z.eqb (Some (User.id u)) exclude))
                      (users s))
  end.

Definition email_taken (s : Store) (exclude : option Z) (e : string) : bool :=
  exists_ (filter (fun u => String.eqb (User.email u) e
                            && negb (option_eqb Z.eqb (Some (User.id u)) exclude))
                  (users s)).

(** [UniqueConstraint(fields=['title', 'author'], name='unique_review')] *)
Definition unique_review : string := "unique_review".

Definition review_of (title author : Z) (r : Review.t) : bool :=
  (Review.title r =? title) && (Review.author r =? author).

Definition review_taken (s : Store) (exclude : option Z) (title author : Z) : bool :=
  exists_ (filter (fun r => review_of title author r
                            && negb (option_eqb Z.eqb (Some (Review.id r)) exclude))
                  (reviews s)).

(** *** Writes *)

(** INSERT into the users table; the store assigns the key. *)
Definition User_insert (u : User.t) : V User.t := fun s =>
  if username_taken s None (User.username u) then (inl (IntegrityError "username"), s)
  else if email_taken s None (User.email u) then (inl (IntegrityError "email"), s)
  else
    let k := next_id (User_seq (sequences s)) (map User.id (users s)) in
    let u' := User.Build k (User.username u)
                (User.email u) (User.role u) (User.bio u)
                (User.first_name u) (User.last_name u) in
    (inr u', set_users (users s ++ [u'])
               (set_sequences (User_key_given k (sequences s)) s)).

(** UPDATE of the row with the key of [u]. *)
Definition User_update (u : User.t) : V User.t := fun s =>
  if username_taken s (Some (User.id u)) (User.username u)
  then (inl (IntegrityError "username"), s)
  else if email_taken s (Some (User.id u)) (User.email u)
  then (inl (IntegrityError "email"), s)
  else
    (inr u, set_users (map (fun x => if User.id x =? User.id u then u else x)
                           (users s)) s).

(** INSERT into the reviews table: [unique_review] is checked by the store. *)
Definition Review_insert (r : Review.t) : V Review.t := fun s =>
  if review_taken s None (Review.title r) (Review.author r)
  then (inl (IntegrityError unique_review), s)
  else
    let k := next_id (Review_seq (sequences s)) (map Review.id (reviews s)) in
    let r' := Review.Build k (Review.title r)
                (Review.text r) (Review.author r) (Review.score r)
                (Review.pub_date r) in
    (inr r', set_reviews (reviews s ++ [r'])
               (set_sequences (Review_key_given k (sequences s)) s)).

(** UPDATE of the row with the key of [r]: [unique_review] is checked
    against the other rows. *)
Definition Review_update (r : Review.t) : V Review.t := fun s =>
  if review_taken s (Some (Review.id r)) (Review.title r) (Review.author r)
  then (inl (IntegrityError unique_review), s)
  else
    (inr r, set_reviews (map (fun x => if Review.id x =? Review.id r then r else x)
                             (reviews s)) s).

(** *** Deletes: the [on_delete] of every foreign key *)

Definition mem (x : Z) (l : list Z) : bool := existsb (Z.eqb x) l.

(** Comment.review is CASCADE. *)
Definition delete_reviews (doomed : Review.t -> bool) (s : Store) : Store :=
  let gone := map Review.id (filter doomed (reviews s)) in
  set_comments (filter (fun c => negb (mem (Comment.review c) gone)) (comments s))
    (set_reviews (filter (fun r => negb (doomed r)) (reviews s)) s).

(** Review.title is CASCADE, GenreTitle.title is CASCADE. *)
Definition Title_delete (t : Title.t) (s : Store) : Store :=
  let s1 := delete_reviews (fun r => Review.title r =? Title.id t) s in
  let s2 := set_genre_titles
              (filter (fun g => negb (option_eqb Z.eqb (GenreTitle.title g)
                                                 (Some (Title.id t))))
                      (genre_titles s1)) s1 in
  set_titles (filter (fun x => negb (Title.id x =? Title.id t)) (titles s2)) s2.

(** Title.category is SET_NULL. *)
Definition Category_delete (c : Category.t) (s : Store) : Store :=
  let s1 := set_titles
              (map (fun x => if option_eqb Z.eqb (Title.category x)
                                                  (Some (Category.id c))
                             then Title.set_category None x else x)
                   (titles s)) s in
  set_categories (filter (fun x => negb (Category.id x =? Category.id c))
                         (categories s1)) s1.

(** GenreTitle.genre is CASCADE. *)
Definition Genre_delete (g : Genre.t) (s : Store) : Store :=
  let s1 := set_genre_titles
              (filter (fun x => negb (option_eqb Z.eqb (GenreTitle.genre x)
                                                 (Some (Genre.id g))))
                      (genre_titles s)) s in
  set_genres (filter (fun x => negb (Genre.id x =? Genre.id g)) (genres s1)) s1.

(** Review.author is CASCADE, Comment.author is CASCADE. *)
Definition User_delete (u : User.t) (s : Store) : Store :=
  let s1 := delete_reviews (fun r => Review.author r =? User.id u) s in
  let s2 := set_comments
              (filter (fun c => negb (Comment.author c =? User.id u)) (comments s1))
              s1 in
  set_users (filter (fun x => negb (User.id x =? User.id u)) (users s2)) s2.

Definition Review_delete (r : Review.t) (s : Store) : Store :=
  delete_reviews (fun x => Review.id x =? Review.id r) s.

(** ** What the environment supplies *)

(** [AccessToken.for_user(user)]: the claims of the token.  A new token
    sets its expiry from the clock and draws a [jti]; [for_user] adds the
    key of the user.  Its string form is the signed encoding. *)
Module AccessToken.
Record t : Type := Build {
  token_type : string;
  user_id : Z;
  exp : Z;
  jti : string
}.
Definition for_user (lifetime now : Z) (jti : string) (u : User.t) : t :=
  Build "access" (User.id u) (now + lifetime) jti.
End AccessToken.

Record Env : Type := mkEnv {
  (* django.contrib.auth.validators: the pattern ^[\w.@+-]+\Z *)
  UnicodeUsernameValidator : string -> bool;
  (* django.core.validators, through serializers.EmailField *)
  EmailValidator : string -> bool;
  (* default_token_generator: a code is made from the user row and the
     clock, and is checked against the user row and the clock *)
  make_token : Z -> User.t -> string;
  check_token : Z -> User.t -> string -> bool;
  (* the e-mail backend of the settings, at a time: it takes the message
     or it fails *)
  delivers : Z -> Mail.t -> bool;
  (* str(token) of rest_framework_simplejwt: the signature of the claims *)
  str_token : AccessToken.t -> string;
  (* api_yamdb.settings *)
  ACCESS_TOKEN_LIFETIME : Z;
  DOMAIN_NAME : string
}.

(** ** Serializer fields *)

Definition field_result (A : Type) : Type := (list code + A)%type.

(** [run_validators]: every validator runs, the errors are gathered. *)
Definition run_validators {A} (validators : list (A -> list code)) (value : A)
  : field_result A :=
  match flat_map (fun v => v value) validators with
  | [] => inr value
  | errs => inl errs
  end.

Definition check (ok : bool) (c : code) : list code := if ok then [] else [c].

Definition MaxLengthValidator (n : Z) (value : string) : list code :=
  check (len value <=? n) max_length.

Definition ProhibitNullCharactersValidator (value : string) : list code :=
  check (negb (contains zero value)) null_characters.

(** [serializers.CharField] on a string: blank test, [trim_whitespace],
    then the validators handed in, [max_length] and the NUL test. *)
Definition CharField (allow_blank : bool) (max_len : option Z)
    (validators : list (string -> list code)) (data : string)
  : field_result string :=
  if String.eqb (strip data) EmptyString then
    if allow_blank then inr EmptyString else inl [blank]
  else
    run_validators
      (validators
       ++ match max_len with Some n => [MaxLengthValidator n] | None => [] end
       ++ [ProhibitNullCharactersValidator])
      (strip data).

(** [serializers.EmailField]: a CharField that ends with the EmailValidator. *)
Definition EmailField (env : Env) (max_len : option Z)
    (validators : list (string -> list code)) (data : string)
  : field_result string :=
  if String.eqb (strip data) EmptyString then inl [blank]
  else
    run_validators
      (validators
       ++ match max_len with Some n => [MaxLengthValidator n] | None => [] end
       ++ [ProhibitNullCharactersValidator;
           fun v => check (EmailValidator env v) invalid])
      (strip data).

(** [serializers.ChoiceField(choices=roles)] *)
Definition RoleField (data : string) : field_result Role :=
  if String.eqb data (Role_value ADMIN) then inr ADMIN
  else if String.eqb data (Role_value MODERATOR) then inr MODERATOR
  else if String.eqb data (Role_value USER) then inr USER
  else inl [invalid_choice].

(** [serializers.IntegerField(max_value=.., min_value=..)] on an integer. *)
Definition IntegerField (max_v min_v : Z) (data : Z) : field_result Z :=
  run_validators [fun v => check (v <=? max_v) max_value;
                  fun v => check (min_v <=? v) min_value] data.

(** A field of a serializer on the value of its key: [None] is an absent
    key, which a required field of a full (not partial) validation
    refuses and any other field skips. *)
Definition on_key {A B} (required_ partial : bool) (run : A -> field_result B)
    (d : option A) : field_result (option B) :=
  match d with
  | None => if required_ && negb partial then inl [required] else inr None
  | Some x => match run x with
              | inl e => inl e
              | inr v => inr (Some v)
              end
  end.

(** [validate_<field>] runs on the value the field has accepted. *)
Definition and_then {A} (r : field_result (option A)) (f : A -> field_result A)
  : field_result (option A) :=
  match r with
  | inr (Some v) => match f v with
                    | inl e => inl e
                    | inr v' => inr (Some v')
                    end
  | _ => r
  end.

Definition field_errors {A} (name : string) (r : field_result A) : errors :=
  match r with
  | inl e => [(name, e)]
  | inr _ => []
  end.

(** [UniqueValidator(queryset=User.objects.all())]; on an update the
    instance is left out of the queryset. *)
Definition UniqueValidator_username (s : Store) (instance : option User.t)
    (value : string) : list code :=
  check (negb (username_taken s (option_map User.id instance) (Some value))) unique.

Definition UniqueValidator_email (s : Store) (instance : option User.t)
    (value : string) : list code :=
  check (negb (email_taken s (option_map User.id instance) value)) unique.

(** The [username] field that UserSerializer, RegisterDataSerializer and
    UserEditSerializer each declare, and the [email] field the first two
    declare and the third takes from the model. *)
Definition username_field (env : Env) (s : Store) (instance : option User.t)
  : string -> field_result string :=
  CharField false (Some 150)
    [fun v => check (UnicodeUsernameValidator env v) invalid;
     UniqueValidator_username s instance].

Definition email_field (env : Env) (s : Store) (instance : option User.t)
  : string -> field_result string :=
  EmailField env (Some 254) [UniqueValidator_email s instance].

(** ** api/serializers.py *)

(** The request data of the user endpoints: a key is absent or holds a
    string. *)
Module UserData.
Record t : Type := Build {
  username : option string;
  email : option string;
  role : option string;
  bio : option string;
  first_name : option string;
  last_name : option string
}.
End UserData.

(** The validated data of the user serializers: the writable keys that
    were present. *)
Module UserValidated.
Record t : Type := Build {
  username : option string;
  email : option string;
  role : option Role;
  bio : option string;
  first_name : option string;
  last_name : option string
}.
End UserValidated.

Definition or_default {A} (o : option A) (d : A) : A :=
  match o with Some x => x | None => d end.

(** [ModelSerializer.update]: every key of the validated data is set on
    the instance. *)
Definition set_attrs (instance : User.t) (v : UserValidated.t) : User.t :=
  User.Build (User.id instance)
    (match UserValidated.username v with
     | Some n => Some n
     | None => User.username instance
     end)
    (or_default (UserValidated.email v) (User.email instance))
    (or_default (UserValidated.role v) (User.role instance))
    (match UserValidated.bio v with
     | Some b => Some b
     | None => User.bio instance
     end)
    (or_default (UserValidated.first_name v) (User.first_name instance))
    (or_default (UserValidated.last_name v) (User.last_name instance)).

(** [ModelSerializer.create]: [User.objects.create] on the validated data, the
    model's defaults for the keys that are absent. *)
Definition new_user (v : UserValidated.t) : User.t :=
  User.Build 0 (UserValidated.username v)
    (or_default (UserValidated.email v) EmptyString)
    (or_default (UserValidated.role v) USER)
    (UserValidated.bio v)
    (or_default (UserValidated.first_name v) EmptyString)
    (or_default (UserValidated.last_name v) EmptyString).

Module UserSerializer.
(** fields = ('username', 'email', 'role', 'bio', 'first_name',
    'last_name'), all writable; there is no [validate_username]. *)
Definition is_valid (env : Env) (s : Store) (instance : option User.t)
    (partial : bool) (d : UserData.t) : exn + UserValidated.t :=
  let username := on_key true partial (username_field env s instance)
                    (UserData.username d) in
  let email := on_key true partial (email_field env s instance)
                 (UserData.email d) in
  let role := on_key false partial RoleField (UserData.role d) in
  let bio := on_key false partial (CharField true None []) (UserData.bio d) in
  let first_name := on_key false partial (CharField true (Some 150) [])
                      (UserData.first_name d) in
  let last_name := on_key false partial (CharField true (Some 150) [])
                     (UserData.last_name d) in
  match username, email, role, bio, first_name, last_name with
  | inr u, inr e, inr r, inr b, inr f, inr l =>
      inr (UserValidated.Build u e r b f l)
  | _, _, _, _, _, _ =>
      inl (ValidationError
             (field_errors "username" username ++ field_errors "email" email
              ++ field_errors "role" role ++ field_errors "bio" bio
              ++ field_errors "first_name" first_name
              ++ field_errors "last_name" last_name))
  end.

Definition create (v : UserValidated.t) : V User.t := User_insert (new_user v).

Definition update (instance : User.t) (v : UserValidated.t) : V User.t :=
  User_update (set_attrs instance v).
End UserSerializer.

Module RegisterDataSerializer.
(** Валидатор для username. Исключает использование username "me". *)
Definition validate_username (value : string) : field_result string :=
  if String.eqb value "me" then inl [username_me] else inr value.

(** fields = ('username', 'email'); returns the validated pair. *)
Definition is_valid (env : Env) (s : Store) (username email : option string)
  : exn + string * string :=
  let u := and_then (on_key true false (username_field env s None) username)
                    validate_username in
  let e := on_key true false (email_field env s None) email in
  match u, e with
  | inr (Some u'), inr (Some e') => inr (u', e')
  | _, _ =>
      inl (ValidationError (field_errors "username" u ++ field_errors "email" e))
  end.
End RegisterDataSerializer.

Module TokenSerializer.
(** username = CharField(); confirmation_code = CharField() *)
Definition is_valid (username confirmation_code : option string)
  : exn + string * string :=
  let u := on_key true false (CharField false None []) username in
  let c := on_key true false (CharField false None []) confirmation_code in
  match u, c with
  | inr (Some u'), inr (Some c') => inr (u', c')
  | _, _ =>
      inl (ValidationError
             (field_errors "username" u ++ field_errors "confirmation_code" c))
  end.
End TokenSerializer.

Module UserEditSerializer.
(** fields = ('username', 'email', 'first_name', 'last_name', 'bio',
    'role'); read_only_fields = ('role',): the [role] key of the data is
    not looked at. *)
Definition is_valid (env : Env) (s : Store) (instance : option User.t)
    (partial : bool) (d : UserData.t) : exn + UserValidated.t :=
  let username := on_key true partial (username_field env s instance)
                    (UserData.username d) in
  let email := on_key true partial (email_field env s instance)
                 (UserData.email d) in
  let first_name := on_key false partial (CharField true (Some 150) [])
                      (UserData.first_name d) in
  let last_name := on_key false partial (CharField true (Some 150) [])
                     (UserData.last_name d) in
  let bio := on_key false partial (CharField true None []) (UserData.bio d) in
  match username, email, first_name, last_name, bio with
  | inr u, inr e, inr f, inr l, inr b =>
      inr (UserValidated.Build u e None b f l)
  | _, _, _, _, _ =>
      inl (ValidationError
             (field_errors "username" username ++ field_errors "email" email
              ++ field_errors "first_name" first_name
              ++ field_errors "last_name" last_name
              ++ field_errors "bio" bio))
  end.

Definition update (instance : User.t) (v : UserValidated.t) : V User.t :=
  User_update (set_attrs instance v).
End UserEditSerializer.

(** The request data of the review endpoints: [text] absent or a string,
    [score] absent or an integer. *)
Module ReviewData.
Record t : Type := Build { text : option string; score : option Z }.
End ReviewData.

Module ReviewSerializer.
(** Валидатор для оценки. Оценка должна быть целым числом от 1 до 10. *)
Definition validate_score (value : Z) : field_result Z :=
  if negb ((1 <=? value) && (value <=? 10)) then inl [score_1_to_10]
  else inr value.

(** [self.context]: the request's user and method, the view's
    [title_id]. *)
Record context : Type := Build_context {
  user : User.t;
  method : Method;
  title_id : Z
}.

Definition Title_by_id (s : Store) (title_id : Z) : list Title.t :=
  filter (fun t => Title.id t =? title_id) (titles s).

(** Валидатор для проверки, что пользователь еще не оставлял отзыв на это
    произведение. *)
Definition validate (s : Store) (ctx : context) (data : ReviewData.t)
  : exn + ReviewData.t :=
  let author := user ctx in
  match get_object_or_404 (Title_by_id s (title_id ctx)) with
  | inl e => inl e
  | inr title =>
      if Method_eqb (method ctx) POST
         && exists_ (filter (review_of (Title.id title) (User.id author))
                            (reviews s))
      then inl (ValidationError [(non_field_errors, [one_review_only])])
      else inr data
  end.

(** The writable fields are [text] (a TextField) and [score] (validators
    MinValueValidator(1), MaxValueValidator(10)); [title], [author] and
    [pub_date] are read-only.  Field errors stop the validation before
    [validate] runs. *)
Definition score_field (partial : bool) (d : option Z) : field_result (option Z) :=
  and_then (on_key true partial (IntegerField 10 1) d) validate_score.

Definition is_valid (s : Store) (ctx : context) (partial : bool)
    (d : ReviewData.t) : exn + ReviewData.t :=
  let text := on_key true partial (CharField false None []) (ReviewData.text d) in
  let score := score_field partial (ReviewData.score d) in
  match text, score with
  | inr t, inr sc => validate s ctx (ReviewData.Build t sc)
  | _, _ =>
      inl (ValidationError (field_errors "text" text ++ field_errors "score" score))
  end.

(** [serializer.save(author=..., title=...)] on a new review. *)
Definition create (now : Z) (author : User.t) (title : Title.t)
    (v : ReviewData.t) : V Review.t :=
  Review_insert
    (Review.Build 0 (Title.id title) (or_default (ReviewData.text v) EmptyString)
       (User.id author) (or_default (ReviewData.score v) 0) now).

(** [serializer.save()] on an instance: the validated keys are set. *)
Definition update (instance : Review.t) (v : ReviewData.t) : V Review.t :=
  Review_update
    (Review.Build (Review.id instance) (Review.title instance)
       (or_default (ReviewData.text v) (Review.text instance))
       (Review.author instance)
       (or_default (ReviewData.score v) (Review.score instance))
       (Review.pub_date instance)).
End ReviewSerializer.

(** ** Responses *)

(** What ReadOnlyTitleSerializer renders: the row, [rating], the genres
    and the category as (name, slug). *)
Module TitleRepr.
Record t : Type := Build {
  id : Z;
  name : string;
  year : Z;
  description : option string;
  rating : option Z;
  genre : list (string * string);
  category : option (string * string)
}.
End TitleRepr.

Inductive body : Type :=
| no_body
| message_resent                            (* {'message': 'Пользователь ... повторно. '} *)
| register_body (username email : string)   (* RegisterDataSerializer(...).data *)
| token_body (token : string)               (* {'token': str(token)} *)
| errors_body (e : errors)                  (* serializer.errors *)
| user_body (u : UserData.t)
| title_body (t : TitleRepr.t)
| titles_body (l : list TitleRepr.t)
| review_body (r : Review.t).

Record Response : Type := mkResponse { data : body; status : Z }.

(** The fields the user serializers render. *)
Definition user_representation (u : User.t) : UserData.t :=
  UserData.Build (User.username u) (Some (User.email u))
    (Some (Role_value (User.role u))) (User.bio u)
    (Some (User.first_name u)) (Some (User.last_name u)).

(** ** api/views.py *)

Open Scope view_scope.

(** Отправка кода подтверждения на email пользователя. *)
Definition send_confirm_mail (env : Env) (now : Z) (user : User.t) : V Z :=
  let confirmation_code := make_token env now user in
  let mail := Mail.Build "YaMDb registration" confirmation_code
                (DOMAIN_NAME env) [User.email user] in
  fun s =>
    if delivers env now mail
    then (inr 1, set_outbox (outbox s ++ [mail]) s)
    else (inl SMTPException, s).

(** [User.objects.filter(username=username, email=email)] on the raw
    values of the request: an absent key is None, and None selects NULL. *)
Definition User_by_pair (username email : option string) (s : Store) : list User.t :=
  filter (fun u => option_eqb String.eqb (User.username u) username
                   && option_eqb String.eqb (Some (User.email u)) email)
         (users s).

Definition User_by_email (email : option string) (s : Store) : list User.t :=
  filter (fun u => option_eqb String.eqb (Some (User.email u)) email) (users s).

Definition User_by_username (username : option string) (s : Store) : list User.t :=
  filter (fun u => option_eqb String.eqb (User.username u) username) (users s).

(** [User.objects.get_or_create(username=username, email=email)] *)
Definition get_or_create (username email : string) : V (User.t * bool) :=
  s <- get_state ;;
  match User_by_pair (Some username) (Some email) s with
  | [] =>
      u <- User_insert (User.Build 0 (Some username) email USER None EmptyString EmptyString) ;;
      ret (u, true)
  | [u] => ret (u, false)
  | _ :: _ :: _ => raise MultipleObjectsReturned
  end.

(** Регистрация нового пользователя. *)
Definition register (env : Env) (now : Z) (username email : option string)
  : V Response :=
  s <- get_state ;;
  let user := User_by_email email s in
  if exists_ (User_by_pair username email s) then
    user <- lift (get user) ;;
    send_confirm_mail env now user ;;;
    ret (mkResponse message_resent HTTP_200_OK)
  else
    v <- lift (RegisterDataSerializer.is_valid env s username email) ;;
    let '(username, email) := v in
    r <- get_or_create username email ;;
    send_confirm_mail env now (fst r) ;;;
    ret (mkResponse (register_body username email) HTTP_200_OK).

(** Получение JWT-токена. *)
Definition get_jwt_token (env : Env) (now : Z) (jti : string)
    (username confirmation_code : option string) : V Response :=
  v <- lift (TokenSerializer.is_valid username confirmation_code) ;;
  s <- get_state ;;
  user <- lift (get_object_or_404 (User_by_username (Some (fst v)) s)) ;;
  if check_token env now user (snd v) then
    let token := AccessToken.for_user (ACCESS_TOKEN_LIFETIME env) now jti user in
    ret (mkResponse (token_body (str_token env token)) HTTP_200_OK)
  else
    ret (mkResponse (errors_body []) HTTP_400_BAD_REQUEST).

Module UserViewSet.
(** [request.user] is the authenticated user (IsAuthenticated). *)
Definition users_own_profile (env : Env) (method : Method) (user : User.t)
    (d : UserData.t) : V Response :=
  if Method_eqb method GET then
    ret (mkResponse (user_body (user_representation user)) HTTP_200_OK)
  else if Method_eqb method PATCH then
    s <- get_state ;;
    v <- lift (UserEditSerializer.is_valid env s (Some user) true d) ;;
    u <- UserEditSerializer.update user v ;;
    ret (mkResponse (user_body (user_representation u)) HTTP_200_OK)
  else
    ret (mkResponse no_body HTTP_400_BAD_REQUEST).

(** [get_object()] with lookup_field = 'username'. *)
Definition get_object (username : string) : V User.t :=
  s <- get_state ;;
  lift (get_object_or_404 (User_by_username (Some username) s)).

Definition create (env : Env) (d : UserData.t) : V Response :=
  s <- get_state ;;
  v <- lift (UserSerializer.is_valid env s None false d) ;;
  u <- UserSerializer.create v ;;
  ret (mkResponse (user_body (user_representation u)) HTTP_201_CREATED).

(** Запрет операции PUT для обновления пользователя; PATCH arrives here
    from [partial_update] with [partial] set. *)
Definition update (env : Env) (method : Method) (username : string)
    (partial : bool) (d : UserData.t) : V Response :=
  if Method_eqb method PUT then
    ret (mkResponse no_body HTTP_405_METHOD_NOT_ALLOWED)
  else
    instance <- get_object username ;;
    s <- get_state ;;
    v <- lift (UserSerializer.is_valid env s (Some instance) partial d) ;;
    u <- UserSerializer.update instance v ;;
    ret (mkResponse (user_body (user_representation u)) HTTP_200_OK).

Definition destroy (username : string) : V Response :=
  instance <- get_object username ;;
  modify (User_delete instance) ;;;
  ret (mkResponse no_body HTTP_204_NO_CONTENT).
End UserViewSet.

Module CategoryViewSet.
(** lookup_field = 'slug' *)
Definition destroy (slug : string) : V Response :=
  s <- get_state ;;
  instance <- lift (get_object_or_404
                      (filter (fun c => String.eqb (Category.slug c) slug)
                              (categories s))) ;;
  modify (Category_delete instance) ;;;
  ret (mkResponse no_body HTTP_204_NO_CONTENT).
End CategoryViewSet.

Module GenreViewSet.
(** lookup_field = 'slug' *)
Definition destroy (slug : string) : V Response :=
  s <- get_state ;;
  instance <- lift (get_object_or_404
                      (filter (fun g => String.eqb (Genre.slug g) slug)
                              (genres s))) ;;
  modify (Genre_delete instance) ;;;
  ret (mkResponse no_body HTTP_204_NO_CONTENT).
End GenreViewSet.

(** [Avg('reviews__score')]: NULL over no row, else the sum over the
    count, here as an exact rational. *)
Definition Avg (scores : list Z) : option Q :=
  match scores with
  | [] => None
  | _ :: _ => Some (Qmake (fold_right Z.add 0 scores)
                          (Pos.of_nat (List.length scores)))
  end.

(** [serializers.IntegerField.to_representation]: [int(value)], which
    drops the fraction. *)
Definition IntegerField_to_representation (value : Q) : Z :=
  Z.quot (Qnum value) (Zpos (Qden value)).

Module TitleViewSet.
Definition scores_of (s : Store) (t : Title.t) : list Z :=
  map Review.score (filter (fun r => Review.title r =? Title.id t) (reviews s)).

(** Title.objects.all().annotate(rating=Avg('reviews__score')) *)
Definition queryset (s : Store) : list (Title.t * option Q) :=
  map (fun t => (t, Avg (scores_of s t))) (titles s).

(** ReadOnlyTitleSerializer: [rating] is an IntegerField; a field whose
    attribute is None is rendered as None. *)
Definition to_representation (s : Store) (row : Title.t * option Q) : TitleRepr.t :=
  let t := fst row in
  TitleRepr.Build (Title.id t) (Title.name t) (Title.year t)
    (Title.description t)
    (option_map IntegerField_to_representation (snd row))
    (flat_map
       (fun g =>
          map (fun _ => (Genre.name g, Genre.slug g))
              (filter (fun x => option_eqb Z.eqb (GenreTitle.title x) (Some (Title.id t))
                                && option_eqb Z.eqb (GenreTitle.genre x) (Some (Genre.id g)))
                      (genre_titles s)))
       (genres s))
    (match Title.category t with
     | None => None
     | Some c =>
         match filter (fun x => Category.id x =? c) (categories s) with
         | x :: _ => Some (Category.name x, Category.slug x)
         | [] => None
         end
     end).

(** The rows that the filter and the paginator choose from. *)
Definition list_ : V Response :=
  s <- get_state ;;
  ret (mkResponse (titles_body (map (to_representation s) (queryset s)))
                  HTTP_200_OK).

Definition get_object (pk : Z) : V (Title.t * option Q) :=
  s <- get_state ;;
  lift (get_object_or_404
          (filter (fun row => Title.id (fst row) =? pk) (queryset s))).

Definition retrieve (pk : Z) : V Response :=
  row <- get_object pk ;;
  s <- get_state ;;
  ret (mkResponse (title_body (to_representation s row)) HTTP_200_OK).

Definition destroy (pk : Z) : V Response :=
  row <- get_object pk ;;
  modify (Title_delete (fst row)) ;;;
  ret (mkResponse no_body HTTP_204_NO_CONTENT).
End TitleViewSet.

Module ReviewViewSet.
(** Возвращает отзывы только для конкретного произведения. *)
Definition get_queryset (title_id : Z) : V (list Review.t) :=
  s <- get_state ;;
  title <- lift (get_object_or_404 (ReviewSerializer.Title_by_id s title_id)) ;;
  ret (filter (fun r => Review.title r =? Title.id title) (reviews s)).

Definition get_object (title_id pk : Z) : V Review.t :=
  q <- get_queryset title_id ;;
  lift (get_object_or_404 (filter (fun r => Review.id r =? pk) q)).

(** Сохраняет новый отзыв, связывая его с текущим пользователем и
    произведением. *)
Definition perform_create (now : Z) (user : User.t) (title_id : Z)
    (v : ReviewData.t) : V Review.t :=
  s <- get_state ;;
  title <- lift (get_object_or_404 (ReviewSerializer.Title_by_id s title_id)) ;;
  ReviewSerializer.create now user title v.

(** POST: [now] is the clock that [auto_now_add] reads. *)
Definition create (now : Z) (user : User.t) (title_id : Z) (d : ReviewData.t)
  : V Response :=
  s <- get_state ;;
  v <- lift (ReviewSerializer.is_valid s
               (ReviewSerializer.Build_context user POST title_id) false d) ;;
  r <- perform_create now user title_id v ;;
  ret (mkResponse (review_body r) HTTP_201_CREATED).

(** PUT ([partial] unset) and PATCH ([partial] set). *)
Definition update (user : User.t) (title_id pk : Z) (partial : bool)
    (d : ReviewData.t) : V Response :=
  instance <- get_object title_id pk ;;
  s <- get_state ;;
  v <- lift (ReviewSerializer.is_valid s
               (ReviewSerializer.Build_context user
                  (if partial then PATCH else PUT) title_id) partial d) ;;
  r <- ReviewSerializer.update instance v ;;
  ret (mkResponse (review_body r) HTTP_200_OK).

Definition destroy (title_id pk : Z) : V Response :=
  instance <- get_object title_id pk ;;
  modify (Review_delete instance) ;;;
  ret (mkResponse no_body HTTP_204_NO_CONTENT).
End ReviewViewSet.

(** ** The operations of the API *)

(** The endpoints that write users or reviews, that delete from the
    catalogue, and that read titles; [user] is [request.user] where the
    handler reads it.  The other endpoints of the source (writing a title,
    a category, a genre or a comment, and the other reads) write neither
    the users nor the reviews table. *)
Inductive operation : Type :=
| RegisterUser (now : Z) (username email : option string)
| GetJwtToken (now : Z) (jti : string) (username confirmation_code : option string)
| UsersOwnProfile (method : Method) (user : User.t) (d : UserData.t)
| UserCreate (d : UserData.t)
| UserUpdate (method : Method) (username : string) (partial : bool) (d : UserData.t)
| UserDestroy (username : string)
| CategoryDestroy (slug : string)
| GenreDestroy (slug : string)
| TitleList
| TitleRetrieve (pk : Z)
| TitleDestroy (pk : Z)
| ReviewCreate (now : Z) (user : User.t) (title_id : Z) (d : ReviewData.t)
| ReviewUpdate (user : User.t) (title_id pk : Z) (partial : bool) (d : ReviewData.t)
| ReviewDestroy (title_id pk : Z).

Definition step (env : Env) (op : operation) : V Response :=
  match op with
  | RegisterUser now username email => register env now username email
  | GetJwtToken now jti username code => get_jwt_token env now jti username code
  | UsersOwnProfile method user d => UserViewSet.users_own_profile env method user d
  | UserCreate d => UserViewSet.create env d
  | UserUpdate method username partial d =>
      UserViewSet.update env method username partial d
  | UserDestroy username => UserViewSet.destroy username
  | CategoryDestroy slug => CategoryViewSet.destroy slug
  | GenreDestroy slug => GenreViewSet.destroy slug
  | TitleList => TitleViewSet.list_
  | TitleRetrieve pk => TitleViewSet.retrieve pk
  | TitleDestroy pk => TitleViewSet.destroy pk
  | ReviewCreate now user title_id d => ReviewViewSet.create now user title_id d
  | ReviewUpdate user title_id pk partial d =>
      ReviewViewSet.update user title_id pk partial d
  | ReviewDestroy title_id pk => ReviewViewSet.destroy title_id pk
  end.

(** The store after a sequence of requests, whatever each one answers. *)
Definition after (env : Env) (ops : list operation) (s : Store) : Store :=
  fold_left (fun st op => snd (step env op st)) ops s.

(** The user-management endpoints of UserViewSet (permission IsAdmin). *)
Definition admin_user_management (op : operation) : bool :=
  match op with
  | UserCreate _ | UserUpdate _ _ _ _ | UserDestroy _ => true
  | _ => false
  end.

(** The endpoint of the own profile. *)
Definition own_profile (op : operation) : bool :=
  match op with
  | UsersOwnProfile _ _ _ => true
  | _ => false
  end.

(** The authenticated user of a profile request is a row of the store. *)
Definition request_user_stored (s : Store) (op : operation) : Prop :=
  match op with
  | UsersOwnProfile _ user _ => In user (users s)
  | _ => True
  end.

(** ** Constraints as predicates on the store *)

Definition at_most_one {A} (p : A -> bool) (l : list A) : Prop :=
  (List.length (filter p l) <= 1)%nat.

(** Primary keys and [unique=True] columns. *)
Definition User_pk (s : Store) : Prop :=
  forall k, at_most_one (fun u => User.id u =? k) (users s).

Definition email_unique (s : Store) : Prop :=
  forall e, at_most_one (fun u => String.eqb (User.email u) e) (users s).

Definition username_unique (s : Store) : Prop :=
  forall n, at_most_one
              (fun u => option_eqb String.eqb (User.username u) (Some n))
              (users s).

Definition Title_pk (s : Store) : Prop :=
  forall k, at_most_one (fun t => Title.id t =? k) (titles s).

Definition Review_pk (s : Store) : Prop :=
  forall k, at_most_one (fun r => Review.id r =? k) (reviews s).

(** At most one Review per (title, author) pair. *)
Definition one_review_per_pair (s : Store) : Prop :=
  forall title author, at_most_one (review_of title author) (reviews s).

(** A computation keeps a relation between the store before and after. *)
Definition keeps {A} (R : Store -> Store -> Prop) (m : V A) : Prop :=
  forall s, R s (snd (m s)).

(** The two constraints of the reviews table. *)
Definition reviews_ok (s : Store) : Prop :=
  Review_pk s /\ one_review_per_pair s.

Definition reviews_stay_ok (s s' : Store) : Prop :=
  reviews_ok s -> reviews_ok s'.

(** [unique=True] on the slugs. *)
Definition Category_slug_unique (s : Store) : Prop :=
  forall x, at_most_one (fun c => String.eqb (Category.slug c) x) (categories s).

Definition Genre_slug_unique (s : Store) : Prop :=
  forall x, at_most_one (fun g => String.eqb (Genre.slug g) x) (genres s).

(** Every constraint that the models declare on the tables. *)
Record store_ok (s : Store) : Prop := mk_store_ok {
  ok_User_pk : User_pk s;
  ok_email : email_unique s;
  ok_username : username_unique s;
  ok_Category_slug : Category_slug_unique s;
  ok_Genre_slug : Genre_slug_unique s;
  ok_Title_pk : Title_pk s;
  ok_reviews : reviews_ok s
}.

Definition store_stays_ok (s s' : Store) : Prop := store_ok s -> store_ok s'.

(** The (key, role) column of the users table. *)
Definition roles (s : Store) : list (Z * Role) :=
  map (fun u => (User.id u, User.role u)) (users s).

(** Every stored user keeps its role; users may have been added. *)
Definition roles_kept (s s' : Store) : Prop :=
  exists new, roles s' = roles s ++ new.

(** The exact arithmetic mean of a non-empty list of scores. *)
Definition mean (scores : list Z) : Q :=
  inject_Z (fold_right Z.add 0 scores) / inject_Z (Z.of_nat (List.length scores)).

(** The sum of a list of scores, and the mean with its fraction dropped
    (None for no score). *)
Definition total (scores : list Z) : Z := fold_right Z.add 0 scores.

Definition shown_rating (scores : list Z) : option Z :=
  match scores with
  | [] => None
  | _ :: _ => Some (Z.quot (total scores) (Z.of_nat (List.length scores)))
  end.

(** ** A small instance *)

Module Sample.
Definition word_char (c : ascii) : bool :=
  let n := N_of_ascii c in
  (((48 <=? n) && (n <=? 57)) || ((65 <=? n) && (n <=? 90))
   || ((97 <=? n) && (n <=? 122)) || (n =? 95)
   || (n =? 46) || (n =? 64) || (n =? 43) || (n =? 45))%N.

Fixpoint all_chars (p : ascii -> bool) (s : string) : bool :=
  match s with
  | EmptyString => true
  | String c s' => p c && all_chars p s'
  end.

Definition decimal (z : Z) : string := NilZero.string_of_int (Z.to_int z).

(** A code spells out the address and the time it was made at. *)
Definition code_at (now : Z) (u : User.t) : string :=
  ("code-for-" ++ User.email u ++ "-at-" ++ decimal now)%string.

(** The username pattern on ASCII, an e-mail test that asks for an at
    sign, codes that are good for three ticks of the clock, a backend
    that takes every message, and tokens that spell out their claims. *)
Definition env : Env :=
  mkEnv (fun v => negb (String.eqb v EmptyString) && all_chars word_char v)
        (fun v => contains "@"%char v)
        code_at
        (fun now u c =>
           existsb (fun age => String.eqb c (code_at (now - age) u)) [0; 1; 2; 3])
        (fun _ _ => true)
        (fun t => ("jwt-" ++ AccessToken.token_type t ++ "-"
                   ++ decimal (AccessToken.user_id t) ++ "-"
                   ++ decimal (AccessToken.exp t) ++ "-"
                   ++ AccessToken.jti t)%string)
        300
        "noreply@yamdb.example".

(** The same, with an e-mail backend that is down. *)
Definition offline : Env :=
  mkEnv (UnicodeUsernameValidator env) (EmailValidator env)
        (make_token env) (check_token env)
        (fun _ _ => false)
        (str_token env) (ACCESS_TOKEN_LIFETIME env) (DOMAIN_NAME env).

Definition alice : User.t :=
  User.Build 1 (Some "alice") "a@x.com" USER None EmptyString EmptyString.
Definition bob : User.t :=
  User.Build 2 (Some "bob") "b@x.com" MODERATOR None EmptyString EmptyString.
(** What an administrator posts to create a user called me. *)
Definition me_data : UserData.t :=
  UserData.Build (Some "me") (Some "me@x.com") None None None None.

Definition books : Category.t := Category.Build 1 "Books" "books".
Definition scifi : Genre.t := Genre.Build 1 "Science fiction" "sci-fi".
Definition dune : Title.t := Title.Build 1 "Dune" 1965 None (Some 1).
Definition emma : Title.t := Title.Build 2 "Emma" 1815 None (Some 1).

Definition review1 : Review.t := Review.Build 1 1 "A classic." 1 7 100.
Definition review2 : Review.t := Review.Build 2 1 "Sand everywhere." 2 8 200.

Definition store : Store :=
  mkStore [alice; bob] [books] [scifi] [dune; emma]
          [GenreTitle.Build 1 (Some 1) (Some 1)]
          [review1; review2]
          [Comment.Build 1 1 "Agreed." 2 150]
          []
          (mkSequences 2 1 1 2 1).
End Sample.

(** ** The other endpoints of the catalogue and the comments *)

(** A response whose body is not one of [body]: the rendered row, or
    nothing. *)
Module Reply.
Record t (B : Type) : Type := Build { data : B; status : Z }.
End Reply.

(** *** Writes of the catalogue and of the comments *)

(** [unique=True] on [Category.slug] and on [Genre.slug]: each model has
    its own table, so the two tests do not look at each other. *)
Definition Category_slug_taken (s : Store) (slug : string) : bool :=
  exists_ (filter (fun c => String.eqb (Category.slug c) slug) (categories s)).

Definition Genre_slug_taken (s : Store) (slug : string) : bool :=
  exists_ (filter (fun g => String.eqb (Genre.slug g) slug) (genres s)).

Definition Category_insert (c : Category.t) : V Category.t := fun s =>
  if Category_slug_taken s (Category.slug c)
  then (inl (IntegrityError "slug"), s)
  else
    let k := next_id (Category_seq (sequences s))
                     (map Category.id (categories s)) in
    let c' := Category.Build k (Category.name c) (Category.slug c) in
    (inr c', set_categories (categories s ++ [c'])
               (set_sequences (Category_key_given k (sequences s)) s)).

Definition Genre_insert (g : Genre.t) : V Genre.t := fun s =>
  if Genre_slug_taken s (Genre.slug g)
  then (inl (IntegrityError "slug"), s)
  else
    let k := next_id (Genre_seq (sequences s)) (map Genre.id (genres s)) in
    let g' := Genre.Build k (Genre.name g) (Genre.slug g) in
    (inr g', set_genres (genres s ++ [g'])
               (set_sequences (Genre_key_given k (sequences s)) s)).

(** The comments table declares no constraint beside its key. *)
Definition Comment_insert (c : Comment.t) : V Comment.t := fun s =>
  let k := next_id (Comment_seq (sequences s)) (map Comment.id (comments s)) in
  let c' := Comment.Build k
              (Comment.review c) (Comment.text c) (Comment.author c)
              (Comment.pub_date c) in
  (inr c', set_comments (comments s ++ [c'])
             (set_sequences (Comment_key_given k (sequences s)) s)).

Definition Comment_update (c : Comment.t) : V Comment.t := fun s =>
  (inr c, set_comments (map (fun x => if Comment.id x =? Comment.id c then c else x)
                            (comments s)) s).

(** No foreign key points at a comment. *)
Definition Comment_delete (c : Comment.t) (s : Store) : Store :=
  set_comments (filter (fun x => negb (Comment.id x =? Comment.id c)) (comments s)) s.

(** *** CategorySerializer, GenreSerializer, CommentSerializer *)

(** The pattern of [serializers.SlugField]: ^[-a-zA-Z0-9_]+$ on a value
    that is trimmed and not blank. *)
Definition slug_char (c : ascii) : bool :=
  let n := N_of_ascii c in
  (((48 <=? n) && (n <=? 57)) || ((65 <=? n) && (n <=? 90))
   || ((97 <=? n) && (n <=? 122)) || (n =? 95) || (n =? 45))%N.

Fixpoint all_slug_chars (s : string) : bool :=
  match s with
  | EmptyString => true
  | String c s' => slug_char c && all_slug_chars s'
  end.

(** [serializers.SlugField]: a CharField that ends with the pattern. *)
Definition SlugField (max_len : option Z)
    (validators : list (string -> list code)) (data : string)
  : field_result string :=
  if String.eqb (strip data) EmptyString then inl [blank]
  else
    run_validators
      (validators
       ++ match max_len with Some n => [MaxLengthValidator n] | None => [] end
       ++ [ProhibitNullCharactersValidator;
           fun v => check (all_slug_chars v) invalid])
      (strip data).

(** The request data of the category and genre endpoints. *)
Module SlugData.
Record t : Type := Build { name : option string; slug : option string }.
End SlugData.

Module CategorySerializer.
(** fields = ('name', 'slug'): [name] has max_length=256, [slug] has
    max_length=50 and unique=True. *)
Definition is_valid (s : Store) (d : SlugData.t) : exn + string * string :=
  let name := on_key true false (CharField false (Some 256) []) (SlugData.name d) in
  let slug := on_key true false
                (SlugField (Some 50)
                   [fun v => check (negb (Category_slug_taken s v)) unique])
                (SlugData.slug d) in
  match name, slug with
  | inr (Some n), inr (Some g) => inr (n, g)
  | _, _ => inl (ValidationError (field_errors "name" name ++ field_errors "slug" slug))
  end.

Definition create (v : string * string) : V Category.t :=
  Category_insert (Category.Build 0 (fst v) (snd v)).
End CategorySerializer.

Module GenreSerializer.
(** fields = ('name', 'slug'), as for the categories, on the genres. *)
Definition is_valid (s : Store) (d : SlugData.t) : exn + string * string :=
  let name := on_key true false (CharField false (Some 256) []) (SlugData.name d) in
  let slug := on_key true false
                (SlugField (Some 50)
                   [fun v => check (negb (Genre_slug_taken s v)) unique])
                (SlugData.slug d) in
  match name, slug with
  | inr (Some n), inr (Some g) => inr (n, g)
  | _, _ => inl (ValidationError (field_errors "name" name ++ field_errors "slug" slug))
  end.

Definition create (v : string * string) : V Genre.t :=
  Genre_insert (Genre.Build 0 (fst v) (snd v)).
End GenreSerializer.

Module CommentSerializer.
(** fields = '__all__': [text] is the one writable field; [review] and
    [author] are read-only, [pub_date] has auto_now_add. *)
Definition is_valid (partial : bool) (text : option string) : exn + option string :=
  match on_key true partial (CharField false None []) text with
  | inl e => inl (ValidationError [("text", e)])
  | inr v => inr v
  end.

(** [serializer.save(author=..., review=...)] on a new comment. *)
Definition create (now : Z) (author : User.t) (review : Review.t)
    (v : option string) : V Comment.t :=
  Comment_insert
    (Comment.Build 0 (Review.id review) (or_default v EmptyString)
                   (User.id author) now).

Definition update (instance : Comment.t) (v : option string) : V Comment.t :=
  Comment_update
    (Comment.Build (Comment.id instance) (Comment.review instance)
                   (or_default v (Comment.text instance))
                   (Comment.author instance) (Comment.pub_date instance)).
End CommentSerializer.

(** *** The create endpoints of CategoryViewSet and GenreViewSet *)

(** mixins.CreateModelMixin on CategoryViewSet *)
Definition CategoryViewSet_create (d : SlugData.t) : V (Reply.t (string * string)) :=
  s <- get_state ;;
  v <- lift (CategorySerializer.is_valid s d) ;;
  c <- CategorySerializer.create v ;;
  ret (Reply.Build (Category.name c, Category.slug c) HTTP_201_CREATED).

(** mixins.CreateModelMixin on GenreViewSet *)
Definition GenreViewSet_create (d : SlugData.t) : V (Reply.t (string * string)) :=
  s <- get_state ;;
  v <- lift (GenreSerializer.is_valid s d) ;;
  g <- GenreSerializer.create v ;;
  ret (Reply.Build (Genre.name g, Genre.slug g) HTTP_201_CREATED).

Module CommentViewSet.
(** [get_object_or_404(Review, id=review_id, title=title_id)] *)
Definition Review_by_id_title (s : Store) (title_id review_id : Z) : list Review.t :=
  filter (fun r => (Review.id r =? review_id) && (Review.title r =? title_id))
         (reviews s).

(** Возвращает комментарии только для конкретного отзыва. *)
Definition get_queryset (title_id review_id : Z) : V (list Comment.t) :=
  s <- get_state ;;
  review <- lift (get_object_or_404 (Review_by_id_title s title_id review_id)) ;;
  ret (filter (fun c => Comment.review c =? Review.id review) (comments s)).

Definition get_object (title_id review_id pk : Z) : V Comment.t :=
  q <- get_queryset title_id review_id ;;
  lift (get_object_or_404 (filter (fun c => Comment.id c =? pk) q)).

(** Сохраняет новый комментарий, связывая его с текущим пользователем и
    отзывом. *)
Definition perform_create (now : Z) (user : User.t) (title_id review_id : Z)
    (v : option string) : V Comment.t :=
  s <- get_state ;;
  review <- lift (get_object_or_404 (Review_by_id_title s title_id review_id)) ;;
  CommentSerializer.create now user review v.

Definition create (now : Z) (user : User.t) (title_id review_id : Z)
    (text : option string) : V (Reply.t Comment.t) :=
  v <- lift (CommentSerializer.is_valid false text) ;;
  c <- perform_create now user title_id review_id v ;;
  ret (Reply.Build c HTTP_201_CREATED).

(** PUT ([partial] unset) and PATCH ([partial] set). *)
Definition update (title_id review_id pk : Z) (partial : bool)
    (text : option string) : V (Reply.t Comment.t) :=
  instance <- get_object title_id review_id pk ;;
  v <- lift (CommentSerializer.is_valid partial text) ;;
  c <- CommentSerializer.update instance v ;;
  ret (Reply.Build c HTTP_200_OK).

Definition destroy (title_id review_id pk : Z) : V (Reply.t unit) :=
  instance <- get_object title_id review_id pk ;;
  modify (Comment_delete instance) ;;;
  ret (Reply.Build tt HTTP_204_NO_CONTENT).
End CommentViewSet.

(** *** The requests *)

(** The operations above, and the endpoints of this part: the requests
    to every endpoint of [api/views.py] that is embedded here.  The
    create, update and partial_update of TitleViewSet are not: their
    serializer needs [reviews/validators.py], which is not at hand.
    They are the only endpoints that add titles and genre links and that
    set the category of a title. *)
Inductive request : Type :=
| Core (op : operation)
| CategoryCreate (d : SlugData.t)
| GenreCreate (d : SlugData.t)
| CommentCreate (now : Z) (user : User.t) (title_id review_id : Z)
                (text : option string)
| CommentUpdate (title_id review_id pk : Z) (partial : bool) (text : option string)
| CommentDestroy (title_id review_id pk : Z).

(** The store after a request, whatever it answers. *)
Definition handle (env : Env) (rq : request) (s : Store) : Store :=
  match rq with
  | Core op => snd (step env op s)
  | CategoryCreate d => snd (CategoryViewSet_create d s)
  | GenreCreate d => snd (GenreViewSet_create d s)
  | CommentCreate now user title_id review_id text =>
      snd (CommentViewSet.create now user title_id review_id text s)
  | CommentUpdate title_id review_id pk partial text =>
      snd (CommentViewSet.update title_id review_id pk partial text s)
  | CommentDestroy title_id review_id pk =>
      snd (CommentViewSet.destroy title_id review_id pk s)
  end.

(** The user that a request stores as the author of a new row. *)
Definition author_of (rq : request) : option User.t :=
  match rq with
  | Core (ReviewCreate _ user _ _) => Some user
  | CommentCreate _ user _ _ _ => Some user
  | _ => None
  end.

(** The requests are served one after the other, and the author of each
    is a user of the store that the request finds. *)
Fixpoint served (env : Env) (rqs : list request) (s : Store) : Prop :=
  match rqs with
  | [] => True
  | rq :: rest =>
      match author_of rq with
      | Some u => In u (users s)
      | None => True
      end
      /\ served env rest (handle env rq s)
  end.

Definition handle_all (env : Env) (rqs : list request) (s : Store) : Store :=
  fold_left (fun st rq => handle env rq st) rqs s.

(** *** References between the tables *)

Definition points_into (k : option Z) (ids : list Z) : Prop :=
  match k with
  | Some x => In x ids
  | None => True
  end.

(** Every foreign key of every row points at a row that is stored. *)
Record references_ok (s : Store) : Prop := mk_references_ok {
  ref_category :
    Forall (fun t => points_into (Title.category t) (map Category.id (categories s)))
           (titles s);
  ref_genre_title :
    Forall (fun x => points_into (GenreTitle.title x) (map Title.id (titles s))
                     /\ points_into (GenreTitle.genre x) (map Genre.id (genres s)))
           (genre_titles s);
  ref_review :
    Forall (fun r => In (Review.title r) (map Title.id (titles s))
                     /\ In (Review.author r) (map User.id (users s)))
           (reviews s);
  ref_comment :
    Forall (fun c => In (Comment.review c) (map Review.id (reviews s))
                     /\ In (Comment.author c) (map User.id (users s)))
           (comments s)
}.


(** *** A registration that passes *)

(** What RegisterDataSerializer and the test of register ask of a pair
    that is new to the store: both values pass their fields once trimmed,
    the username is not the literal me, no stored user has the trimmed
    username or the trimmed e-mail address, and none has the pair as it
    was sent. *)
Record registrable (env : Env) (s : Store) (username email : string) : Prop :=
  mk_registrable {
    reg_username_blank : strip username <> EmptyString;
    reg_username_length : len (strip username) <= 150;
    reg_username_nul : contains zero (strip username) = false;
    reg_username_pattern : UnicodeUsernameValidator env (strip username) = true;
    reg_username_me : strip username <> "me";
    reg_username_free :
      forall u, In u (users s) -> User.username u <> Some (strip username);
    reg_email_blank : strip email <> EmptyString;
    reg_email_length : len (strip email) <= 254;
    reg_email_nul : contains zero (strip email) = false;
    reg_email_pattern : EmailValidator env (strip email) = true;
    reg_email_free : forall u, In u (users s) -> User.email u <> strip email;
    reg_pair_new :
      forall u, In u (users s) ->
                ~ (User.username u = Some username /\ User.email u = email)
  }.

(** The row that such a registration stores. *)
Definition registered (s : Store) (username email : string) : User.t :=
  User.Build (next_id (User_seq (sequences s)) (map User.id (users s)))
             (Some (strip username))
             (strip email) USER None EmptyString EmptyString.

(** A user with another role. *)
Definition with_role (r : Role) (u : User.t) : User.t :=
  User.Build (User.id u) (User.username u) (User.email u) r (User.bio u)
             (User.first_name u) (User.last_name u).

(** *** Keys of the other tables, and the failure of a request *)

Definition Category_pk (s : Store) : Prop :=
  forall k, at_most_one (fun c => Category.id c =? k) (categories s).

Definition Genre_pk (s : Store) : Prop :=
  forall k, at_most_one (fun g => Genre.id g =? k) (genres s).

Definition GenreTitle_pk (s : Store) : Prop :=
  forall k, at_most_one (fun x => GenreTitle.id x =? k) (genre_titles s).

Definition Comment_pk (s : Store) : Prop :=
  forall k, at_most_one (fun c => Comment.id c =? k) (comments s).

(** The key of every table and every uniqueness constraint of the
    models. *)
Record tables_ok (s : Store) : Prop := mk_tables_ok {
  ok_store : store_ok s;
  ok_Category_pk : Category_pk s;
  ok_Genre_pk : Genre_pk s;
  ok_GenreTitle_pk : GenreTitle_pk s;
  ok_Comment_pk : Comment_pk s
}.

Definition tables_stay_ok (s s' : Store) : Prop := tables_ok s -> tables_ok s'.

Definition references_stay_ok (s s' : Store) : Prop :=
  references_ok s -> references_ok s'.

(** Every stored score is one of 1 to 10. *)
Definition scores_ok (s : Store) : Prop :=
  Forall (fun r => 1 <= Review.score r <= 10) (reviews s).

Definition scores_stay_ok (s s' : Store) : Prop := scores_ok s -> scores_ok s'.




(** * Properties *)

Unset Implicit Arguments.

(** ** The scenarios of the specification, run on the instance *)

(** A new user registers, a wrong code is refused, the code that was sent
    is exchanged for a token. *)
Example scenario_register_exchange :
  let s1 := snd (register Sample.env 100 (Some "carol") (Some "c@x.com")
                          Sample.store) in
  map User.username (users s1) = [Some "alice"; Some "bob"; Some "carol"]
  /\ map Mail.confirmation_code (outbox s1) = ["code-for-c@x.com-at-100"]
  /\ fst (get_jwt_token Sample.env 101 "j1" (Some "carol") (Some "guess") s1)
     = inr (mkResponse (errors_body []) HTTP_400_BAD_REQUEST)
  /\ fst (get_jwt_token Sample.env 101 "j1" (Some "carol")
                        (Some "code-for-c@x.com-at-100") s1)
     = inr (mkResponse (token_body "jwt-access-3-401-j1") HTTP_200_OK)
  /\ fst (get_jwt_token Sample.env 104 "j2" (Some "carol")
                        (Some "code-for-c@x.com-at-100") s1)
     = inr (mkResponse (errors_body []) HTTP_400_BAD_REQUEST).
Proof. vm_compute. repeat split. Qed.

(** When the e-mail backend is down, the registration of a new user
    raises after the user row is written, and no message is sent. *)
Example scenario_backend_down :
  let r := register Sample.offline 100 (Some "carol") (Some "c@x.com")
                    Sample.store in
  fst r = inl SMTPException
  /\ map User.username (users (snd r)) = [Some "alice"; Some "bob"; Some "carol"]
  /\ outbox (snd r) = [].
Proof. vm_compute. repeat split. Qed.

(** A key is not given twice: the user created after bob, who had the
    last key, was deleted gets the next one. *)
Example scenario_keys :
  let s1 := snd (UserViewSet.destroy "bob" Sample.store) in
  let s2 := snd (UserViewSet.create Sample.env Sample.me_data s1) in
  map User.id (users s1) = [1] /\ map User.id (users s2) = [1; 3].
Proof. vm_compute. repeat split. Qed.

(** A review with score 11 is refused, one with score 7 is stored, a
    second one by the same user on the same title is refused. *)
Example scenario_reviews :
  let d11 := ReviewData.Build (Some "Too good.") (Some 11) in
  let d7 := ReviewData.Build (Some "Good.") (Some 7) in
  let s1 := snd (ReviewViewSet.create 300 Sample.alice 2 d7 Sample.store) in
  fst (ReviewViewSet.create 300 Sample.alice 2 d11 Sample.store)
  = inl (ValidationError [("score", [max_value])])
  /\ fst (ReviewViewSet.create 300 Sample.alice 2 d7 Sample.store)
     = inr (mkResponse (review_body (Review.Build 3 2 "Good." 1 7 300))
                       HTTP_201_CREATED)
  /\ fst (ReviewViewSet.create 400 Sample.alice 2 d7 s1)
     = inl (ValidationError [(non_field_errors, [one_review_only])]).
Proof. vm_compute. repeat split. Qed.

(** Deleting the category leaves both titles, without a category;
    deleting the genre leaves the titles and no join row. *)
Example scenario_deletes :
  titles (snd (CategoryViewSet.destroy "books" Sample.store))
  = [Title.set_category None Sample.dune; Title.set_category None Sample.emma]
  /\ titles (snd (GenreViewSet.destroy "sci-fi" Sample.store))
     = [Sample.dune; Sample.emma]
  /\ genre_titles (snd (GenreViewSet.destroy "sci-fi" Sample.store)) = [].
Proof. vm_compute. repeat split. Qed.

(** ** Lists and constraints *)

(** Constraints of a table that is written out: split on every key test. *)
Ltac small_table :=
  unfold Title_pk, Review_pk, User_pk, email_unique, username_unique,
    Category_slug_unique, Genre_slug_unique, one_review_per_pair;
  intros; unfold at_most_one; cbv - [Z.eqb String.eqb];
  repeat match goal with
         | |- context [Z.eqb ?a ?b] => destruct (Z.eqb_spec a b)
         | |- context [String.eqb ?a ?b] => destruct (String.eqb_spec a b)
         end;
  cbn; try lia; try congruence.

Lemma filter_filter_le A (p q : A -> bool) (l : list A) :
  (List.length (filter p (filter q l)) <= List.length (filter p l))%nat.
Proof.
  induction l as [|x l IH]; simpl; [lia|].
  destruct (q x); simpl; destruct (p x); simpl; lia.
Qed.

Lemma filter_map_le A (p q : A -> bool) (f : A -> A) (l : list A) :
  (forall x, In x l -> p (f x) = true -> q x = true) ->
  (List.length (filter p (map f l)) <= List.length (filter q l))%nat.
Proof.
  induction l as [|x l IH]; simpl; intros H; [lia|].
  assert (IH' := IH (fun y Hy => H y (or_intror Hy))).
  destruct (p (f x)) eqn:Hp.
  - rewrite (H x (or_introl eq_refl) Hp). simpl. lia.
  - destruct (q x); simpl; lia.
Qed.

Lemma at_most_one_filter A (p q : A -> bool) (l : list A) :
  at_most_one p l -> at_most_one p (filter q l).
Proof.
  unfold at_most_one. intros H. pose proof (filter_filter_le A p q l). lia.
Qed.

Lemma at_most_one_eq A (p : A -> bool) (l : list A) (x y : A) :
  at_most_one p l -> In x l -> In y l -> p x = true -> p y = true -> x = y.
Proof.
  unfold at_most_one. intros H Hx Hy Px Py.
  assert (Ix : In x (filter p l)) by (apply filter_In; auto).
  assert (Iy : In y (filter p l)) by (apply filter_In; auto).
  destruct (filter p l) as [|a [|b r]]; simpl in *; try lia; try tauto.
  destruct Ix as [<-|[]], Iy as [<-|[]]. reflexivity.
Qed.

Lemma at_most_one_singleton A (p : A -> bool) (l : list A) (x : A) :
  at_most_one p l -> In x l -> p x = true -> filter p l = [x].
Proof.
  unfold at_most_one. intros H Hx Px.
  assert (Ix : In x (filter p l)) by (apply filter_In; auto).
  destruct (filter p l) as [|a [|b r]]; simpl in *; try lia; try tauto.
  destruct Ix as [<-|[]]. reflexivity.
Qed.

Lemma exists_filter_true A (p : A -> bool) (l : list A) :
  exists_ (filter p l) = true <-> exists x, In x l /\ p x = true.
Proof.
  split.
  - destruct (filter p l) as [|x r] eqn:E; simpl; [discriminate|].
    intros _. exists x. apply filter_In. rewrite E. left. reflexivity.
  - intros [x Hx]. apply filter_In in Hx.
    destruct (filter p l); [destruct Hx | reflexivity].
Qed.

Lemma exists_filter_false A (p : A -> bool) (l : list A) :
  exists_ (filter p l) = false <-> forall x, In x l -> p x = false.
Proof.
  split.
  - intros H x Hx. destruct (p x) eqn:Px; [|reflexivity].
    assert (E : exists_ (filter p l) = true)
      by (apply exists_filter_true; eauto).
    congruence.
  - intros H. destruct (exists_ (filter p l)) eqn:E; [|reflexivity].
    apply exists_filter_true in E. destruct E as [x [Hx Px]].
    rewrite (H x Hx) in Px. discriminate.
Qed.

Lemma next_id_above (last : Z) (ids : list Z) (x : Z) :
  In x ids -> x < next_id last ids.
Proof.
  unfold next_id. induction ids as [|y ids IH]; cbn [fold_right In]; [tauto|].
  intros [->|H]; [lia|]. specialize (IH H). lia.
Qed.

Lemma next_id_new (last : Z) (ids : list Z) : last < next_id last ids.
Proof. unfold next_id. lia. Qed.

(** ** Review scores *)

Lemma score_field_outside (partial : bool) (score : Z) :
  score < 1 \/ 10 < score ->
  exists e, ReviewSerializer.score_field partial (Some score) = inl e.
Proof.
  intros H. unfold ReviewSerializer.score_field, on_key, IntegerField,
    run_validators, check. cbn [flat_map app].
  destruct (score <=? 10) eqn:Hmax, (1 <=? score) eqn:Hmin; cbn; eauto.
  apply Z.leb_le in Hmax, Hmin. lia.
Qed.

Lemma score_field_inside (partial : bool) (score : Z) :
  1 <= score <= 10 ->
  ReviewSerializer.score_field partial (Some score) = inr (Some score).
Proof.
  intros [H1 H2]. unfold ReviewSerializer.score_field, on_key, IntegerField,
    run_validators, check, ReviewSerializer.validate_score. cbn [flat_map app].
  apply Z.leb_le in H1, H2. rewrite H1, H2. cbn. rewrite H1, H2. reflexivity.
Qed.

(** C6: a create_review call whose score lies outside the integer interval
    1..10 fails with ValidationError and leaves the store as it was, so no
    Review is created; a score inside the interval passes the range check
    of the field and of validate_score. *)
Theorem C6_score_range :
  forall (now : Z) (user : User.t) (title_id : Z) (text : option string)
         (score : Z) (s : Store),
    (score < 1 \/ 10 < score ->
     exists detail,
       ReviewViewSet.create now user title_id
         (ReviewData.Build text (Some score)) s
       = (inl (ValidationError detail), s)
       /\ classify (ValidationError detail) = Some ValidationErrorClass)
    /\ (1 <= score <= 10 ->
        ReviewSerializer.validate_score score = inr score
        /\ ReviewSerializer.score_field false (Some score) = inr (Some score)).
Proof.
  intros now user title_id text score s. split.
  - intros H. destruct (score_field_outside false score H) as [e He].
    unfold ReviewViewSet.create, bind, get_state, lift,
      ReviewSerializer.is_valid.
    cbn [ReviewData.score ReviewData.text]. rewrite He.
    destruct (on_key true false (CharField false None []) text);
      eexists; split; reflexivity.
  - intros H. split; [|apply score_field_inside; exact H].
    unfold ReviewSerializer.validate_score.
    destruct H as [H1 H2]. apply Z.leb_le in H1, H2. rewrite H1, H2. reflexivity.
Qed.

Lemma C6_score_range_witness :
  (exists detail,
     ReviewViewSet.create 300 Sample.alice 2
       (ReviewData.Build (Some "Too good.") (Some 11)) Sample.store
     = (inl (ValidationError detail), Sample.store)
     /\ classify (ValidationError detail) = Some ValidationErrorClass)
  /\ (ReviewSerializer.validate_score 7 = inr 7
      /\ ReviewSerializer.score_field false (Some 7) = inr (Some 7)).
Proof.
  split.
  - apply (proj1 (C6_score_range 300 Sample.alice 2 (Some "Too good.") 11
                    Sample.store)). right. lia.
  - apply (proj2 (C6_score_range 300 Sample.alice 2 (Some "Too good.") 7
                    Sample.store)). lia.
Defined.

(** ** Ratings *)

Lemma Avg_is_mean (scores : list Z) :
  scores <> [] -> exists q, Avg scores = Some q /\ q == mean scores.
Proof.
  destruct scores as [|x r]; [congruence|]. intros _.
  eexists. split; [reflexivity|].
  unfold mean, Qdiv, Qeq, Qmult, Qinv, inject_Z.
  cbn [List.length Qnum Qden]. rewrite Nat2Z.inj_succ.
  destruct (Z.succ (Z.of_nat (List.length r))) eqn:E; try lia.
  cbn [Qnum Qden]. rewrite Z.mul_1_r. change (Z.pos (1 * p)) with (Z.pos p).
  rewrite <- E, <- Nat2Z.inj_succ. f_equal.
  rewrite <- positive_nat_Z, Nat2Pos.id by discriminate. reflexivity.
Qed.

Lemma rating_of_Avg (scores : list Z) :
  option_map IntegerField_to_representation (Avg scores) = shown_rating scores.
Proof.
  destruct scores as [|x r]; [reflexivity|].
  unfold Avg, shown_rating, IntegerField_to_representation, total.
  cbn [option_map Qnum Qden]. do 2 f_equal.
  rewrite <- positive_nat_Z, Nat2Pos.id by discriminate. reflexivity.
Qed.

Lemma shown_rating_floor (scores : list Z) (z : Z) :
  shown_rating scores = Some z -> 0 <= total scores ->
  z * Z.of_nat (List.length scores) <= total scores
  < (z + 1) * Z.of_nat (List.length scores).
Proof.
  destruct scores as [|x r]; [discriminate|].
  intros H Hpos.
  remember (Z.of_nat (List.length (x :: r))) as n eqn:En.
  assert (Hn : 0 < n) by (subst n; cbn [List.length]; rewrite Nat2Z.inj_succ; lia).
  remember (total (x :: r)) as a eqn:Ea.
  assert (Hz : z = a / n).
  { unfold shown_rating in H. rewrite <- Ea, <- En in H.
    rewrite Z.quot_div_nonneg in H by assumption. congruence. }
  pose proof (Z.mul_div_le a n Hn).
  pose proof (Z.mul_succ_div_gt a n Hn).
  subst z. lia.
Qed.

Lemma queryset_In (s : Store) (row : Title.t * option Q) :
  In row (TitleViewSet.queryset s) <->
  In (fst row) (titles s) /\ snd row = Avg (TitleViewSet.scores_of s (fst row)).
Proof.
  unfold TitleViewSet.queryset. rewrite in_map_iff. split.
  - intros [t [<- Ht]]. auto.
  - destruct row as [t q]. cbn. intros [Ht ->]. exists t. auto.
Qed.

Lemma queryset_filter (s : Store) (pk : Z) :
  filter (fun row => Title.id (fst row) =? pk) (TitleViewSet.queryset s)
  = map (fun t => (t, Avg (TitleViewSet.scores_of s t)))
        (filter (fun t => Title.id t =? pk) (titles s)).
Proof.
  unfold TitleViewSet.queryset. induction (titles s) as [|t l IH]; [reflexivity|].
  cbn [map filter fst]. destruct (Title.id t =? pk); cbn [map]; rewrite IH; reflexivity.
Qed.

(** C2, as the code has it: a read of a Title (retrieve, and the row of
    that Title in list) shows as rating the arithmetic mean of the scores of
    the Title's Reviews with its fraction dropped, and shows null, never
    zero, when the Title has no Review. *)
Theorem C2_rating_is_truncated_mean :
  forall (s : Store) (t : Title.t),
    Title_pk s ->
    In t (titles s) ->
    let scores := TitleViewSet.scores_of s t in
    exists r : TitleRepr.t,
      TitleViewSet.retrieve (Title.id t) s
      = (inr (mkResponse (title_body r) HTTP_200_OK), s)
      /\ (exists l, TitleViewSet.list_ s
                    = (inr (mkResponse (titles_body l) HTTP_200_OK), s)
                    /\ In r l)
      /\ TitleRepr.id r = Title.id t
      /\ TitleRepr.rating r = shown_rating scores
      /\ (scores = [] -> TitleRepr.rating r = None)
      /\ (scores <> [] ->
          exists q, Avg scores = Some q /\ q == mean scores
                    /\ TitleRepr.rating r
                       = Some (Z.quot (Qnum q) (Zpos (Qden q))))
      /\ (forall z, TitleRepr.rating r = Some z -> 0 <= total scores ->
                    let n := Z.of_nat (List.length scores) in
                    z * n <= total scores < (z + 1) * n).
Proof.
  intros s t Hpk Ht scores.
  exists (TitleViewSet.to_representation s (t, Avg scores)).
  assert (Hf : filter (fun x => Title.id x =? Title.id t) (titles s) = [t]).
  { apply at_most_one_singleton; auto. apply Z.eqb_refl. }
  repeat split.
  - unfold TitleViewSet.retrieve, TitleViewSet.get_object, bind, get_state, lift, ret.
    rewrite queryset_filter, Hf. reflexivity.
  - eexists. split; [reflexivity|].
    apply in_map. apply queryset_In. auto.
  - unfold TitleViewSet.to_representation. cbn. apply rating_of_Avg.
  - intros E. unfold TitleViewSet.to_representation. cbn. rewrite E. reflexivity.
  - intros E. destruct (Avg_is_mean scores E) as [q [Hq Hm]].
    exists q. repeat split; auto.
    unfold TitleViewSet.to_representation. cbn. rewrite Hq. reflexivity.
  - unfold TitleViewSet.to_representation in H. cbn in H.
    rewrite rating_of_Avg in H. apply (shown_rating_floor scores z H H0).
  - unfold TitleViewSet.to_representation in H. cbn in H.
    rewrite rating_of_Avg in H. apply (shown_rating_floor scores z H H0).
Qed.

Lemma C2_rating_is_truncated_mean_witness :
  exists r : TitleRepr.t,
    TitleViewSet.retrieve 1 Sample.store
    = (inr (mkResponse (title_body r) HTTP_200_OK), Sample.store)
    /\ TitleRepr.rating r = Some 7.
Proof.
  assert (Hpk : Title_pk Sample.store).
  { small_table. }
  destruct (C2_rating_is_truncated_mean Sample.store Sample.dune Hpk
              (or_introl eq_refl)) as [r [H1 [_ [_ [H2 _]]]]].
  exists r. split; [exact H1|exact H2].
Defined.

(** The rating a read shows is not the exact mean: the reviews of the
    first title score 7 and 8, whose mean is 15/2; the read shows 7. *)
Lemma C2_counterexample :
  TitleViewSet.scores_of Sample.store Sample.dune = [7; 8]
  /\ mean [7; 8] == 15 # 2
  /\ exists r,
       TitleViewSet.retrieve (Title.id Sample.dune) Sample.store
       = (inr (mkResponse (title_body r) HTTP_200_OK), Sample.store)
       /\ TitleRepr.rating r = Some 7
       /\ ~ inject_Z 7 == mean [7; 8].
Proof.
  split; [reflexivity|]. split; [reflexivity|].
  eexists. split; [vm_compute; reflexivity|]. split; [reflexivity|].
  intros H. vm_compute in H. discriminate H.
Qed.

(** ** Relations that every step of a view keeps *)

Section Frame.
Variable R : Store -> Store -> Prop.
Hypothesis R_refl : forall s, R s s.
Hypothesis R_trans : forall a b c, R a b -> R b c -> R a c.

Lemma keeps_ret A (a : A) : keeps R (ret a).
Proof. intros s. apply R_refl. Qed.

Lemma keeps_raise A (e : exn) : keeps R (@raise Store A e).
Proof. intros s. apply R_refl. Qed.

Lemma keeps_lift A (r : exn + A) : keeps R (lift r).
Proof. intros s. apply R_refl. Qed.

Lemma keeps_get_state : keeps R get_state.
Proof. intros s. apply R_refl. Qed.

Lemma keeps_modify (f : Store -> Store) :
(forall s, R s (f s)) -> keeps R (modify f).
Proof. intros H s. apply H. Qed.

Lemma keeps_bind A B (m : V A) (k : A -> V B) :
keeps R m -> (forall a, keeps R (k a)) -> keeps R (bind m k).
Proof.
intros Hm Hk s. unfold bind. specialize (Hm s).
destruct (m s) as [[e|a] s1]; cbn [snd] in *; [exact Hm|].
eapply R_trans; [exact Hm|]. apply Hk.
Qed.
End Frame.

(** Unfold the monad where a view is computed on a given store. *)
Ltac run :=
  unfold bind, ret, raise, lift, get_state, modify in *; cbn beta iota in *.

(** Walk through a view: binds, tests and the pure steps; what is left
    are the writes. *)
Ltac frame Hrefl Htrans :=
  repeat first
    [ apply (keeps_ret _ Hrefl)
    | apply (keeps_raise _ Hrefl)
    | apply (keeps_lift _ Hrefl)
    | apply (keeps_get_state _ Hrefl)
    | apply (keeps_bind _ Htrans); [|intros ?]
    | match goal with
      | |- keeps _ (match ?x with _ => _ end) => destruct x
      | |- keeps _ (if ?x then _ else _) => destruct x
      end ].

(** ** One review per title and author *)

Lemma reviews_ok_same (s s' : Store) :
  reviews s' = reviews s -> reviews_ok s -> reviews_ok s'.
Proof.
  unfold reviews_ok, Review_pk, one_review_per_pair. intros ->. auto.
Qed.

Lemma reviews_ok_filter (s s' : Store) (q : Review.t -> bool) :
  reviews s' = filter q (reviews s) -> reviews_ok s -> reviews_ok s'.
Proof.
  unfold reviews_ok, Review_pk, one_review_per_pair. intros -> [H1 H2].
  split; intros; apply at_most_one_filter; auto.
Qed.

Lemma review_taken_none (s : Store) (title author : Z) :
  review_taken s None title author
  = exists_ (filter (review_of title author) (reviews s)).
Proof.
  unfold review_taken. f_equal. apply filter_ext. intros r.
  cbn. apply andb_true_r.
Qed.

Lemma review_of_inv (title author : Z) (r : Review.t) :
  review_of title author r = true ->
  Review.title r = title /\ Review.author r = author.
Proof.
  unfold review_of. intros H. apply andb_prop in H. destruct H as [H1 H2].
  apply Z.eqb_eq in H1, H2. auto.
Qed.

Lemma Review_insert_ok (r : Review.t) (s : Store) :
  reviews_ok s -> reviews_ok (snd (Review_insert r s)).
Proof.
  intros [Hpk Hone]. unfold Review_insert.
  destruct (review_taken s None (Review.title r) (Review.author r)) eqn:Ht;
    cbn [snd]; [split; assumption|].
  rewrite review_taken_none in Ht.
  assert (Hnone := proj1 (exists_filter_false _ _ _) Ht).
  split.
  - intros k. unfold at_most_one. cbn [reviews set_reviews set_sequences].
    rewrite filter_app, length_app. cbn [filter Review.id].
    specialize (Hpk k). unfold at_most_one in Hpk.
    destruct (Z.eqb_spec (next_id (Review_seq (sequences s)) (map Review.id (reviews s))) k) as [E|E];
      cbn [List.length]; [|lia].
    assert (Hz : filter (fun x => Review.id x =? k) (reviews s) = []).
    { destruct (filter (fun x => Review.id x =? k) (reviews s)) as [|x l] eqn:F;
        [reflexivity|].
      assert (Hx : In x (filter (fun x => Review.id x =? k) (reviews s)))
        by (rewrite F; left; reflexivity).
      apply filter_In in Hx. destruct Hx as [Hx Hk]. apply Z.eqb_eq in Hk.
      pose proof (next_id_above (Review_seq (sequences s)) (map Review.id (reviews s)) (Review.id x)
                    (in_map _ _ _ Hx)). lia. }
    rewrite Hz. cbn. lia.
  - intros title author. unfold at_most_one. cbn [reviews set_reviews set_sequences].
    rewrite filter_app, length_app. cbn [filter].
    specialize (Hone title author). unfold at_most_one in Hone.
    match goal with |- context [review_of title author ?x] =>
      destruct (review_of title author x) eqn:Hr end; cbn [List.length]; [|lia].
    apply review_of_inv in Hr. cbn in Hr. destruct Hr as [<- <-].
    destruct (filter (review_of (Review.title r) (Review.author r)) (reviews s));
      [cbn; lia|discriminate].
Qed.

Lemma Review_update_ok (r : Review.t) (s : Store) :
  reviews_ok s -> reviews_ok (snd (Review_update r s)).
Proof.
  intros [Hpk Hone]. unfold Review_update.
  destruct (review_taken s (Some (Review.id r)) (Review.title r) (Review.author r))
    eqn:Ht; cbn [snd]; [split; assumption|].
  unfold review_taken in Ht.
  assert (Hnone := proj1 (exists_filter_false _ _ _) Ht). cbn beta in Hnone.
  split.
  - intros k. unfold at_most_one. cbn [reviews set_reviews set_sequences].
    eapply Nat.le_trans; [|apply (Hpk k)].
    apply filter_map_le. intros x _.
    destruct (Z.eqb_spec (Review.id x) (Review.id r)) as [E|E]; [|auto].
    rewrite E. auto.
  - intros title author. unfold at_most_one. cbn [reviews set_reviews set_sequences].
    destruct (review_of title author r) eqn:Hr.
    + eapply Nat.le_trans; [|apply (Hpk (Review.id r))].
      apply filter_map_le. intros x Hx.
      destruct (Z.eqb_spec (Review.id x) (Review.id r)) as [E|E]; [auto|].
      intros Hm. apply review_of_inv in Hr. destruct Hr as [<- <-].
      specialize (Hnone x Hx). rewrite Hm in Hnone. cbn in Hnone.
      apply negb_false_iff in Hnone. apply Z.eqb_eq in Hnone. contradiction.
    + eapply Nat.le_trans; [|apply (Hone title author)].
      apply filter_map_le. intros x _.
      destruct (Z.eqb_spec (Review.id x) (Review.id r)) as [E|E]; [|auto].
      rewrite Hr. discriminate.
Qed.

Lemma delete_reviews_ok (doomed : Review.t -> bool) (s : Store) :
  reviews_ok s -> reviews_ok (delete_reviews doomed s).
Proof.
  apply reviews_ok_filter with (q := fun r => negb (doomed r)). reflexivity.
Qed.

Lemma reviews_stay_ok_refl (s : Store) : reviews_stay_ok s s.
Proof. intros H. exact H. Qed.

Lemma reviews_stay_ok_trans (a b c : Store) :
  reviews_stay_ok a b -> reviews_stay_ok b c -> reviews_stay_ok a c.
Proof. unfold reviews_stay_ok. auto. Qed.

Lemma keeps_same_reviews A (m : V A) :
  (forall s, reviews (snd (m s)) = reviews s) -> keeps reviews_stay_ok m.
Proof. intros H s Hs. eapply reviews_ok_same; [apply H|exact Hs]. Qed.

Lemma send_confirm_mail_reviews (env : Env) (now : Z) (u : User.t) :
  keeps reviews_stay_ok (send_confirm_mail env now u).
Proof.
  apply keeps_same_reviews. intros s. unfold send_confirm_mail.
  destruct (delivers env now _); reflexivity.
Qed.

Lemma User_insert_reviews (u : User.t) : keeps reviews_stay_ok (User_insert u).
Proof.
  apply keeps_same_reviews. intros s. unfold User_insert.
  destruct (username_taken _ _ _); [reflexivity|].
  destruct (email_taken _ _ _); reflexivity.
Qed.

Lemma User_update_reviews (u : User.t) : keeps reviews_stay_ok (User_update u).
Proof.
  apply keeps_same_reviews. intros s. unfold User_update.
  destruct (username_taken _ _ _); [reflexivity|].
  destruct (email_taken _ _ _); reflexivity.
Qed.

Lemma Review_insert_reviews (r : Review.t) : keeps reviews_stay_ok (Review_insert r).
Proof. intros s H. apply Review_insert_ok. exact H. Qed.

Lemma Review_update_reviews (r : Review.t) : keeps reviews_stay_ok (Review_update r).
Proof. intros s H. apply Review_update_ok. exact H. Qed.

Lemma deletes_reviews :
  (forall u, keeps reviews_stay_ok (modify (User_delete u)))
  /\ (forall t, keeps reviews_stay_ok (modify (Title_delete t)))
  /\ (forall c, keeps reviews_stay_ok (modify (Category_delete c)))
  /\ (forall g, keeps reviews_stay_ok (modify (Genre_delete g)))
  /\ (forall r, keeps reviews_stay_ok (modify (Review_delete r))).
Proof.
  split; [|split; [|split; [|split]]]; intros x s H; cbn [modify snd].
  - eapply reviews_ok_same; [|apply delete_reviews_ok; exact H]. reflexivity.
  - eapply reviews_ok_same; [|apply delete_reviews_ok; exact H]. reflexivity.
  - eapply reviews_ok_same; [|exact H]. reflexivity.
  - eapply reviews_ok_same; [|exact H]. reflexivity.
  - apply delete_reviews_ok. exact H.
Qed.

(** Every operation keeps the constraints of the reviews table. *)
Lemma step_reviews_ok (env : Env) (op : operation) :
  keeps reviews_stay_ok (step env op).
Proof.
  destruct op; cbn [step];
    unfold register, get_or_create, get_jwt_token,
      UserViewSet.users_own_profile, UserViewSet.create, UserViewSet.update,
      UserViewSet.destroy, UserViewSet.get_object,
      UserEditSerializer.update, UserSerializer.create, UserSerializer.update,
      CategoryViewSet.destroy, GenreViewSet.destroy,
      TitleViewSet.list_, TitleViewSet.retrieve, TitleViewSet.destroy,
      TitleViewSet.get_object,
      ReviewViewSet.create, ReviewViewSet.perform_create, ReviewViewSet.update,
      ReviewViewSet.destroy, ReviewViewSet.get_object, ReviewViewSet.get_queryset,
      ReviewSerializer.create, ReviewSerializer.update;
    frame reviews_stay_ok_refl reviews_stay_ok_trans;
    first [ apply send_confirm_mail_reviews | apply User_insert_reviews
          | apply User_update_reviews | apply Review_insert_reviews
          | apply Review_update_reviews | apply deletes_reviews ].
Qed.

Lemma after_reviews_ok (env : Env) (ops : list operation) (s : Store) :
  reviews_ok s -> reviews_ok (after env ops s).
Proof.
  unfold after. revert s. induction ops as [|op ops IH]; intros s H; [exact H|].
  cbn [fold_left]. apply IH. apply step_reviews_ok. exact H.
Qed.

Lemma Title_by_id_singleton (s : Store) (title : Title.t) :
  Title_pk s -> In title (titles s) ->
  ReviewSerializer.Title_by_id s (Title.id title) = [title].
Proof.
  intros Hpk Hin. unfold ReviewSerializer.Title_by_id.
  apply at_most_one_singleton; auto. apply Z.eqb_refl.
Qed.

Lemma is_valid_duplicate (s : Store) (user : User.t) (title : Title.t)
    (r : Review.t) (d : ReviewData.t) :
  Title_pk s -> In title (titles s) ->
  In r (reviews s) ->
  Review.title r = Title.id title -> Review.author r = User.id user ->
  exists detail,
    ReviewSerializer.is_valid s
      (ReviewSerializer.Build_context user POST (Title.id title)) false d
    = inl (ValidationError detail).
Proof.
  intros Hpk Hin Hr Ht Ha. unfold ReviewSerializer.is_valid.
  destruct (on_key true false (CharField false None []) (ReviewData.text d));
    [eauto|].
  destruct (ReviewSerializer.score_field false (ReviewData.score d)); [eauto|].
  unfold ReviewSerializer.validate. cbn [ReviewSerializer.title_id
    ReviewSerializer.method ReviewSerializer.user].
  rewrite (Title_by_id_singleton s title Hpk Hin). cbn [get_object_or_404 get].
  assert (E : exists_ (filter (review_of (Title.id title) (User.id user))
                              (reviews s)) = true).
  { apply exists_filter_true. exists r. split; [exact Hr|].
    unfold review_of. rewrite Ht, Ha, !Z.eqb_refl. reflexivity. }
  rewrite E. cbn. eauto.
Qed.

(** C1, as the code has it: at most one Review exists for every (title,
    author) pair, and every operation, hence every sequence of operations,
    keeps it so; so does every write of the store to the reviews table,
    whatever the row, because the store tests unique_review itself and
    refuses a second row for a pair with an integrity error; a second
    create_review for a pair that has a Review fails in the serializer
    with ValidationError, and the store is left as it was. *)
Theorem C1_one_review_per_pair :
  forall (env : Env) (s : Store),
    Review_pk s -> one_review_per_pair s ->
    (forall op, one_review_per_pair (snd (step env op s))
                /\ Review_pk (snd (step env op s)))
    /\ (forall ops, one_review_per_pair (after env ops s))
    /\ (forall row doomed,
          one_review_per_pair (snd (Review_insert row s))
          /\ one_review_per_pair (snd (Review_update row s))
          /\ one_review_per_pair (delete_reviews doomed s))
    /\ (forall (now : Z) (user : User.t) (title : Title.t) (r : Review.t)
               (d : ReviewData.t),
          Title_pk s -> In title (titles s) ->
          In r (reviews s) ->
          Review.title r = Title.id title -> Review.author r = User.id user ->
          (forall text score pub_date,
              Review_insert
                (Review.Build 0 (Title.id title) text (User.id user) score
                              pub_date) s
              = (inl (IntegrityError unique_review), s))
          /\ (exists detail,
                ReviewViewSet.create now user (Title.id title) d s
                = (inl (ValidationError detail), s)
                /\ classify (ValidationError detail)
                   = Some ValidationErrorClass)).
Proof.
  intros env s Hpk Hone.
  assert (Hok : reviews_ok s) by (split; assumption).
  split; [|split; [|split]].
  - intros op. destruct (step_reviews_ok env op s Hok). auto.
  - intros ops. apply (after_reviews_ok env ops s Hok).
  - intros row doomed. split; [|split].
    + apply (Review_insert_ok row s Hok).
    + apply (Review_update_ok row s Hok).
    + apply (delete_reviews_ok doomed s Hok).
  - intros now user title r d Htpk Hin Hr Ht Ha. split.
    + intros text score pub_date. unfold Review_insert.
      cbn [Review.title Review.author]. rewrite review_taken_none.
      assert (E : exists_ (filter (review_of (Title.id title) (User.id user))
                                  (reviews s)) = true).
      { apply exists_filter_true. exists r. split; [exact Hr|].
        unfold review_of. rewrite Ht, Ha, !Z.eqb_refl. reflexivity. }
      rewrite E. reflexivity.
    + destruct (is_valid_duplicate s user title r d Htpk Hin Hr Ht Ha)
        as [detail E].
      exists detail. split; [|reflexivity].
      unfold ReviewViewSet.create. run. rewrite E. reflexivity.
Qed.

Lemma C1_one_review_per_pair_witness :
  one_review_per_pair
    (snd (step Sample.env
            (ReviewCreate 300 Sample.alice 1
               (ReviewData.Build (Some "Once more.") (Some 9)))
            Sample.store))
  /\ exists detail,
       ReviewViewSet.create 300 Sample.alice 1
         (ReviewData.Build (Some "Once more.") (Some 9)) Sample.store
       = (inl (ValidationError detail), Sample.store).
Proof.
  assert (H1 : Review_pk Sample.store) by small_table.
  assert (H2 : one_review_per_pair Sample.store) by small_table.
  assert (H3 : Title_pk Sample.store) by small_table.
  destruct (C1_one_review_per_pair Sample.env Sample.store H1 H2)
    as [Hstep [_ [_ Hsecond]]].
  destruct (Hsecond 300 Sample.alice Sample.dune Sample.review1
              (ReviewData.Build (Some "Once more.") (Some 9))
              H3 (or_introl eq_refl) (or_introl eq_refl) eq_refl eq_refl)
    as [_ [detail [Hc _]]].
  split.
  - apply Hstep.
  - exists detail. exact Hc.
Defined.

(** The second create_review fails, but not with a ConflictError: what
    is raised is the serializer's ValidationError. *)
Lemma C1_counterexample :
  exists e,
    ReviewViewSet.create 300 Sample.alice 1
      (ReviewData.Build (Some "Once more.") (Some 9)) Sample.store
    = (inl e, Sample.store)
    /\ e = ValidationError [(non_field_errors, [one_review_only])]
    /\ classify e <> Some ConflictErrorClass.
Proof.
  eexists. split; [vm_compute; reflexivity|]. split; [reflexivity|discriminate].
Qed.

(** ** Updating and deleting a review *)

Lemma text_field_codes (partial : bool) (d : option string) (e : list code) :
  on_key true partial (CharField false None []) d = inl e ->
  ~ In one_review_only e.
Proof.
  unfold on_key, CharField, run_validators, ProhibitNullCharactersValidator, check.
  cbn [app flat_map].
  destruct d as [tx|]; [|destruct partial; cbn; intros [=]; subst; cbn; intuition discriminate].
  destruct (String.eqb (strip tx) EmptyString); [intros [=]; subst; cbn; intuition discriminate|].
  destruct (negb (contains zero (strip tx))); cbn; intros [=]; subst; cbn;
    intuition discriminate.
Qed.

Lemma score_field_codes (partial : bool) (d : option Z) (e : list code) :
  ReviewSerializer.score_field partial d = inl e -> ~ In one_review_only e.
Proof.
  unfold ReviewSerializer.score_field, and_then, on_key, IntegerField,
    run_validators, check, ReviewSerializer.validate_score.
  cbn [app flat_map].
  destruct d as [z|]; [|destruct partial; cbn; intros [=]; subst; cbn; intuition discriminate].
  destruct (z <=? 10) eqn:E1, (1 <=? z) eqn:E2; cbn; rewrite ?E1, ?E2; cbn;
    intros [=]; subst; cbn; intuition discriminate.
Qed.

Lemma field_errors_In A (name f : string) (r : field_result A) (cs : list code) :
  In (f, cs) (field_errors name r) -> r = inl cs.
Proof.
  destruct r as [e|a]; cbn; [|tauto]. intros [[= _ ->]|[]]. reflexivity.
Qed.

Lemma get_object_review (s : Store) (title : Title.t) (r : Review.t) :
  Title_pk s -> Review_pk s -> In title (titles s) -> In r (reviews s) ->
  Review.title r = Title.id title ->
  ReviewViewSet.get_object (Title.id title) (Review.id r) s = (inr r, s).
Proof.
  intros Htpk Hrpk Hin Hr Ht.
  unfold ReviewViewSet.get_object, ReviewViewSet.get_queryset. run.
  rewrite (Title_by_id_singleton s title Htpk Hin). cbn.
  assert (E : filter (fun x => Review.id x =? Review.id r)
                (filter (fun x => Review.title x =? Title.id title) (reviews s))
              = [r]).
  { apply at_most_one_singleton.
    - apply at_most_one_filter. apply Hrpk.
    - apply filter_In. split; [exact Hr|]. rewrite Ht. apply Z.eqb_refl.
    - apply Z.eqb_refl. }
  rewrite E. reflexivity.
Qed.

Lemma review_not_taken_by_other (s : Store) (r : Review.t) :
  one_review_per_pair s -> In r (reviews s) ->
  review_taken s (Some (Review.id r)) (Review.title r) (Review.author r) = false.
Proof.
  intros Hone Hr. unfold review_taken. apply exists_filter_false. intros x Hx.
  destruct (review_of (Review.title r) (Review.author r) x) eqn:E; [|reflexivity].
  assert (x = r).
  { apply (at_most_one_eq _ _ _ x r (Hone (Review.title r) (Review.author r)));
      auto.
    unfold review_of. rewrite !Z.eqb_refl. reflexivity. }
  subst x. cbn. rewrite Z.eqb_refl. reflexivity.
Qed.

(** C7: on an existing Review, update (PUT and PATCH) and delete run no
    one-review-per-pair check: [validate] tests the pair only when the
    method is POST; an update succeeds or fails on its fields, never with
    the duplicate-review error of the serializer nor with the store's
    unique_review; a delete succeeds. *)
Theorem C7_update_delete_unguarded :
  forall (s : Store) (user : User.t) (title : Title.t) (r : Review.t)
         (partial : bool) (d : ReviewData.t),
    Title_pk s -> Review_pk s -> one_review_per_pair s ->
    In title (titles s) -> In r (reviews s) ->
    Review.title r = Title.id title ->
    (forall (m : Method) (v : ReviewData.t),
        m <> POST ->
        ReviewSerializer.validate s
          (ReviewSerializer.Build_context user m (Title.id title)) v = inr v)
    /\ ((exists r' s',
            ReviewViewSet.update user (Title.id title) (Review.id r) partial d s
            = (inr (mkResponse (review_body r') HTTP_200_OK), s')
            /\ Review.id r' = Review.id r
            /\ Review.title r' = Review.title r
            /\ Review.author r' = Review.author r)
        \/ (exists detail,
              ReviewViewSet.update user (Title.id title) (Review.id r) partial d s
              = (inl (ValidationError detail), s)
              /\ forall f cs, In (f, cs) detail -> ~ In one_review_only cs))
    /\ ReviewViewSet.destroy (Title.id title) (Review.id r) s
       = (inr (mkResponse no_body HTTP_204_NO_CONTENT), Review_delete r s).
Proof.
  intros s user title r partial d Htpk Hrpk Hone Hin Hr Ht.
  assert (Hval : forall (m : Method) (v : ReviewData.t),
             m <> POST ->
             ReviewSerializer.validate s
               (ReviewSerializer.Build_context user m (Title.id title)) v = inr v).
  { intros m v Hm. unfold ReviewSerializer.validate.
    cbn [ReviewSerializer.title_id ReviewSerializer.method ReviewSerializer.user].
    rewrite (Title_by_id_singleton s title Htpk Hin). cbn [get_object_or_404 get].
    destruct m; cbn; try reflexivity. congruence. }
  split; [exact Hval|]. split.
  - unfold ReviewViewSet.update.
    pose proof (get_object_review s title r Htpk Hrpk Hin Hr Ht) as Hg.
    run. rewrite Hg. cbn beta iota.
    unfold ReviewSerializer.is_valid.
    destruct (on_key true partial (CharField false None []) (ReviewData.text d))
      as [et|tx] eqn:Etx.
    + right. eexists. split; [reflexivity|].
      intros f cs Hf. apply in_app_or in Hf. destruct Hf as [Hf|Hf].
      * apply field_errors_In in Hf. injection Hf as <-.
        eapply text_field_codes. exact Etx.
      * apply field_errors_In in Hf.
        eapply score_field_codes. exact Hf.
    + destruct (ReviewSerializer.score_field partial (ReviewData.score d))
        as [es|sc] eqn:Esc.
      * right. eexists. split; [reflexivity|].
        intros f cs Hf. cbn in Hf. destruct Hf as [[= _ <-]|[]].
        eapply score_field_codes. exact Esc.
      * left. rewrite Hval by (destruct partial; discriminate).
        unfold ReviewSerializer.update, Review_update.
        cbn [Review.id Review.title Review.author].
        rewrite (review_not_taken_by_other s r Hone Hr).
        do 2 eexists. split; [reflexivity|]. cbn. auto.
  - unfold ReviewViewSet.destroy.
    pose proof (get_object_review s title r Htpk Hrpk Hin Hr Ht) as Hg.
    run. rewrite Hg. reflexivity.
Qed.

Lemma C7_update_delete_unguarded_witness :
  ReviewSerializer.validate Sample.store
    (ReviewSerializer.Build_context Sample.alice PATCH 1)
    (ReviewData.Build None (Some 9))
  = inr (ReviewData.Build None (Some 9))
  /\ ReviewViewSet.destroy 1 1 Sample.store
     = (inr (mkResponse no_body HTTP_204_NO_CONTENT),
        Review_delete Sample.review1 Sample.store).
Proof.
  assert (H1 : Title_pk Sample.store) by small_table.
  assert (H2 : Review_pk Sample.store) by small_table.
  assert (H3 : one_review_per_pair Sample.store) by small_table.
  destruct (C7_update_delete_unguarded Sample.store Sample.alice Sample.dune
              Sample.review1 true (ReviewData.Build None (Some 9))
              H1 H2 H3 (or_introl eq_refl) (or_introl eq_refl) eq_refl)
    as [Hv [_ Hd]].
  split; [apply Hv; discriminate|exact Hd].
Defined.

(** ** Fields *)

Lemma run_validators_inr A (vs : list (A -> list code)) (x y : A) :
  run_validators vs x = inr y ->
  y = x /\ forall v, In v vs -> v x = [].
Proof.
  unfold run_validators.
  destruct (flat_map (fun v => v x) vs) as [|c l] eqn:E; [|discriminate].
  intros [= <-]. split; [reflexivity|].
  intros v Hv. destruct (v x) as [|c l] eqn:Ev; [reflexivity|].
  assert (In c (flat_map (fun v => v x) vs)).
  { apply in_flat_map. exists v. split; [exact Hv|]. rewrite Ev. left. reflexivity. }
  rewrite E in H. destruct H.
Qed.

Lemma run_validators_ok A (vs : list (A -> list code)) (x : A) :
  (forall v, In v vs -> v x = []) -> run_validators vs x = inr x.
Proof.
  intros H. unfold run_validators.
  assert (E : flat_map (fun v => v x) vs = []).
  { induction vs as [|v vs IH]; [reflexivity|]. cbn.
    rewrite (H v (or_introl eq_refl)). apply IH.
    intros w Hw. apply H. right. exact Hw. }
  rewrite E. reflexivity.
Qed.

Lemma check_nil (b : bool) (c : code) : check b c = [] <-> b = true.
Proof. destruct b; cbn; split; congruence. Qed.

(** A CharField with no option: the trimmed value, unless it is blank or
    holds a NUL. *)
Lemma CharField_plain (d : string) :
  CharField false None [] d
  = if String.eqb (strip d) EmptyString then inl [blank]
    else if contains zero (strip d) then inl [null_characters]
         else inr (strip d).
Proof.
  unfold CharField, run_validators, ProhibitNullCharactersValidator, check.
  cbn [app flat_map].
  destruct (String.eqb (strip d) EmptyString); [reflexivity|].
  destruct (contains zero (strip d)); reflexivity.
Qed.

Lemma CharField_inr (max_len : option Z) (vs : list (string -> list code))
    (d v : string) :
  CharField false max_len vs d = inr v ->
  v = strip d /\ forall f, In f vs -> f v = [].
Proof.
  unfold CharField. destruct (String.eqb (strip d) EmptyString); [discriminate|].
  intros H. apply run_validators_inr in H. destruct H as [-> H].
  split; [reflexivity|]. intros f Hf. apply H. apply in_or_app. left. exact Hf.
Qed.

(** ** Registration *)

Lemma register_me_invalid (env : Env) (s : Store) (email : option string) :
  exists detail,
    RegisterDataSerializer.is_valid env s (Some "me") email
    = inl (ValidationError detail)
    /\ exists cs, In ("username", cs) detail.
Proof.
  unfold RegisterDataSerializer.is_valid.
  assert (Hu : exists cs,
             and_then (on_key true false (username_field env s None) (Some "me"))
                      RegisterDataSerializer.validate_username = inl cs).
  { unfold on_key, username_field.
    destruct (CharField false (Some 150) _ "me") as [e|v] eqn:E; cbn; [eauto|].
    apply CharField_inr in E. destruct E as [-> _]. cbn. eauto. }
  destruct Hu as [cs ->]. eexists. split; [reflexivity|].
  exists cs. cbn. left. reflexivity.
Qed.

Lemma User_by_email_singleton (s : Store) (u : User.t) :
  email_unique s -> In u (users s) ->
  User_by_email (Some (User.email u)) s = [u].
Proof.
  intros Hu Hin. unfold User_by_email.
  apply (at_most_one_singleton _ _ _ _ (Hu (User.email u)) Hin).
  apply String.eqb_refl.
Qed.

(** C3, as the code has it: when a User with exactly the pair
    (username, email) exists, register with that pair creates no User row
    (the users table is as it was), whatever the e-mail backend does.
    When the backend takes the message, register answers 200 and the
    outbox gains one message for that User with the code made from the
    User at that time, and nothing else is written.  When the backend
    fails, register raises what [send_mail] raises and writes nothing. *)
Theorem C3_register_again :
  forall (env : Env) (now : Z) (s : Store) (username email : string) (u : User.t),
    email_unique s ->
    In u (users s) ->
    User.username u = Some username ->
    User.email u = email ->
    let sent := Mail.Build "YaMDb registration" (make_token env now u)
                  (DOMAIN_NAME env) [email] in
    let r := register env now (Some username) (Some email) s in
    users (snd r) = users s
    /\ List.length (users (snd r)) = List.length (users s)
    /\ (delivers env now sent = true ->
        fst r = inr (mkResponse message_resent HTTP_200_OK)
        /\ outbox (snd r) = outbox s ++ [sent]
        /\ categories (snd r) = categories s /\ genres (snd r) = genres s
        /\ titles (snd r) = titles s /\ genre_titles (snd r) = genre_titles s
        /\ reviews (snd r) = reviews s /\ comments (snd r) = comments s
        /\ sequences (snd r) = sequences s)
    /\ (delivers env now sent = false -> r = (inl SMTPException, s)).
Proof.
  intros env now s username email u Hu Hin Hn He sent r.
  assert (E : r = match send_confirm_mail env now u s with
                  | (inl e, s') => (inl e, s')
                  | (inr _, s') =>
                      (inr (mkResponse message_resent HTTP_200_OK), s')
                  end).
  { unfold r, register. run.
    assert (Hp : exists_ (User_by_pair (Some username) (Some email) s) = true).
    { apply exists_filter_true. exists u. split; [exact Hin|].
      rewrite Hn, He. cbn. rewrite !String.eqb_refl. reflexivity. }
    rewrite Hp. subst email. rewrite (User_by_email_singleton s u Hu Hin).
    reflexivity. }
  rewrite E. unfold send_confirm_mail. rewrite He. fold sent.
  destruct (delivers env now sent); cbn [fst snd].
  - split; [reflexivity|]. split; [reflexivity|]. split; [|discriminate].
    intros _. repeat split.
  - split; [reflexivity|]. split; [reflexivity|]. split; [discriminate|].
    reflexivity.
Qed.

Lemma C3_register_again_witness :
  let r := register Sample.env 100 (Some "alice") (Some "a@x.com") Sample.store in
  fst r = inr (mkResponse message_resent HTTP_200_OK)
  /\ outbox (snd r)
     = [Mail.Build "YaMDb registration" "code-for-a@x.com-at-100"
                   "noreply@yamdb.example" ["a@x.com"]]
  /\ users (snd r) = users Sample.store.
Proof.
  assert (H : email_unique Sample.store) by small_table.
  pose proof (C3_register_again Sample.env 100 Sample.store "alice" "a@x.com"
                Sample.alice H (or_introl eq_refl) eq_refl eq_refl)
    as [Hu [_ [Hsent _]]].
  destruct (Hsent eq_refl) as [H1 [H2 _]]. auto.
Defined.

(** C3 as the claim states it fails when the e-mail backend is down: the
    pair of alice is stored, and register with it raises. *)
Lemma C3_counterexample :
  In Sample.alice (users Sample.store)
  /\ User.username Sample.alice = Some "alice"
  /\ User.email Sample.alice = "a@x.com"
  /\ register Sample.offline 100 (Some "alice") (Some "a@x.com") Sample.store
     = (inl SMTPException, Sample.store).
Proof. repeat split. left. reflexivity. Qed.

Lemma register_me_users (env : Env) (now : Z) (s : Store)
    (email : option string) :
  users (snd (register env now (Some "me") email s)) = users s.
Proof.
  unfold register. run.
  destruct (exists_ (User_by_pair (Some "me") email s)).
  - destruct (get (User_by_email email s)) as [e|u]; [reflexivity|].
    unfold send_confirm_mail. destruct (delivers env now _); reflexivity.
  - destruct (register_me_invalid env s email) as [detail [-> _]]. reflexivity.
Qed.

(** C5, as the code has it: a registration request whose username is the
    literal me, for which no User with exactly that (username, email) pair
    is stored, fails with ValidationError on the username field and leaves
    the store as it was; and no registration request with that username
    creates a User, whatever the store holds. *)
Theorem C5_register_me :
  forall (env : Env) (now : Z) (s : Store) (email : option string),
    ((forall u, In u (users s) ->
                ~ (User.username u = Some "me" /\ Some (User.email u) = email)) ->
     exists detail,
       register env now (Some "me") email s = (inl (ValidationError detail), s)
       /\ classify (ValidationError detail) = Some ValidationErrorClass
       /\ exists cs, In ("username", cs) detail)
    /\ users (snd (register env now (Some "me") email s)) = users s.
Proof.
  intros env now s email. split; [|apply register_me_users].
  intros Hnone.
  assert (Hp : exists_ (User_by_pair (Some "me") email s) = false).
  { apply exists_filter_false. intros u Hin.
    destruct (option_eqb String.eqb (User.username u) (Some "me")) eqn:E1;
      [|reflexivity].
    destruct (option_eqb String.eqb (Some (User.email u)) email) eqn:E2;
      [|reflexivity].
    exfalso. apply (Hnone u Hin). split.
    - destruct (User.username u) as [n|]; [|discriminate].
      cbn in E1. apply String.eqb_eq in E1. congruence.
    - destruct email as [e|]; [|discriminate].
      cbn in E2. apply String.eqb_eq in E2. congruence. }
  destruct (register_me_invalid env s email) as [detail [E Hcs]].
  exists detail. split; [|split; [reflexivity|exact Hcs]].
  unfold register. run. rewrite Hp, E. reflexivity.
Qed.

Lemma C5_register_me_witness :
  exists detail,
    register Sample.env 100 (Some "me") (Some "me@x.com") Sample.store
    = (inl (ValidationError detail), Sample.store).
Proof.
  assert (H : forall u, In u (users Sample.store) ->
                ~ (User.username u = Some "me"
                   /\ Some (User.email u) = Some "me@x.com")).
  { intros u [<-|[<-|[]]] [E _]; discriminate E. }
  destruct (proj1 (C5_register_me Sample.env 100 Sample.store (Some "me@x.com")) H)
    as [detail [E _]].
  exists detail. exact E.
Defined.

(** Once an administrator has created the user me, a registration request
    with that username and that user's e-mail does not fail: it is taken
    as a request to send the code again. *)
Lemma C5_counterexample :
  let s := snd (step Sample.env (UserCreate Sample.me_data) Sample.store) in
  map User.username (users s) = [Some "alice"; Some "bob"; Some "me"]
  /\ fst (register Sample.env 100 (Some "me") (Some "me@x.com") s)
     = inr (mkResponse message_resent HTTP_200_OK).
Proof. vm_compute. split; reflexivity. Qed.

(** ** The user serializer of the administrators *)

Lemma run_validators_inl A (vs : list (A -> list code)) (x : A) (e : list code) :
  run_validators vs x = inl e ->
  forall c, In c e -> exists v, In v vs /\ In c (v x).
Proof.
  unfold run_validators.
  destruct (flat_map (fun v => v x) vs) as [|c0 l] eqn:E; [discriminate|].
  intros [= <-] c Hc. rewrite <- E in Hc. apply in_flat_map in Hc. exact Hc.
Qed.

Lemma check_In (b : bool) (c c' : code) : In c (check b c') -> c = c'.
Proof. destruct b; cbn; [tauto|]. intros [H|[]]. auto. Qed.

(** No field of UserSerializer reports the code of the me check. *)
Lemma validators_no_me (vs : list (string -> list code)) (x : string)
    (e : list code) :
  (forall v c, In v vs -> In c (v x) -> c <> username_me) ->
  run_validators vs x = inl e -> ~ In username_me e.
Proof.
  intros Hvs H Hin.
  destruct (run_validators_inl _ vs x e H _ Hin) as [v [Hv Hc]].
  exact (Hvs v _ Hv Hc eq_refl).
Qed.

Lemma CharField_no_me (allow_blank : bool) (max_len : option Z)
    (vs : list (string -> list code)) (d : string) (e : list code) :
  (forall v c, In v vs -> In c (v (strip d)) -> c <> username_me) ->
  CharField allow_blank max_len vs d = inl e -> ~ In username_me e.
Proof.
  intros Hvs. unfold CharField.
  destruct (String.eqb (strip d) EmptyString).
  - destruct allow_blank; [discriminate|]. intros [= <-] [H|[]]. discriminate.
  - apply validators_no_me. intros v c Hv Hc.
    apply in_app_or in Hv. destruct Hv as [Hv|Hv]; [eauto|].
    apply in_app_or in Hv. destruct Hv as [Hv|[<-|[]]].
    + destruct max_len; [|destruct Hv]. destruct Hv as [<-|[]].
      apply check_In in Hc. subst c. discriminate.
    + apply check_In in Hc. subst c. discriminate.
Qed.

Lemma EmailField_no_me (env : Env) (max_len : option Z)
    (vs : list (string -> list code)) (d : string) (e : list code) :
  (forall v c, In v vs -> In c (v (strip d)) -> c <> username_me) ->
  EmailField env max_len vs d = inl e -> ~ In username_me e.
Proof.
  intros Hvs. unfold EmailField.
  destruct (String.eqb (strip d) EmptyString).
  - intros [= <-] [H|[]]. discriminate.
  - apply validators_no_me. intros v c Hv Hc.
    apply in_app_or in Hv. destruct Hv as [Hv|Hv]; [eauto|].
    apply in_app_or in Hv. destruct Hv as [Hv|[<-|[<-|[]]]].
    + destruct max_len; [|destruct Hv]. destruct Hv as [<-|[]].
      apply check_In in Hc. subst c. discriminate.
    + apply check_In in Hc. subst c. discriminate.
    + apply check_In in Hc. subst c. discriminate.
Qed.

Lemma on_key_no_me A B (required_ partial : bool) (run : A -> field_result B)
    (d : option A) (e : list code) :
  (forall x e', run x = inl e' -> ~ In username_me e') ->
  on_key required_ partial run d = inl e -> ~ In username_me e.
Proof.
  intros Hrun. unfold on_key. destruct d as [x|].
  - destruct (run x) as [e'|v] eqn:E; [|discriminate].
    intros [= <-]. eapply Hrun. exact E.
  - destruct (required_ && negb partial); [|discriminate].
    intros [= <-] [H|[]]. discriminate.
Qed.

Lemma UserSerializer_no_me (env : Env) (s : Store) (instance : option User.t)
    (partial : bool) (d : UserData.t) (detail : errors) :
  UserSerializer.is_valid env s instance partial d = inl (ValidationError detail) ->
  forall f cs, In (f, cs) detail -> ~ In username_me cs.
Proof.
  unfold UserSerializer.is_valid.
  set (username := on_key true partial _ (UserData.username d)).
  set (email := on_key true partial _ (UserData.email d)).
  set (role := on_key false partial RoleField (UserData.role d)).
  set (bio := on_key false partial _ (UserData.bio d)).
  set (first_name := on_key false partial _ (UserData.first_name d)).
  set (last_name := on_key false partial _ (UserData.last_name d)).
  assert (Hu : forall e, username = inl e -> ~ In username_me e).
  { intros e. apply on_key_no_me. intros x e'. apply CharField_no_me.
    intros v c [<-|[<-|[]]] Hc; apply check_In in Hc; subst c; discriminate. }
  assert (He : forall e, email = inl e -> ~ In username_me e).
  { intros e. apply on_key_no_me. intros x e'. apply EmailField_no_me.
    intros v c [<-|[]] Hc; apply check_In in Hc; subst c; discriminate. }
  assert (Hr : forall e, role = inl e -> ~ In username_me e).
  { intros e. apply on_key_no_me. intros x e'. unfold RoleField.
    repeat match goal with |- context [if ?b then _ else _] => destruct b end;
      try discriminate.
    intros [= <-] [H|[]]. discriminate. }
  assert (Hplain : forall m x e, CharField true m [] x = inl e -> ~ In username_me e).
  { intros m x e. apply CharField_no_me. intros v c []. }
  assert (Hb : forall e, bio = inl e -> ~ In username_me e).
  { intros e. apply on_key_no_me. intros x e'. apply Hplain. }
  assert (Hf : forall e, first_name = inl e -> ~ In username_me e).
  { intros e. apply on_key_no_me. intros x e'. apply Hplain. }
  assert (Hl : forall e, last_name = inl e -> ~ In username_me e).
  { intros e. apply on_key_no_me. intros x e'. apply Hplain. }
  assert (Hall : forall f cs,
             In (f, cs)
                (field_errors "username" username ++ field_errors "email" email
                 ++ field_errors "role" role ++ field_errors "bio" bio
                 ++ field_errors "first_name" first_name
                 ++ field_errors "last_name" last_name) ->
             ~ In username_me cs).
  { intros f cs H.
    repeat (apply in_app_or in H; destruct H as [H|H]);
      apply field_errors_In in H; eauto. }
  clearbody username email role bio first_name last_name.
  intros H.
  destruct username, email, role, bio, first_name, last_name;
    try discriminate; injection H as <-; exact Hall.
Qed.

Lemma username_field_me (env : Env) (s : Store) :
  UnicodeUsernameValidator env "me" = true ->
  (forall u, In u (users s) -> User.username u <> Some "me") ->
  username_field env s None "me" = inr "me".
Proof.
  intros Hre Hfree. unfold username_field, CharField.
  change (strip "me") with "me". cbn [String.eqb Ascii.eqb Bool.eqb].
  apply run_validators_ok. intros v [<-|[<-|[<-|[<-|[]]]]].
  - rewrite Hre. reflexivity.
  - unfold UniqueValidator_username. apply check_nil. apply negb_true_iff.
    cbn [option_map username_taken]. apply exists_filter_false. intros u Hu.
    apply andb_false_iff. left.
    destruct (User.username u) as [n|] eqn:E; [|reflexivity].
    cbn. apply String.eqb_neq. intros ->. apply (Hfree u Hu). exact E.
  - reflexivity.
  - reflexivity.
Qed.

Lemma email_field_fresh (env : Env) (s : Store) (email : string) :
  strip email <> EmptyString ->
  len (strip email) <= 254 ->
  contains zero (strip email) = false ->
  EmailValidator env (strip email) = true ->
  (forall u, In u (users s) -> User.email u <> strip email) ->
  email_field env s None email = inr (strip email)
  /\ email_taken s None (strip email) = false.
Proof.
  intros Hnb Hlen Hnul Hval Hfree.
  assert (Ht : email_taken s None (strip email) = false).
  { unfold email_taken. apply exists_filter_false. intros u Hu.
    apply andb_false_iff. left. apply String.eqb_neq. apply Hfree. exact Hu. }
  split; [|exact Ht].
  unfold email_field, EmailField.
  destruct (String.eqb_spec (strip email) EmptyString); [contradiction|].
  apply run_validators_ok. intros v [<-|[<-|[<-|[<-|[]]]]].
  - unfold UniqueValidator_email. cbn [option_map]. rewrite Ht. reflexivity.
  - unfold MaxLengthValidator. apply check_nil. apply Z.leb_le. exact Hlen.
  - unfold ProhibitNullCharactersValidator. rewrite Hnul. reflexivity.
  - rewrite Hval. reflexivity.
Qed.

(** C10: the create-user operation of the administrators (UserViewSet
    with UserSerializer) accepts the username me: with an e-mail address
    that is valid and not yet stored, and no user me stored yet, it
    creates the user me with the default role; no validation of
    UserSerializer ever reports the me error; the registration serializer
    refuses me on every store. *)
Theorem C10_admin_create_me :
  forall (env : Env),
    (forall (s : Store) (email : string),
        UnicodeUsernameValidator env "me" = true ->
        (forall u, In u (users s) -> User.username u <> Some "me") ->
        strip email <> EmptyString ->
        len (strip email) <= 254 ->
        contains zero (strip email) = false ->
        EmailValidator env (strip email) = true ->
        (forall u, In u (users s) -> User.email u <> strip email) ->
        exists (created : User.t) (s' : Store),
          UserViewSet.create env
            (UserData.Build (Some "me") (Some email) None None None None) s
          = (inr (mkResponse (user_body (user_representation created))
                             HTTP_201_CREATED), s')
          /\ users s' = users s ++ [created]
          /\ User.username created = Some "me"
          /\ User.email created = strip email
          /\ User.role created = USER
          /\ User.bio created = None
          /\ User.first_name created = EmptyString
          /\ User.last_name created = EmptyString
          /\ (forall u, In u (users s) -> User.id u < User.id created)
          /\ User_seq (sequences s) < User.id created
          /\ categories s' = categories s /\ genres s' = genres s
          /\ titles s' = titles s /\ genre_titles s' = genre_titles s
          /\ reviews s' = reviews s /\ comments s' = comments s
          /\ outbox s' = outbox s)
    /\ (forall s instance partial d detail,
          UserSerializer.is_valid env s instance partial d
          = inl (ValidationError detail) ->
          forall f cs, In (f, cs) detail -> ~ In username_me cs)
    /\ (forall s email,
          exists detail,
            RegisterDataSerializer.is_valid env s (Some "me") email
            = inl (ValidationError detail)).
Proof.
  intros env. split; [|split].
  - intros s email Hre Hfree Hnb Hlen Hnul Hval Hefree.
    destruct (email_field_fresh env s email Hnb Hlen Hnul Hval Hefree) as [He Ht].
    pose proof (username_field_me env s Hre Hfree) as Hu.
    assert (Hn : username_taken s None (Some "me") = false).
    { cbn [username_taken]. apply exists_filter_false. intros u Hin.
      apply andb_false_iff. left.
      destruct (User.username u) as [n|] eqn:E; [|reflexivity].
      cbn. apply String.eqb_neq. intros ->. apply (Hfree u Hin). exact E. }
    unfold UserViewSet.create, UserSerializer.create, UserSerializer.is_valid. run.
    cbn [UserData.username UserData.email UserData.role UserData.bio
         UserData.first_name UserData.last_name on_key andb negb].
    rewrite Hu, He. cbn beta iota.
    unfold User_insert, new_user.
    cbn [UserValidated.username UserValidated.email UserValidated.role
         UserValidated.bio UserValidated.first_name UserValidated.last_name
         or_default User.username User.email User.role User.bio
         User.first_name User.last_name].
    rewrite Hn, Ht. cbn beta iota zeta.
    eexists. eexists. split; [reflexivity|].
    cbn [users categories genres titles genre_titles reviews comments outbox
         set_users set_sequences User.username User.email User.role User.bio
         User.first_name User.last_name User.id].
    repeat split.
    + intros u Hin. apply next_id_above. apply in_map. exact Hin.
    + apply next_id_new.
  - intros s instance partial d detail. apply UserSerializer_no_me.
  - intros s email. destruct (register_me_invalid env s email) as [detail [E _]].
    exists detail. exact E.
Qed.

Lemma C10_admin_create_me_witness :
  exists (created : User.t) (s' : Store),
    UserViewSet.create Sample.env Sample.me_data Sample.store
    = (inr (mkResponse (user_body (user_representation created))
                       HTTP_201_CREATED), s')
    /\ users s' = [Sample.alice; Sample.bob; created]
    /\ User.username created = Some "me".
Proof.
  assert (H : exists (created : User.t) (s' : Store),
             UserViewSet.create Sample.env Sample.me_data Sample.store
             = (inr (mkResponse (user_body (user_representation created))
                                HTTP_201_CREATED), s')
             /\ users s' = users Sample.store ++ [created]
             /\ User.username created = Some "me").
  { destruct (proj1 (C10_admin_create_me Sample.env) Sample.store "me@x.com")
      as [created [s' [E [Hu [Hn _]]]]].
    - reflexivity.
    - intros u [<-|[<-|[]]]; discriminate.
    - discriminate.
    - vm_compute. discriminate.
    - reflexivity.
    - reflexivity.
    - intros u [<-|[<-|[]]]; discriminate.
    - exists created, s'. auto. }
  exact H.
Defined.

(** ** Exchanging a confirmation code *)

Lemma User_by_username_singleton (s : Store) (u : User.t) (n : string) :
  username_unique s -> In u (users s) -> User.username u = Some n ->
  User_by_username (Some n) s = [u].
Proof.
  intros Hu Hin Hn. unfold User_by_username.
  apply (at_most_one_singleton _ _ _ _ (Hu n) Hin).
  rewrite Hn. cbn. apply String.eqb_refl.
Qed.

Lemma User_by_username_none (s : Store) (n : string) :
  (forall u, In u (users s) -> User.username u <> Some n) ->
  User_by_username (Some n) s = [].
Proof.
  intros H. unfold User_by_username.
  destruct (filter _ (users s)) as [|u l] eqn:E; [reflexivity|].
  assert (Hu : In u (filter (fun u => option_eqb String.eqb (User.username u) (Some n))
                            (users s))) by (rewrite E; left; reflexivity).
  apply filter_In in Hu. destruct Hu as [Hin Hp].
  destruct (User.username u) as [m|] eqn:Em; [|discriminate].
  cbn in Hp. apply String.eqb_eq in Hp. subst m.
  exfalso. exact (H u Hin Em).
Qed.

(** C4, as the code has it.  The request is validated first: a username or
    a code that is absent, blank once trimmed, or holds a NUL fails with
    ValidationError before any lookup.  Otherwise, with both values
    trimmed: no User with that username gives Http404 (NotFoundError); a
    User whose code does not verify gives a 400 response with no token;
    a User whose code verifies gives 200 with the bearer token made for
    that user, which carries the user's key.  The store is never
    written. *)
Theorem C4_exchange_code :
  forall (env : Env) (now : Z) (jti : string) (s : Store),
    username_unique s ->
    (forall username code : string,
        strip username <> EmptyString -> contains zero (strip username) = false ->
        strip code <> EmptyString -> contains zero (strip code) = false ->
        ((forall u, In u (users s) -> User.username u <> Some (strip username)) ->
         get_jwt_token env now jti (Some username) (Some code) s = (inl Http404, s)
         /\ classify Http404 = Some NotFoundErrorClass)
        /\ (forall user,
              In user (users s) -> User.username user = Some (strip username) ->
              (check_token env now user (strip code) = false ->
               get_jwt_token env now jti (Some username) (Some code) s
               = (inr (mkResponse (errors_body []) HTTP_400_BAD_REQUEST), s))
              /\ (check_token env now user (strip code) = true ->
                  get_jwt_token env now jti (Some username) (Some code) s
                  = (inr (mkResponse
                            (token_body
                               (str_token env
                                  (AccessToken.for_user
                                     (ACCESS_TOKEN_LIFETIME env) now jti user)))
                            HTTP_200_OK), s)
                  /\ AccessToken.user_id
                       (AccessToken.for_user (ACCESS_TOKEN_LIFETIME env) now jti user)
                     = User.id user)))
    /\ (forall u c : option string,
          (match u with
           | None => True
           | Some x => strip x = EmptyString \/ contains zero (strip x) = true
           end
           \/ match c with
              | None => True
              | Some x => strip x = EmptyString \/ contains zero (strip x) = true
              end) ->
          exists detail,
            get_jwt_token env now jti u c s = (inl (ValidationError detail), s)
            /\ classify (ValidationError detail) = Some ValidationErrorClass).
Proof.
  intros env now jti s Huniq. split.
  - intros username code Hu1 Hu2 Hc1 Hc2.
    assert (Hv : TokenSerializer.is_valid (Some username) (Some code)
                 = inr (strip username, strip code)).
    { unfold TokenSerializer.is_valid, on_key. rewrite !CharField_plain.
      destruct (String.eqb_spec (strip username) EmptyString); [contradiction|].
      destruct (String.eqb_spec (strip code) EmptyString); [contradiction|].
      rewrite Hu2, Hc2. reflexivity. }
    split.
    + intros Hnone. split; [|reflexivity].
      unfold get_jwt_token. run. rewrite Hv. cbn [fst snd].
      rewrite (User_by_username_none s _ Hnone). reflexivity.
    + intros user Hin Hn.
      pose proof (User_by_username_singleton s user _ Huniq Hin Hn) as E.
      split; intros Hk; [|split; [|reflexivity]];
        unfold get_jwt_token; run; rewrite Hv; cbn [fst snd]; rewrite E;
        cbn [get_object_or_404 get]; rewrite Hk; reflexivity.
  - intros u c Hbad.
    assert (Hf : forall x : option string,
               match x with
               | None => True
               | Some x => strip x = EmptyString \/ contains zero (strip x) = true
               end ->
               exists e, on_key true false (CharField false None []) x = inl e).
    { intros [x|] H; cbn; [|eauto]. rewrite CharField_plain.
      destruct H as [->|H]; [cbn; eauto|].
      destruct (String.eqb (strip x) EmptyString); [eauto|]. rewrite H. eauto. }
    unfold get_jwt_token, TokenSerializer.is_valid. run.
    destruct Hbad as [H|H]; destruct (Hf _ H) as [e ->].
    + eexists. split; reflexivity.
    + destruct (on_key true false (CharField false None []) u) as [e'|[x|]];
        eexists; split; reflexivity.
Qed.

Lemma C4_exchange_code_witness :
  get_jwt_token Sample.env 101 "j1" (Some "alice") (Some "wrong") Sample.store
  = (inr (mkResponse (errors_body []) HTTP_400_BAD_REQUEST), Sample.store)
  /\ get_jwt_token Sample.env 101 "j1" (Some "alice")
       (Some "code-for-a@x.com-at-100") Sample.store
     = (inr (mkResponse (token_body "jwt-access-1-401-j1") HTTP_200_OK),
        Sample.store)
  /\ get_jwt_token Sample.env 101 "j1" (Some "carol")
       (Some "code-for-a@x.com-at-100") Sample.store
     = (inl Http404, Sample.store).
Proof.
  assert (H : username_unique Sample.store) by small_table.
  destruct (C4_exchange_code Sample.env 101 "j1" Sample.store H) as [Hok _].
  split; [|split].
  - refine (proj1 (proj2 (Hok "alice" "wrong" _ eq_refl _ eq_refl)
                     Sample.alice (or_introl eq_refl) eq_refl) eq_refl);
      vm_compute; discriminate.
  - refine (proj1 (proj2 (proj2 (Hok "alice" "code-for-a@x.com-at-100" _ eq_refl _ eq_refl)
                            Sample.alice (or_introl eq_refl) eq_refl) eq_refl));
      vm_compute; discriminate.
  - refine (proj1 (proj1 (Hok "carol" "code-for-a@x.com-at-100" _ eq_refl _ eq_refl) _));
      [vm_compute; discriminate | vm_compute; discriminate |].
    intros u [<-|[<-|[]]]; vm_compute; discriminate.
Defined.

(** No User has the empty username, yet the exchange does not fail with a
    NotFoundError: the blank username is refused by the serializer. *)
Lemma C4_counterexample :
  (forall u, In u (users Sample.store) -> User.username u <> Some EmptyString)
  /\ exists e,
       get_jwt_token Sample.env 101 "j1" (Some EmptyString)
         (Some "code-for-a@x.com-at-100") Sample.store
       = (inl e, Sample.store)
       /\ e = ValidationError [("username", [blank])]
       /\ classify e <> Some NotFoundErrorClass.
Proof.
  split.
  - intros u [<-|[<-|[]]]; discriminate.
  - eexists. split; [vm_compute; reflexivity|]. split; [reflexivity|discriminate].
Qed.

(** ** Deleting a category or a genre *)

Lemma get_by_slug A (slug_of : A -> string) (l : list A) (x : A) :
  (forall g, at_most_one (fun y => String.eqb (slug_of y) g) l) ->
  In x l ->
  get_object_or_404 (filter (fun y => String.eqb (slug_of y) (slug_of x)) l)
  = inr x.
Proof.
  intros Hu Hin.
  rewrite (at_most_one_singleton _ _ _ _ (Hu (slug_of x)) Hin (String.eqb_refl _)).
  reflexivity.
Qed.

(** C8: deleting a Category leaves every Title in place, row by row, with
    its key, name, year and description, and with its category set to
    null where it was the deleted one and untouched elsewhere; deleting a
    Genre leaves the titles table as it is and removes exactly the
    GenreTitle rows that reference the genre.  Reviews and comments are
    not touched by either. *)
Theorem C8_delete_category_genre :
  forall (s : Store),
    Category_slug_unique s -> Genre_slug_unique s ->
    (forall c : Category.t,
      In c (categories s) ->
      exists s',
        CategoryViewSet.destroy (Category.slug c) s
        = (inr (mkResponse no_body HTTP_204_NO_CONTENT), s')
        /\ Forall2
             (fun t t' =>
                Title.id t' = Title.id t
                /\ Title.name t' = Title.name t
                /\ Title.year t' = Title.year t
                /\ Title.description t' = Title.description t
                /\ (Title.category t = Some (Category.id c) ->
                    Title.category t' = None)
                /\ (Title.category t <> Some (Category.id c) -> t' = t))
             (titles s) (titles s')
        /\ genre_titles s' = genre_titles s
        /\ reviews s' = reviews s /\ comments s' = comments s)
    /\ (forall g : Genre.t,
        In g (genres s) ->
        exists s',
          GenreViewSet.destroy (Genre.slug g) s
          = (inr (mkResponse no_body HTTP_204_NO_CONTENT), s')
          /\ titles s' = titles s
          /\ genre_titles s'
             = filter (fun x => negb (option_eqb Z.eqb (GenreTitle.genre x)
                                                 (Some (Genre.id g))))
                      (genre_titles s)
          /\ (forall x, In x (genre_titles s') <->
                        In x (genre_titles s)
                        /\ GenreTitle.genre x <> Some (Genre.id g))
          /\ categories s' = categories s
          /\ reviews s' = reviews s /\ comments s' = comments s).
Proof.
  intros s Hcu Hgu. split.
  - intros c Hc. exists (Category_delete c s). split.
    + unfold CategoryViewSet.destroy. run.
      rewrite (get_by_slug _ Category.slug _ c Hcu Hc). reflexivity.
    + split; [|repeat split].
      unfold Category_delete. cbn [titles set_titles set_categories set_sequences].
      induction (titles s) as [|t l IH]; cbn [map]; constructor; [|exact IH].
      destruct (option_eqb Z.eqb (Title.category t) (Some (Category.id c))) eqn:E.
      * cbn. repeat split; auto. intros Hne. exfalso. apply Hne.
        destruct (Title.category t) as [k|]; [|discriminate].
        cbn in E. apply Z.eqb_eq in E. congruence.
      * repeat split; auto. intros Heq. rewrite Heq in E. cbn in E.
        rewrite Z.eqb_refl in E. discriminate.
  - intros g Hg. exists (Genre_delete g s). split.
    + unfold GenreViewSet.destroy. run.
      rewrite (get_by_slug _ Genre.slug _ g Hgu Hg). reflexivity.
    + split; [reflexivity|]. split; [reflexivity|].
      split; [|split; [reflexivity|split; reflexivity]].
      intros x. unfold Genre_delete. cbn [genre_titles set_genre_titles set_genres set_sequences].
      rewrite filter_In. split; intros [H1 H2]; (split; [exact H1|]).
      * apply negb_true_iff in H2. intros Heq. rewrite Heq in H2.
        cbn in H2. rewrite Z.eqb_refl in H2. discriminate.
      * apply negb_true_iff.
        destruct (GenreTitle.genre x) as [k|]; [|reflexivity].
        cbn. apply Z.eqb_neq. congruence.
Qed.

Lemma C8_delete_category_genre_witness :
  (exists s',
      CategoryViewSet.destroy "books" Sample.store
      = (inr (mkResponse no_body HTTP_204_NO_CONTENT), s')
      /\ map Title.id (titles s') = [1; 2]
      /\ map Title.category (titles s') = [None; None])
  /\ (exists s',
        GenreViewSet.destroy "sci-fi" Sample.store
        = (inr (mkResponse no_body HTTP_204_NO_CONTENT), s')
        /\ titles s' = titles Sample.store
        /\ genre_titles s' = []).
Proof.
  assert (H1 : Category_slug_unique Sample.store) by small_table.
  assert (H2 : Genre_slug_unique Sample.store) by small_table.
  destruct (C8_delete_category_genre Sample.store H1 H2) as [Hc Hg].
  destruct (Hc Sample.books (or_introl eq_refl)) as [s1 [E1 _]].
  destruct (Hg Sample.scifi (or_introl eq_refl)) as [s2 [E2 [T2 [G2 _]]]].
  split.
  - exists s1. split; [exact E1|].
    injection E1 as <-. split; reflexivity.
  - exists s2. split; [exact E2|]. split; [exact T2|]. rewrite G2. reflexivity.
Defined.

(** ** Roles *)

Lemma roles_kept_refl (s : Store) : roles_kept s s.
Proof. exists []. rewrite app_nil_r. reflexivity. Qed.

Lemma roles_kept_trans (a b c : Store) :
  roles_kept a b -> roles_kept b c -> roles_kept a c.
Proof.
  intros [n1 H1] [n2 H2]. exists (n1 ++ n2). rewrite H2, H1, app_assoc. reflexivity.
Qed.

Lemma keeps_same_users A (m : V A) :
  (forall s, users (snd (m s)) = users s) -> keeps roles_kept m.
Proof.
  intros H s. exists []. unfold roles. rewrite H, app_nil_r. reflexivity.
Qed.

Lemma User_insert_roles (u : User.t) : keeps roles_kept (User_insert u).
Proof.
  intros s. unfold User_insert.
  destruct (username_taken _ _ _); [apply roles_kept_refl|].
  destruct (email_taken _ _ _); [apply roles_kept_refl|].
  cbn [snd]. eexists. unfold roles. cbn [users set_users set_sequences].
  rewrite map_app. reflexivity.
Qed.

Lemma Review_writes_users :
  (forall r s, users (snd (Review_insert r s)) = users s)
  /\ (forall r s, users (snd (Review_update r s)) = users s).
Proof.
  split; intros r s; [unfold Review_insert|unfold Review_update];
    destruct (review_taken _ _ _ _); reflexivity.
Qed.

Lemma UserEditSerializer_role (env : Env) (s : Store) (instance : option User.t)
    (partial : bool) (d : UserData.t) (v : UserValidated.t) :
  UserEditSerializer.is_valid env s instance partial d = inr v ->
  UserValidated.role v = None.
Proof.
  unfold UserEditSerializer.is_valid.
  destruct (on_key true partial (username_field env s instance) _); try discriminate.
  destruct (on_key true partial (email_field env s instance) _); try discriminate.
  destruct (on_key false partial _ (UserData.first_name d)); try discriminate.
  destruct (on_key false partial _ (UserData.last_name d)); try discriminate.
  destruct (on_key false partial _ (UserData.bio d)); try discriminate.
  intros [= <-]. reflexivity.
Qed.

Lemma users_own_profile_roles (env : Env) (method : Method) (user : User.t)
    (d : UserData.t) (s : Store) :
  User_pk s -> In user (users s) ->
  roles (snd (UserViewSet.users_own_profile env method user d s)) = roles s.
Proof.
  intros Hpk Hin. unfold UserViewSet.users_own_profile.
  destruct (Method_eqb method GET); [reflexivity|].
  destruct (Method_eqb method PATCH); [|reflexivity].
  run. destruct (UserEditSerializer.is_valid env s (Some user) true d) as [e|v] eqn:E;
    [reflexivity|].
  apply UserEditSerializer_role in E.
  unfold UserEditSerializer.update, User_update.
  destruct (username_taken _ _ _); [reflexivity|].
  destruct (email_taken _ _ _); [reflexivity|].
  cbn [snd]. unfold roles. cbn [users set_users set_sequences]. rewrite map_map.
  apply map_ext_in. intros x Hx. cbn [User.id set_attrs].
  destruct (Z.eqb_spec (User.id x) (User.id user)) as [Eid|Eid]; [|reflexivity].
  assert (x = user).
  { apply (at_most_one_eq _ _ _ x user (Hpk (User.id user)) Hx Hin);
      [apply Z.eqb_eq; exact Eid|apply Z.eqb_refl]. }
  subst x. unfold set_attrs. cbn [User.id User.role]. rewrite E. reflexivity.
Qed.

(** The operations that neither manage users nor edit a profile write no
    role: their writes to the users table are the inserts of register. *)
Lemma step_roles_kept (env : Env) (op : operation) :
  admin_user_management op = false -> own_profile op = false ->
  keeps roles_kept (step env op).
Proof.
  intros Hop Hown. destruct op; try discriminate Hop; try discriminate Hown;
    cbn [step];
    unfold register, get_or_create, get_jwt_token,
      CategoryViewSet.destroy, GenreViewSet.destroy,
      TitleViewSet.list_, TitleViewSet.retrieve, TitleViewSet.destroy,
      TitleViewSet.get_object,
      ReviewViewSet.create, ReviewViewSet.perform_create, ReviewViewSet.update,
      ReviewViewSet.destroy, ReviewViewSet.get_object, ReviewViewSet.get_queryset,
      ReviewSerializer.create, ReviewSerializer.update;
    frame roles_kept_refl roles_kept_trans;
    first [ apply User_insert_roles
          | apply keeps_same_users;
            first [ apply Review_writes_users
                  | intros ?; reflexivity
                  | intros ?; unfold send_confirm_mail;
                    destruct (delivers _ _ _); reflexivity ] ].
Qed.

(** C9: a request on the own profile, whatever its method and its data
    (a role key included), leaves the role of every stored user, the
    requester among them, as it was; so does every operation that is not
    one of the user-management operations of the administrators, which
    can add users but change no stored role; a PATCH of the administrators
    does change a role. *)
Theorem C9_role_unchanged :
  forall (env : Env) (s : Store),
    User_pk s ->
    (forall (method : Method) (user : User.t) (d : UserData.t),
        In user (users s) ->
        roles (snd (UserViewSet.users_own_profile env method user d s)) = roles s)
    /\ (forall op,
          admin_user_management op = false -> request_user_stored s op ->
          roles_kept s (snd (step env op s)))
    /\ (exists op,
          admin_user_management op = true
          /\ roles (snd (step Sample.env op Sample.store)) <> roles Sample.store).
Proof.
  intros env s Hpk. split; [|split].
  - intros method user d Hin. apply users_own_profile_roles; assumption.
  - intros op Hop Hreq.
    destruct (own_profile op) eqn:Eo.
    + destruct op; try discriminate Eo. cbn in Hreq. cbn [step]. exists [].
      rewrite (users_own_profile_roles env _ _ _ s Hpk Hreq), app_nil_r.
      reflexivity.
    + apply (step_roles_kept env op Hop Eo).
  - exists (UserUpdate PATCH "alice" true
              (UserData.Build None None (Some "admin") None None None)).
    split; [reflexivity|]. vm_compute. discriminate.
Qed.

Lemma C9_role_unchanged_witness :
  roles (snd (UserViewSet.users_own_profile Sample.env PATCH Sample.alice
                (UserData.Build None None (Some "admin") (Some "Reader.") None None)
                Sample.store))
  = [(1, USER); (2, MODERATOR)].
Proof.
  assert (H : User_pk Sample.store) by small_table.
  exact (proj1 (C9_role_unchanged Sample.env Sample.store H) PATCH Sample.alice
               (UserData.Build None None (Some "admin") (Some "Reader.") None None)
               (or_introl eq_refl)).
Defined.

(** ** The constraints of the store hold after every operation *)

Lemma at_most_one_snoc A (p : A -> bool) (l : list A) (x : A) :
  at_most_one p l ->
  (p x = true -> forall y, In y l -> p y = false) ->
  at_most_one p (l ++ [x]).
Proof.
  unfold at_most_one. intros Hl Hx. rewrite filter_app, length_app. cbn [filter].
  destruct (p x) eqn:Px; cbn [List.length]; [|lia].
  assert (E : filter p l = []).
  { destruct (filter p l) as [|y r] eqn:F; [reflexivity|].
    assert (Hy : In y (filter p l)) by (rewrite F; left; reflexivity).
    apply filter_In in Hy. destruct Hy as [Hy Py].
    rewrite (Hx eq_refl y Hy) in Py. discriminate. }
  rewrite E. cbn. lia.
Qed.

Lemma at_most_one_replace A (p sel : A -> bool) (l : list A) (u : A) :
  at_most_one p l -> at_most_one sel l ->
  (p u = true -> forall y, In y l -> p y = true -> sel y = true) ->
  at_most_one p (map (fun x => if sel x then u else x) l).
Proof.
  unfold at_most_one. intros Hp Hsel Hu. destruct (p u) eqn:Pu.
  - eapply Nat.le_trans; [|exact Hsel]. apply filter_map_le.
    intros x Hx. destruct (sel x) eqn:Sx; [reflexivity|].
    intros Px. rewrite (Hu eq_refl x Hx Px) in Sx. discriminate.
  - eapply Nat.le_trans; [|exact Hp]. apply filter_map_le.
    intros x Hx. destruct (sel x); [rewrite Pu; discriminate|auto].
Qed.

Lemma at_most_one_map_same A (p : A -> bool) (f : A -> A) (l : list A) :
  (forall x, p (f x) = p x) -> at_most_one p l -> at_most_one p (map f l).
Proof.
  unfold at_most_one. intros H Hl. eapply Nat.le_trans; [|exact Hl].
  apply filter_map_le. intros x _. rewrite H. auto.
Qed.

Lemma username_not_taken (s : Store) (exclude : option Z) (n : string) :
  username_taken s exclude (Some n) = false ->
  forall y, In y (users s) ->
            option_eqb String.eqb (User.username y) (Some n) = true ->
            option_eqb Z.eqb (Some (User.id y)) exclude = true.
Proof.
  cbn [username_taken]. intros H y Hy Py.
  pose proof (proj1 (exists_filter_false _ _ _) H y Hy) as Hf. cbn beta in Hf.
  rewrite Py in Hf. cbn in Hf. apply negb_false_iff in Hf. exact Hf.
Qed.

Lemma email_not_taken (s : Store) (exclude : option Z) (e : string) :
  email_taken s exclude e = false ->
  forall y, In y (users s) ->
            String.eqb (User.email y) e = true ->
            option_eqb Z.eqb (Some (User.id y)) exclude = true.
Proof.
  unfold email_taken. intros H y Hy Py.
  pose proof (proj1 (exists_filter_false _ _ _) H y Hy) as Hf. cbn beta in Hf.
  rewrite Py in Hf. cbn in Hf. apply negb_false_iff in Hf. exact Hf.
Qed.

Lemma User_insert_users_ok (u : User.t) (s : Store) :
  User_pk s -> email_unique s -> username_unique s ->
  let s' := snd (User_insert u s) in
  User_pk s' /\ email_unique s' /\ username_unique s'.
Proof.
  intros Hpk He Hn. unfold User_insert.
  destruct (username_taken s None (User.username u)) eqn:Tn; [cbn; auto|].
  destruct (email_taken s None (User.email u)) eqn:Te; [cbn; auto|].
  cbn [snd]. split; [|split]; intros k; cbn [users set_users set_sequences];
    apply at_most_one_snoc; auto; cbn [User.id User.email User.username].
  - intros Hk y Hy. apply Z.eqb_eq in Hk. apply Z.eqb_neq.
    pose proof (next_id_above (User_seq (sequences s)) (map User.id (users s)) (User.id y)
                  (in_map _ _ _ Hy)). lia.
  - intros Hk y Hy. apply String.eqb_eq in Hk. subst k.
    destruct (String.eqb (User.email y) (User.email u)) eqn:E; [|reflexivity].
    pose proof (email_not_taken s None _ Te y Hy E) as F. discriminate F.
  - intros Hk y Hy. destruct (User.username u) as [n|]; [|discriminate].
    cbn in Hk. apply String.eqb_eq in Hk. subst k.
    destruct (option_eqb String.eqb (User.username y) (Some n)) eqn:E;
      [|reflexivity].
    pose proof (username_not_taken s None n Tn y Hy E) as F. discriminate F.
Qed.

Lemma User_update_users_ok (u : User.t) (s : Store) :
  User_pk s -> email_unique s -> username_unique s ->
  let s' := snd (User_update u s) in
  User_pk s' /\ email_unique s' /\ username_unique s'.
Proof.
  intros Hpk He Hn. unfold User_update.
  destruct (username_taken s (Some (User.id u)) (User.username u)) eqn:Tn;
    [cbn; auto|].
  destruct (email_taken s (Some (User.id u)) (User.email u)) eqn:Te; [cbn; auto|].
  cbn [snd]. split; [|split]; intros k; cbn [users set_users set_sequences].
  - eapply Nat.le_trans; [|apply (Hpk k)]. apply filter_map_le. intros x _.
    destruct (Z.eqb_spec (User.id x) (User.id u)) as [E|E]; [rewrite E|]; auto.
  - apply (at_most_one_replace _ _ (fun x => User.id x =? User.id u));
      [apply He|apply Hpk|].
    intros Hk y Hy Py. apply String.eqb_eq in Hk. subst k.
    exact (email_not_taken s _ _ Te y Hy Py).
  - apply (at_most_one_replace _ _ (fun x => User.id x =? User.id u));
      [apply Hn|apply Hpk|].
    intros Hk y Hy Py. destruct (User.username u) as [n|]; [|discriminate].
    cbn in Hk. apply String.eqb_eq in Hk. subst k.
    exact (username_not_taken s _ n Tn y Hy Py).
Qed.

Lemma store_stays_ok_refl (s : Store) : store_stays_ok s s.
Proof. intros H. exact H. Qed.

Lemma store_stays_ok_trans (a b c : Store) :
  store_stays_ok a b -> store_stays_ok b c -> store_stays_ok a c.
Proof. unfold store_stays_ok. auto. Qed.

Lemma send_confirm_mail_store (env : Env) (now : Z) (u : User.t) :
  keeps store_stays_ok (send_confirm_mail env now u).
Proof.
  intros s H. unfold send_confirm_mail.
  destruct (delivers env now _); [|exact H].
  destruct H as [? ? ? ? ? ? ?]. constructor; assumption.
Qed.

Lemma User_insert_store (u : User.t) : keeps store_stays_ok (User_insert u).
Proof.
  intros s [H1 H2 H3 H4 H5 H6 H7].
  destruct (User_insert_users_ok u s H1 H2 H3) as [K1 [K2 K3]].
  assert (E : forall s', s' = snd (User_insert u s) ->
              categories s' = categories s /\ genres s' = genres s
              /\ titles s' = titles s /\ reviews s' = reviews s).
  { intros s' ->. unfold User_insert.
    destruct (username_taken _ _ _); [cbn; auto|].
    destruct (email_taken _ _ _); cbn; auto. }
  destruct (E _ eq_refl) as [E1 [E2 [E3 E4]]].
  constructor; auto.
  - unfold Category_slug_unique. rewrite E1. exact H4.
  - unfold Genre_slug_unique. rewrite E2. exact H5.
  - unfold Title_pk. rewrite E3. exact H6.
  - eapply reviews_ok_same; [exact E4|exact H7].
Qed.

Lemma User_update_store (u : User.t) : keeps store_stays_ok (User_update u).
Proof.
  intros s [H1 H2 H3 H4 H5 H6 H7].
  destruct (User_update_users_ok u s H1 H2 H3) as [K1 [K2 K3]].
  assert (E : forall s', s' = snd (User_update u s) ->
              categories s' = categories s /\ genres s' = genres s
              /\ titles s' = titles s /\ reviews s' = reviews s).
  { intros s' ->. unfold User_update.
    destruct (username_taken _ _ _); [cbn; auto|].
    destruct (email_taken _ _ _); cbn; auto. }
  destruct (E _ eq_refl) as [E1 [E2 [E3 E4]]].
  constructor; auto.
  - unfold Category_slug_unique. rewrite E1. exact H4.
  - unfold Genre_slug_unique. rewrite E2. exact H5.
  - unfold Title_pk. rewrite E3. exact H6.
  - eapply reviews_ok_same; [exact E4|exact H7].
Qed.

Lemma Review_insert_store (r : Review.t) : keeps store_stays_ok (Review_insert r).
Proof.
  intros s [H1 H2 H3 H4 H5 H6 H7].
  pose proof (Review_insert_ok r s H7) as K.
  assert (E : forall s', s' = snd (Review_insert r s) ->
              users s' = users s /\ categories s' = categories s
              /\ genres s' = genres s /\ titles s' = titles s).
  { intros s' ->. unfold Review_insert. destruct (review_taken _ _ _ _); cbn; auto. }
  destruct (E _ eq_refl) as [E1 [E2 [E3 E4]]].
  constructor; auto.
  - unfold User_pk. rewrite E1. exact H1.
  - unfold email_unique. rewrite E1. exact H2.
  - unfold username_unique. rewrite E1. exact H3.
  - unfold Category_slug_unique. rewrite E2. exact H4.
  - unfold Genre_slug_unique. rewrite E3. exact H5.
  - unfold Title_pk. rewrite E4. exact H6.
Qed.

Lemma Review_update_store (r : Review.t) : keeps store_stays_ok (Review_update r).
Proof.
  intros s [H1 H2 H3 H4 H5 H6 H7].
  pose proof (Review_update_ok r s H7) as K.
  assert (E : forall s', s' = snd (Review_update r s) ->
              users s' = users s /\ categories s' = categories s
              /\ genres s' = genres s /\ titles s' = titles s).
  { intros s' ->. unfold Review_update. destruct (review_taken _ _ _ _); cbn; auto. }
  destruct (E _ eq_refl) as [E1 [E2 [E3 E4]]].
  constructor; auto.
  - unfold User_pk. rewrite E1. exact H1.
  - unfold email_unique. rewrite E1. exact H2.
  - unfold username_unique. rewrite E1. exact H3.
  - unfold Category_slug_unique. rewrite E2. exact H4.
  - unfold Genre_slug_unique. rewrite E3. exact H5.
  - unfold Title_pk. rewrite E4. exact H6.
Qed.

Lemma deletes_store :
  (forall u, keeps store_stays_ok (modify (User_delete u)))
  /\ (forall t, keeps store_stays_ok (modify (Title_delete t)))
  /\ (forall c, keeps store_stays_ok (modify (Category_delete c)))
  /\ (forall g, keeps store_stays_ok (modify (Genre_delete g)))
  /\ (forall r, keeps store_stays_ok (modify (Review_delete r))).
Proof.
  split; [|split; [|split; [|split]]];
    intros x s [H1 H2 H3 H4 H5 H6 H7]; cbn [modify snd];
    constructor; try assumption;
    try (intros k; cbn; apply at_most_one_filter; auto; fail);
    try (apply delete_reviews_ok; exact H7; fail);
    try (eapply reviews_ok_same; [|apply delete_reviews_ok; exact H7]; reflexivity);
    try (eapply reviews_ok_same; [|exact H7]; reflexivity).
  intros k. cbn [titles Category_delete set_titles set_categories set_sequences].
  apply at_most_one_map_same; [|apply H6].
  intros t. destruct (option_eqb Z.eqb (Title.category t) (Some (Category.id x)));
    reflexivity.
Qed.

(** Every operation keeps every constraint of the store. *)
Lemma step_store_ok (env : Env) (op : operation) :
  keeps store_stays_ok (step env op).
Proof.
  destruct op; cbn [step];
    unfold register, get_or_create, get_jwt_token,
      UserViewSet.users_own_profile, UserViewSet.create, UserViewSet.update,
      UserViewSet.destroy, UserViewSet.get_object,
      UserEditSerializer.update, UserSerializer.create, UserSerializer.update,
      CategoryViewSet.destroy, GenreViewSet.destroy,
      TitleViewSet.list_, TitleViewSet.retrieve, TitleViewSet.destroy,
      TitleViewSet.get_object,
      ReviewViewSet.create, ReviewViewSet.perform_create, ReviewViewSet.update,
      ReviewViewSet.destroy, ReviewViewSet.get_object, ReviewViewSet.get_queryset,
      ReviewSerializer.create, ReviewSerializer.update;
    frame store_stays_ok_refl store_stays_ok_trans;
    first [ apply send_confirm_mail_store | apply User_insert_store
          | apply User_update_store | apply Review_insert_store
          | apply Review_update_store | apply deletes_store ].
Qed.

(** The constraints hold in every store that a sequence of operations
    reaches from a store where they hold. *)
Lemma after_store_ok (env : Env) (ops : list operation) (s : Store) :
  store_ok s -> store_ok (after env ops s).
Proof.
  unfold after. revert s. induction ops as [|op ops IH]; intros s H; [exact H|].
  cbn [fold_left]. apply IH. apply step_store_ok. exact H.
Qed.

Lemma Sample_store_ok : store_ok Sample.store.
Proof.
  constructor; [| | | | | |split]; small_table.
Qed.

(** * Further properties of the code *)

(** ** Registering a new user *)

Lemma username_field_fresh (env : Env) (s : Store) (username : string) :
  strip username <> EmptyString ->
  len (strip username) <= 150 ->
  contains zero (strip username) = false ->
  UnicodeUsernameValidator env (strip username) = true ->
  (forall u, In u (users s) -> User.username u <> Some (strip username)) ->
  username_field env s None username = inr (strip username)
  /\ username_taken s None (Some (strip username)) = false.
Proof.
  intros Hnb Hlen Hnul Hval Hfree.
  assert (Ht : username_taken s None (Some (strip username)) = false).
  { cbn [username_taken]. apply exists_filter_false. intros u Hu.
    apply andb_false_iff. left.
    destruct (User.username u) as [n|] eqn:E; [|reflexivity].
    cbn. apply String.eqb_neq. intros ->. apply (Hfree u Hu). exact E. }
  split; [|exact Ht].
  unfold username_field, CharField.
  destruct (String.eqb_spec (strip username) EmptyString); [contradiction|].
  apply run_validators_ok. intros v [<-|[<-|[<-|[<-|[]]]]].
  - rewrite Hval. reflexivity.
  - unfold UniqueValidator_username. cbn [option_map]. rewrite Ht. reflexivity.
  - unfold MaxLengthValidator. apply check_nil. apply Z.leb_le. exact Hlen.
  - unfold ProhibitNullCharactersValidator. rewrite Hnul. reflexivity.
Qed.

Lemma User_by_pair_none (s : Store) (username email : option string) :
  (forall u, In u (users s) ->
             ~ (User.username u = username /\ Some (User.email u) = email)) ->
  User_by_pair username email s = [].
Proof.
  intros H. unfold User_by_pair.
  destruct (filter _ (users s)) as [|u l] eqn:E; [reflexivity|].
  assert (Hu : In u (u :: l)) by (left; reflexivity).
  rewrite <- E in Hu. apply filter_In in Hu. destruct Hu as [Hin Hp].
  apply andb_prop in Hp. destruct Hp as [P1 P2].
  exfalso. apply (H u Hin). split.
  - destruct (User.username u) as [n|], username as [m|]; try discriminate;
      [|reflexivity].
    cbn in P1. apply String.eqb_eq in P1. congruence.
  - destruct email as [e|]; [|discriminate].
    cbn in P2. apply String.eqb_eq in P2. congruence.
Qed.

Lemma User_by_email_none (s : Store) (e : string) :
  (forall u, In u (users s) -> User.email u <> e) ->
  User_by_email (Some e) s = [].
Proof.
  intros H. unfold User_by_email.
  destruct (filter _ (users s)) as [|u l] eqn:E; [reflexivity|].
  assert (Hu : In u (u :: l)) by (left; reflexivity).
  rewrite <- E in Hu. apply filter_In in Hu. destruct Hu as [Hin Hp].
  cbn in Hp. apply String.eqb_eq in Hp. exfalso. exact (H u Hin Hp).
Qed.

(** What register does with a pair that is new: the row it stores and
    the message it hands to the e-mail backend, which decides the
    answer. *)
Lemma register_new (env : Env) (now : Z) (s : Store) (username email : string) :
  registrable env s username email ->
  let new := registered s username email in
  let mail := Mail.Build "YaMDb registration" (make_token env now new)
                (DOMAIN_NAME env) [strip email] in
  let s0 := set_users (users s ++ [new])
              (set_sequences (User_key_given (User.id new) (sequences s)) s) in
  register env now (Some username) (Some email) s
  = if delivers env now mail
    then (inr (mkResponse (register_body (strip username) (strip email))
                          HTTP_200_OK),
          set_outbox (outbox s ++ [mail]) s0)
    else (inl SMTPException, s0).
Proof.
  intros [Hu1 Hu2 Hu3 Hu4 Hme Hu5 He1 He2 He3 He4 He5 Hpair] new mail s0.
  destruct (username_field_fresh env s username Hu1 Hu2 Hu3 Hu4 Hu5) as [Fu Tu].
  destruct (email_field_fresh env s email He1 He2 He3 He4 He5) as [Fe Te].
  assert (P0 : User_by_pair (Some username) (Some email) s = []).
  { apply User_by_pair_none. intros u Hin [A B]. apply (Hpair u Hin).
    split; congruence. }
  assert (P1 : User_by_pair (Some (strip username)) (Some (strip email)) s = []).
  { apply User_by_pair_none. intros u Hin [A _]. exact (Hu5 u Hin A). }
  assert (Hv : RegisterDataSerializer.is_valid env s (Some username) (Some email)
               = inr (strip username, strip email)).
  { unfold RegisterDataSerializer.is_valid, on_key. rewrite Fu, Fe.
    cbn [and_then]. unfold RegisterDataSerializer.validate_username.
    destruct (String.eqb_spec (strip username) "me"); [contradiction|].
    reflexivity. }
  unfold register. run. rewrite P0. cbn [exists_]. rewrite Hv.
  unfold get_or_create. run. rewrite P1.
  unfold User_insert. cbn [User.username User.email]. rewrite Tu, Te.
  cbn beta iota zeta. cbn [fst]. unfold send_confirm_mail.
  subst new mail s0. unfold registered.
  cbn [User.id User.username User.email User.role User.bio User.first_name
       User.last_name].
  destruct (delivers env now _); reflexivity.
Qed.

(** The row that a registration stores. *)
Lemma registered_row (s : Store) (username email : string) :
  let new := registered s username email in
  User.username new = Some (strip username)
  /\ User.email new = strip email
  /\ User.role new = USER
  /\ (forall u, In u (users s) -> User.id u < User.id new)
  /\ User_seq (sequences s) < User.id new.
Proof.
  cbn. repeat split.
  - intros u Hu. apply next_id_above. apply in_map. exact Hu.
  - apply next_id_new.
Qed.

Lemma Sample_registrable :
  registrable Sample.env Sample.store "carol" "c@x.com".
Proof.
  constructor; try (vm_compute; (reflexivity || discriminate)).
  - intros u [<-|[<-|[]]]; vm_compute; discriminate.
  - intros u [<-|[<-|[]]]; vm_compute; discriminate.
  - intros u [<-|[<-|[]]] [A _]; discriminate A.
Qed.

(** X1: register with a username and an e-mail address that pass their
    fields (not blank, within length, matching the patterns, not the
    literal me) and that no stored user has adds exactly one user, with
    the trimmed values and the role user, under a key above every stored
    key and above the last key the table gave, and writes no table of
    the catalogue, reviews or comments.  The row is written before the
    message is sent: when the e-mail backend takes the message, register
    answers 200 with the trimmed pair and the outbox gains one message
    with the code made for the new row at that time; when the backend
    fails, register raises what [send_mail] raises, the outbox is as it
    was, and the user row stays. *)
Theorem X1_register_creates_user :
  forall (env : Env) (now : Z) (s : Store) (username email : string),
    strip username <> EmptyString ->
    len (strip username) <= 150 ->
    contains zero (strip username) = false ->
    UnicodeUsernameValidator env (strip username) = true ->
    strip username <> "me" ->
    (forall u, In u (users s) -> User.username u <> Some (strip username)) ->
    strip email <> EmptyString ->
    len (strip email) <= 254 ->
    contains zero (strip email) = false ->
    EmailValidator env (strip email) = true ->
    (forall u, In u (users s) -> User.email u <> strip email) ->
    (forall u, In u (users s) ->
               ~ (User.username u = Some username /\ User.email u = email)) ->
    let r := register env now (Some username) (Some email) s in
    exists new : User.t,
      let mail := Mail.Build "YaMDb registration" (make_token env now new)
                    (DOMAIN_NAME env) [strip email] in
      users (snd r) = users s ++ [new]
      /\ User.username new = Some (strip username)
      /\ User.email new = strip email
      /\ User.role new = USER
      /\ (forall u, In u (users s) -> User.id u < User.id new)
      /\ User_seq (sequences s) < User.id new
      /\ reviews (snd r) = reviews s /\ comments (snd r) = comments s
      /\ titles (snd r) = titles s /\ categories (snd r) = categories s
      /\ genres (snd r) = genres s /\ genre_titles (snd r) = genre_titles s
      /\ (delivers env now mail = true ->
          fst r = inr (mkResponse (register_body (strip username) (strip email))
                                  HTTP_200_OK)
          /\ outbox (snd r) = outbox s ++ [mail])
      /\ (delivers env now mail = false ->
          fst r = inl SMTPException /\ outbox (snd r) = outbox s).
Proof.
  intros env now s username email Hu1 Hu2 Hu3 Hu4 Hme Hu5 He1 He2 He3 He4 He5
         Hpair r.
  pose proof (register_new env now s username email
                (@mk_registrable env s username email Hu1 Hu2 Hu3 Hu4 Hme Hu5
                   He1 He2 He3 He4 He5 Hpair)) as E.
  cbv zeta in E. fold r in E.
  destruct (registered_row s username email) as [R1 [R2 [R3 [R4 R5]]]].
  exists (registered s username email). cbv zeta.
  destruct (delivers env now _); rewrite E;
    cbn [fst snd users reviews comments titles categories genres genre_titles
         outbox set_outbox set_users set_sequences];
    repeat split; try assumption; try discriminate.
Qed.

Lemma X1_register_creates_user_witness :
  let r := register Sample.env 100 (Some " carol ") (Some "c@x.com")
                    Sample.store in
  exists new,
    users (snd r) = users Sample.store ++ [new]
    /\ User.username new = Some "carol"
    /\ fst r = inr (mkResponse (register_body "carol" "c@x.com") HTTP_200_OK).
Proof.
  destruct (X1_register_creates_user Sample.env 100 Sample.store " carol "
              "c@x.com")
    as [new [U [N [_ [_ [_ [_ [_ [_ [_ [_ [_ [_ [Hok _]]]]]]]]]]]]]];
    try (vm_compute; (reflexivity || discriminate)).
  - intros u [<-|[<-|[]]]; vm_compute; discriminate.
  - intros u [<-|[<-|[]]]; vm_compute; discriminate.
  - intros u [<-|[<-|[]]] [A _]; discriminate A.
  - exists new. split; [exact U|]. split; [exact N|].
    apply Hok. reflexivity.
Defined.

(** ** From registration to a token *)

Lemma registered_found (env : Env) (now : Z) (s : Store) (username email : string) :
  registrable env s username email ->
  let s1 := snd (register env now (Some username) (Some email) s) in
  users s1 = users s ++ [registered s username email]
  /\ User_by_username (Some (strip username)) s1 = [registered s username email]
  /\ User_by_email (Some (strip email)) s1 = [registered s username email]
  /\ exists_ (User_by_pair (Some (strip username)) (Some (strip email)) s1) = true.
Proof.
  intros Hreg s1.
  assert (Es1 : users s1 = users s ++ [registered s username email]).
  { unfold s1. rewrite (register_new env now s username email Hreg).
    destruct (delivers env now _); reflexivity. }
  destruct Hreg as [H1 H2 H3 H4 H5 H6 H7 H8 H9 H10 H11 H12].
  split; [exact Es1|]. split; [|split].
  - unfold User_by_username. rewrite Es1, filter_app.
    fold (User_by_username (Some (strip username)) s).
    rewrite (User_by_username_none s _ H6). cbn.
    rewrite String.eqb_refl. reflexivity.
  - unfold User_by_email. rewrite Es1, filter_app.
    fold (User_by_email (Some (strip email)) s).
    rewrite (User_by_email_none s _ H11). cbn.
    rewrite String.eqb_refl. reflexivity.
  - apply exists_filter_true. exists (registered s username email). split.
    + rewrite Es1. apply in_or_app. right. left. reflexivity.
    + cbn. rewrite !String.eqb_refl. reflexivity.
Qed.

(** X2: after a registration that passes, the code that was sent opens
    the account.  The registration at time [now] stores a user; when the
    e-mail backend takes the message, the outbox gains the message with
    the code made for that user at that time.  At a later time [now'],
    if the token generator then verifies a code for that user (a code
    that is not blank, has no white space around it and no NUL),
    exchanging the username as it was sent and that code answers 200 with
    the bearer token made for that user at [now'] with the [jti] drawn,
    which carries the key of the user, and writes nothing. *)
Theorem X2_register_then_exchange :
  forall (env : Env) (now now' : Z) (jti : string) (s : Store)
         (username email code : string),
    registrable env s username email ->
    strip code = code -> code <> EmptyString -> contains zero code = false ->
    let s1 := snd (register env now (Some username) (Some email) s) in
    exists new : User.t,
      let mail := Mail.Build "YaMDb registration" (make_token env now new)
                    (DOMAIN_NAME env) [strip email] in
      let token := AccessToken.for_user (ACCESS_TOKEN_LIFETIME env) now' jti new in
      In new (users s1)
      /\ User.username new = Some (strip username)
      /\ User.email new = strip email
      /\ (delivers env now mail = true -> outbox s1 = outbox s ++ [mail])
      /\ (check_token env now' new code = true ->
          get_jwt_token env now' jti (Some username) (Some code) s1
          = (inr (mkResponse (token_body (str_token env token)) HTTP_200_OK), s1)
          /\ AccessToken.user_id token = User.id new)
      /\ (check_token env now' new code = false ->
          get_jwt_token env now' jti (Some username) (Some code) s1
          = (inr (mkResponse (errors_body []) HTTP_400_BAD_REQUEST), s1)).
Proof.
  intros env now now' jti s username email code Hreg Hstrip Hnb Hnul s1.
  destruct (registered_found env now s username email Hreg) as [Es1 [Hf _]].
  fold s1 in Es1, Hf.
  destruct (registered_row s username email) as [R1 [R2 _]].
  exists (registered s username email). cbv zeta.
  assert (Hv : TokenSerializer.is_valid (Some username) (Some code)
               = inr (strip username, code)).
  { destruct Hreg as [H1 H2 H3 H4 H5 H6 H7 H8 H9 H10 H11 H12].
    unfold TokenSerializer.is_valid, on_key. rewrite !CharField_plain.
    rewrite Hstrip.
    destruct (String.eqb_spec (strip username) EmptyString); [contradiction|].
    destruct (String.eqb_spec code EmptyString); [contradiction|].
    rewrite H3, Hnul. reflexivity. }
  split; [|split; [exact R1|split; [exact R2|split; [|split]]]].
  - rewrite Es1. apply in_or_app. right. left. reflexivity.
  - intros D. unfold s1. rewrite (register_new env now s username email Hreg).
    rewrite D. reflexivity.
  - intros Hcheck. split; [|reflexivity].
    unfold get_jwt_token. run. rewrite Hv. cbn [fst snd]. rewrite Hf.
    cbn [get_object_or_404 get]. rewrite Hcheck. reflexivity.
  - intros Hcheck.
    unfold get_jwt_token. run. rewrite Hv. cbn [fst snd]. rewrite Hf.
    cbn [get_object_or_404 get]. rewrite Hcheck. reflexivity.
Qed.

Lemma X2_register_then_exchange_witness :
  let s1 := snd (register Sample.env 100 (Some "carol") (Some "c@x.com")
                          Sample.store) in
  map Mail.confirmation_code (outbox s1) = ["code-for-c@x.com-at-100"]
  /\ exists token,
       get_jwt_token Sample.env 102 "j7" (Some "carol")
         (Some "code-for-c@x.com-at-100") s1
       = (inr (mkResponse (token_body token) HTTP_200_OK), s1).
Proof.
  destruct (X2_register_then_exchange Sample.env 100 102 "j7" Sample.store
              "carol" "c@x.com" "code-for-c@x.com-at-100" Sample_registrable
              eq_refl)
    as [new [_ [_ [Em [Hsent [Hok _]]]]]]; [discriminate|reflexivity|].
  cbv zeta in Hsent, Hok. split.
  - reflexivity.
  - eexists. apply Hok.
    cbn [check_token Sample.env]. unfold Sample.code_at. rewrite Em.
    reflexivity.
Defined.

(** X3: registration is repeatable.  When the pair that was sent is
    already trimmed, a second register with the same pair, after the
    first that created the user, is taken as a request to send the code
    again, also when the first message was not delivered: the users
    table stays as the first call left it, one user longer than before;
    the second call answers 200 when the e-mail backend takes its
    message and raises when it fails; the outbox holds the messages that
    were taken, each with the code made at the time of its call. *)
Theorem X3_register_twice :
  forall (env : Env) (now now' : Z) (s : Store) (username email : string),
    registrable env s username email ->
    strip username = username -> strip email = email ->
    let r1 := register env now (Some username) (Some email) s in
    let r2 := register env now' (Some username) (Some email) (snd r1) in
    exists new : User.t,
      let sent t := Mail.Build "YaMDb registration" (make_token env t new)
                      (DOMAIN_NAME env) [email] in
      users (snd r1) = users s ++ [new]
      /\ users (snd r2) = users (snd r1)
      /\ fst r2 = (if delivers env now' (sent now')
                   then inr (mkResponse message_resent HTTP_200_OK)
                   else inl SMTPException)
      /\ outbox (snd r2)
         = outbox s
           ++ (if delivers env now (sent now) then [sent now] else [])
           ++ (if delivers env now' (sent now') then [sent now'] else []).
Proof.
  intros env now now' s username email Hreg Su Se r1 r2.
  destruct (registered_found env now s username email Hreg)
    as [Es1 [_ [Hmail Hpair]]].
  fold r1 in Es1, Hmail, Hpair. rewrite Se in Hmail. rewrite Su, Se in Hpair.
  pose proof (register_new env now s username email Hreg) as E1.
  cbv zeta in E1. fold r1 in E1. rewrite Se in E1.
  set (new := registered s username email) in *.
  exists new. cbv zeta.
  assert (Ne : User.email new = email) by (unfold new; cbn; exact Se).
  assert (E2 : r2 = if delivers env now'
                         (Mail.Build "YaMDb registration" (make_token env now' new)
                            (DOMAIN_NAME env) [email])
                    then (inr (mkResponse message_resent HTTP_200_OK),
                          set_outbox
                            (outbox (snd r1)
                             ++ [Mail.Build "YaMDb registration"
                                   (make_token env now' new)
                                   (DOMAIN_NAME env) [email]]) (snd r1))
                    else (inl SMTPException, snd r1)).
  { unfold r2, register. run. rewrite Hpair, Hmail. cbn [get].
    unfold send_confirm_mail. rewrite Ne.
    destruct (delivers env now' _); reflexivity. }
  split; [exact Es1|].
  rewrite E2.
  destruct (delivers env now' _); cbn [fst snd users outbox set_outbox];
    (split; [reflexivity|]); (split; [reflexivity|]);
    rewrite E1; destruct (delivers env now _);
    cbn [snd outbox set_outbox set_users set_sequences];
    rewrite ?app_nil_r, <- ?app_assoc; reflexivity.
Qed.

Lemma X3_register_twice_witness :
  let r1 := register Sample.env 100 (Some "carol") (Some "c@x.com")
                     Sample.store in
  let r2 := register Sample.env 107 (Some "carol") (Some "c@x.com") (snd r1) in
  users (snd r2) = users (snd r1)
  /\ map Mail.confirmation_code (outbox (snd r2))
     = ["code-for-c@x.com-at-100"; "code-for-c@x.com-at-107"].
Proof.
  destruct (X3_register_twice Sample.env 100 107 Sample.store "carol" "c@x.com"
              Sample_registrable eq_refl eq_refl) as [new [_ [U _]]].
  cbv zeta. split; [exact U|reflexivity].
Defined.

(** ** A username or an e-mail address that is taken *)

Lemma run_validators_fails A (vs : list (A -> list code)) (x : A)
    (v : A -> list code) (c : code) :
  In v vs -> In c (v x) ->
  exists e, run_validators vs x = inl e /\ In c e.
Proof.
  intros Hv Hc. unfold run_validators.
  assert (Hin : In c (flat_map (fun v => v x) vs)).
  { apply in_flat_map. exists v. auto. }
  destruct (flat_map (fun v => v x) vs) as [|c0 l]; [destruct Hin|].
  eexists. split; [reflexivity|exact Hin].
Qed.

Lemma username_field_taken (env : Env) (s : Store) (username : string) (u : User.t) :
  In u (users s) -> User.username u = Some (strip username) ->
  strip username <> EmptyString ->
  exists cs, username_field env s None username = inl cs /\ In unique cs.
Proof.
  intros Hin Hn Hnb. unfold username_field, CharField.
  destruct (String.eqb_spec (strip username) EmptyString); [contradiction|].
  apply run_validators_fails with (v := UniqueValidator_username s None).
  - right. left. reflexivity.
  - unfold UniqueValidator_username. cbn [option_map username_taken].
    assert (E : exists_ (filter
                  (fun x => option_eqb String.eqb (User.username x)
                                       (Some (strip username))
                            && negb (option_eqb Z.eqb (Some (User.id x)) None))
                  (users s)) = true).
    { apply exists_filter_true. exists u. split; [exact Hin|].
      rewrite Hn. cbn. rewrite String.eqb_refl. reflexivity. }
    rewrite E. left. reflexivity.
Qed.

Lemma email_field_taken (env : Env) (s : Store) (email : string) (u : User.t) :
  In u (users s) -> User.email u = strip email ->
  strip email <> EmptyString ->
  exists cs, email_field env s None email = inl cs /\ In unique cs.
Proof.
  intros Hin Hn Hnb. unfold email_field, EmailField.
  destruct (String.eqb_spec (strip email) EmptyString); [contradiction|].
  apply run_validators_fails with (v := UniqueValidator_email s None).
  - left. reflexivity.
  - unfold UniqueValidator_email. cbn [option_map]. unfold email_taken.
    assert (E : exists_ (filter
                  (fun x => String.eqb (User.email x) (strip email)
                            && negb (option_eqb Z.eqb (Some (User.id x)) None))
                  (users s)) = true).
    { apply exists_filter_true. exists u. split; [exact Hin|].
      rewrite Hn. cbn. rewrite String.eqb_refl. reflexivity. }
    rewrite E. left. reflexivity.
Qed.

(** X4: uniqueness at registration is per field.  When no stored user has
    the pair as it was sent, register fails with ValidationError and
    writes nothing as soon as one stored user has the trimmed username
    (the error names the username field and carries the code unique) or
    one has the trimmed e-mail address (the error names the email field
    and carries the code unique). *)
Theorem X4_register_taken :
  forall (env : Env) (now : Z) (s : Store) (username email : string),
    (forall u, In u (users s) ->
               ~ (User.username u = Some username /\ User.email u = email)) ->
    (forall u, In u (users s) -> User.username u = Some (strip username) ->
               strip username <> EmptyString ->
               exists detail cs,
                 register env now (Some username) (Some email) s
                 = (inl (ValidationError detail), s)
                 /\ In ("username", cs) detail /\ In unique cs)
    /\ (forall u, In u (users s) -> User.email u = strip email ->
                  strip email <> EmptyString ->
                  exists detail cs,
                    register env now (Some username) (Some email) s
                    = (inl (ValidationError detail), s)
                    /\ In ("email", cs) detail /\ In unique cs).
Proof.
  intros env now s username email Hpair.
  assert (P0 : exists_ (User_by_pair (Some username) (Some email) s) = false).
  { rewrite User_by_pair_none; [reflexivity|].
    intros u Hin [A B]. apply (Hpair u Hin). split; congruence. }
  split.
  - intros u Hin Hn Hnb.
    destruct (username_field_taken env s username u Hin Hn Hnb) as [cs [E Hc]].
    unfold register. run. rewrite P0.
    unfold RegisterDataSerializer.is_valid, on_key. rewrite E. cbn [and_then].
    eexists. exists cs. split; [reflexivity|]. split; [|exact Hc].
    cbn [field_errors app]. left. reflexivity.
  - intros u Hin Hn Hnb.
    destruct (email_field_taken env s email u Hin Hn Hnb) as [cs [E Hc]].
    unfold register. run. rewrite P0.
    assert (Ee : on_key true false (email_field env s None) (Some email) = inl cs)
      by (unfold on_key; rewrite E; reflexivity).
    unfold RegisterDataSerializer.is_valid. rewrite Ee.
    destruct (and_then _ RegisterDataSerializer.validate_username) as [e|[v|]];
      eexists; exists cs; (split; [reflexivity|]); (split; [|exact Hc]);
      apply in_or_app; right; left; reflexivity.
Qed.

(** The username of alice with another address; and the pair of alice
    with white space around the username, which the test of register does
    not recognise and the serializer trims. *)
Lemma X4_register_taken_witness :
  (exists detail,
      register Sample.env 100 (Some "alice") (Some "other@x.com") Sample.store
      = (inl (ValidationError detail), Sample.store))
  /\ register Sample.env 100 (Some " alice ") (Some "a@x.com") Sample.store
     = (inl (ValidationError [("username", [unique]); ("email", [unique])]),
        Sample.store).
Proof.
  split.
  - assert (H : forall u, In u (users Sample.store) ->
                  ~ (User.username u = Some "alice"
                     /\ User.email u = "other@x.com")).
    { intros u [<-|[<-|[]]] [_ B]; discriminate B. }
    destruct (proj1 (X4_register_taken Sample.env 100 Sample.store "alice"
                       "other@x.com" H)
                Sample.alice (or_introl eq_refl) eq_refl)
      as [detail [cs [E _]]]; [vm_compute; discriminate|].
    exists detail. exact E.
  - reflexivity.
Defined.

(** ** Updating a user *)

Lemma username_free_for_self (s : Store) (u : User.t) :
  username_unique s -> In u (users s) ->
  username_taken s (Some (User.id u)) (User.username u) = false.
Proof.
  intros Hu Hin. destruct (User.username u) as [n|] eqn:En; [|reflexivity].
  cbn [username_taken]. apply exists_filter_false. intros x Hx.
  destruct (option_eqb String.eqb (User.username x) (Some n)) eqn:E; [|reflexivity].
  assert (x = u).
  { apply (at_most_one_eq _ _ _ x u (Hu n) Hx Hin E).
    rewrite En. cbn. apply String.eqb_refl. }
  subst x. cbn. rewrite Z.eqb_refl. reflexivity.
Qed.

Lemma email_free_for_self (s : Store) (u : User.t) :
  email_unique s -> In u (users s) ->
  email_taken s (Some (User.id u)) (User.email u) = false.
Proof.
  intros Hu Hin. unfold email_taken. apply exists_filter_false. intros x Hx.
  destruct (String.eqb (User.email x) (User.email u)) eqn:E; [|reflexivity].
  assert (x = u).
  { apply (at_most_one_eq _ _ _ x u (Hu (User.email u)) Hx Hin E).
    apply String.eqb_refl. }
  subst x. cbn. rewrite Z.eqb_refl. reflexivity.
Qed.

Lemma replace_self (s : Store) (u : User.t) :
  User_pk s -> In u (users s) ->
  map (fun x => if User.id x =? User.id u then u else x) (users s) = users s.
Proof.
  intros Hpk Hin. rewrite <- (map_id (users s)) at 2.
  apply map_ext_in. intros x Hx.
  destruct (Z.eqb_spec (User.id x) (User.id u)) as [E|E]; [|reflexivity].
  symmetry. apply (at_most_one_eq _ _ _ x u (Hpk (User.id u)) Hx Hin).
  - apply Z.eqb_eq. exact E.
  - apply Z.eqb_refl.
Qed.

Lemma set_users_same (s : Store) : set_users (users s) s = s.
Proof. destruct s. reflexivity. Qed.

(** X5: on the own profile the unique test of the username leaves the
    requester out.  A PATCH that sends the requester's own username back
    (trimmed, within length, matching the pattern) answers 200 and leaves
    the store exactly as it was; a PATCH that sends the username of
    another stored user fails with ValidationError on the username field
    with the code unique, and writes nothing. *)
Theorem X5_own_profile_username :
  forall (env : Env) (s : Store) (user : User.t),
    User_pk s -> username_unique s -> email_unique s ->
    In user (users s) ->
    (forall n,
        User.username user = Some n ->
        strip n = n -> n <> EmptyString -> len n <= 150 ->
        contains zero n = false -> UnicodeUsernameValidator env n = true ->
        UserViewSet.users_own_profile env PATCH user
          (UserData.Build (Some n) None None None None None) s
        = (inr (mkResponse (user_body (user_representation user)) HTTP_200_OK), s))
    /\ (forall n other,
          In other (users s) -> User.id other <> User.id user ->
          User.username other = Some (strip n) -> strip n <> EmptyString ->
          exists detail cs,
            UserViewSet.users_own_profile env PATCH user
              (UserData.Build (Some n) None None None None None) s
            = (inl (ValidationError detail), s)
            /\ In ("username", cs) detail /\ In unique cs).
Proof.
  intros env s user Hpk Hun Hem Hin. split.
  - intros n Hn Hs Hnb Hlen Hnul Hpat.
    assert (Hf : username_field env s (Some user) n = inr n).
    { unfold username_field, CharField. rewrite Hs.
      destruct (String.eqb_spec n EmptyString); [contradiction|].
      apply run_validators_ok. intros v [<-|[<-|[<-|[<-|[]]]]].
      - rewrite Hpat. reflexivity.
      - unfold UniqueValidator_username. cbn [option_map]. rewrite <- Hn.
        rewrite (username_free_for_self s user Hun Hin). reflexivity.
      - unfold MaxLengthValidator. apply check_nil. apply Z.leb_le. exact Hlen.
      - unfold ProhibitNullCharactersValidator. rewrite Hnul. reflexivity. }
    unfold UserViewSet.users_own_profile. cbn [Method_eqb]. run.
    unfold UserEditSerializer.is_valid.
    cbn [UserData.username UserData.email UserData.bio UserData.first_name
         UserData.last_name on_key andb negb].
    rewrite Hf. cbn beta iota.
    unfold UserEditSerializer.update, User_update, set_attrs.
    cbn [UserValidated.username UserValidated.email UserValidated.role
         UserValidated.bio UserValidated.first_name UserValidated.last_name
         or_default].
    assert (Eu : User.Build (User.id user) (Some n) (User.email user)
                   (User.role user) (User.bio user) (User.first_name user)
                   (User.last_name user) = user).
    { rewrite <- Hn. destruct user. reflexivity. }
    rewrite Eu.
    rewrite (username_free_for_self s user Hun Hin),
      (email_free_for_self s user Hem Hin).
    rewrite (replace_self s user Hpk Hin), set_users_same. reflexivity.
  - intros n other Ho Hid Hn Hnb.
    assert (Hf : exists cs, username_field env s (Some user) n = inl cs
                            /\ In unique cs).
    { unfold username_field, CharField.
      destruct (String.eqb_spec (strip n) EmptyString); [contradiction|].
      apply run_validators_fails with (v := UniqueValidator_username s (Some user)).
      - right. left. reflexivity.
      - unfold UniqueValidator_username. cbn [option_map username_taken].
        assert (E : exists_ (filter
                      (fun x => option_eqb String.eqb (User.username x)
                                           (Some (strip n))
                                && negb (option_eqb Z.eqb (Some (User.id x))
                                                    (Some (User.id user))))
                      (users s)) = true).
        { apply exists_filter_true. exists other. split; [exact Ho|].
          rewrite Hn. cbn. rewrite String.eqb_refl. cbn.
          apply negb_true_iff. apply Z.eqb_neq. exact Hid. }
        rewrite E. left. reflexivity. }
    destruct Hf as [cs [Hf Hc]].
    unfold UserViewSet.users_own_profile. cbn [Method_eqb]. run.
    unfold UserEditSerializer.is_valid.
    cbn [UserData.username UserData.email UserData.bio UserData.first_name
         UserData.last_name on_key andb negb].
    rewrite Hf. cbn beta iota.
    eexists. exists cs. split; [reflexivity|]. split; [|exact Hc].
    left. reflexivity.
Qed.

Lemma X5_own_profile_username_witness :
  UserViewSet.users_own_profile Sample.env PATCH Sample.alice
    (UserData.Build (Some "alice") None None None None None) Sample.store
  = (inr (mkResponse (user_body (user_representation Sample.alice)) HTTP_200_OK),
     Sample.store)
  /\ exists detail,
       UserViewSet.users_own_profile Sample.env PATCH Sample.alice
         (UserData.Build (Some "bob") None None None None None) Sample.store
       = (inl (ValidationError detail), Sample.store).
Proof.
  assert (H1 : User_pk Sample.store) by small_table.
  assert (H2 : username_unique Sample.store) by small_table.
  assert (H3 : email_unique Sample.store) by small_table.
  destruct (X5_own_profile_username Sample.env Sample.store Sample.alice
              H1 H2 H3 (or_introl eq_refl)) as [Hown Hother].
  split.
  - apply Hown; try reflexivity; discriminate.
  - destruct (Hother "bob" Sample.bob (or_intror (or_introl eq_refl)))
      as [detail [cs [E _]]]; try discriminate; try reflexivity.
    exists detail. exact E.
Defined.

Lemma RoleField_value (r : Role) : RoleField (Role_value r) = inr r.
Proof. destruct r; reflexivity. Qed.

(** X6: the update of UserViewSet.  A PUT answers 405 and writes nothing,
    whatever the username, stored or not: the method is tested before the
    lookup.  A PATCH on a username that no user has raises Http404.  A
    PATCH that sends one of the three role values to a stored user
    answers 200, gives that user the role, and leaves every other row of
    the users table, and every other field of that user, as it was; a
    role that is not one of the three values fails with ValidationError
    and writes nothing. *)
Theorem X6_admin_update :
  forall (env : Env) (s : Store),
    User_pk s -> username_unique s -> email_unique s ->
    (forall username partial d,
        UserViewSet.update env PUT username partial d s
        = (inr (mkResponse no_body HTTP_405_METHOD_NOT_ALLOWED), s))
    /\ (forall username d,
          (forall u, In u (users s) -> User.username u <> Some username) ->
          UserViewSet.update env PATCH username true d s = (inl Http404, s))
    /\ (forall u username r,
          In u (users s) -> User.username u = Some username ->
          UserViewSet.update env PATCH username true
            (UserData.Build None None (Some (Role_value r)) None None None) s
          = (inr (mkResponse (user_body (user_representation (with_role r u)))
                             HTTP_200_OK),
             set_users (map (fun x => if User.id x =? User.id u
                                      then with_role r u else x) (users s)) s)
          /\ (forall x, In x (users s) -> x <> u ->
                        In x (map (fun x => if User.id x =? User.id u
                                            then with_role r u else x) (users s))))
    /\ (forall u username role,
          In u (users s) -> User.username u = Some username ->
          role <> "admin" -> role <> "moderator" -> role <> "user" ->
          UserViewSet.update env PATCH username true
            (UserData.Build None None (Some role) None None None) s
          = (inl (ValidationError [("role", [invalid_choice])]), s)).
Proof.
  intros env s Hpk Hun Hem. split; [|split; [|split]].
  - intros. reflexivity.
  - intros username d Hnone. unfold UserViewSet.update, UserViewSet.get_object.
    cbn [Method_eqb]. run. rewrite (User_by_username_none s username Hnone).
    reflexivity.
  - intros u username r Hin Hn. split.
    + unfold UserViewSet.update, UserViewSet.get_object. cbn [Method_eqb]. run.
      rewrite (User_by_username_singleton s u username Hun Hin Hn).
      cbn [get_object_or_404 get].
      unfold UserSerializer.is_valid.
      cbn [UserData.username UserData.email UserData.role UserData.bio
           UserData.first_name UserData.last_name on_key andb negb].
      rewrite RoleField_value. cbn beta iota.
      unfold UserSerializer.update, User_update, set_attrs.
      cbn [UserValidated.username UserValidated.email UserValidated.role
           UserValidated.bio UserValidated.first_name UserValidated.last_name
           or_default User.id User.username User.email].
      fold (with_role r u).
      rewrite (username_free_for_self s u Hun Hin),
        (email_free_for_self s u Hem Hin).
      reflexivity.
    + intros x Hx Hne. apply in_map_iff. exists x. split; [|exact Hx].
      destruct (Z.eqb_spec (User.id x) (User.id u)) as [E|E]; [|reflexivity].
      exfalso. apply Hne.
      apply (at_most_one_eq _ _ _ x u (Hpk (User.id u)) Hx Hin).
      * apply Z.eqb_eq. exact E.
      * apply Z.eqb_refl.
  - intros u username role Hin Hn R1 R2 R3.
    unfold UserViewSet.update, UserViewSet.get_object. cbn [Method_eqb]. run.
    rewrite (User_by_username_singleton s u username Hun Hin Hn).
    cbn [get_object_or_404 get].
    unfold UserSerializer.is_valid.
    cbn [UserData.username UserData.email UserData.role UserData.bio
         UserData.first_name UserData.last_name on_key andb negb].
    unfold RoleField. cbn [Role_value].
    destruct (String.eqb_spec role "admin"); [contradiction|].
    destruct (String.eqb_spec role "moderator"); [contradiction|].
    destruct (String.eqb_spec role "user"); [contradiction|].
    reflexivity.
Qed.

Lemma X6_admin_update_witness :
  roles (snd (UserViewSet.update Sample.env PATCH "alice" true
                (UserData.Build None None (Some "moderator") None None None)
                Sample.store))
  = [(1, MODERATOR); (2, MODERATOR)]
  /\ UserViewSet.update Sample.env PATCH "carol" true Sample.me_data Sample.store
     = (inl Http404, Sample.store).
Proof.
  assert (H1 : User_pk Sample.store) by small_table.
  assert (H2 : username_unique Sample.store) by small_table.
  assert (H3 : email_unique Sample.store) by small_table.
  destruct (X6_admin_update Sample.env Sample.store H1 H2 H3)
    as [_ [Hnone [Hrole _]]].
  split.
  - pose proof (proj1 (Hrole Sample.alice "alice" MODERATOR (or_introl eq_refl)
                          eq_refl)) as E.
    cbn [Role_value] in E. rewrite E. reflexivity.
  - apply Hnone. intros u [<-|[<-|[]]]; discriminate.
Defined.

(** ** Reviews under their title *)

Lemma at_most_one_cases A (p : A -> bool) (l : list A) :
  at_most_one p l -> filter p l = [] \/ exists x, filter p l = [x].
Proof.
  unfold at_most_one. destruct (filter p l) as [|x [|y r]]; cbn; intros H.
  - left. reflexivity.
  - right. exists x. reflexivity.
  - lia.
Qed.

Lemma filter_nil A (p : A -> bool) (l : list A) :
  (forall x, In x l -> p x = false) -> filter p l = [].
Proof.
  intros H. destruct (filter p l) as [|x r] eqn:E; [reflexivity|].
  assert (Hx : In x (filter p l)) by (rewrite E; left; reflexivity).
  apply filter_In in Hx. destruct Hx as [Hx Px]. rewrite (H x Hx) in Px.
  discriminate.
Qed.

Lemma get_object_wrong_title (s : Store) (r : Review.t) (title_id : Z) :
  Title_pk s -> Review_pk s -> In r (reviews s) ->
  Review.title r <> title_id ->
  ReviewViewSet.get_object title_id (Review.id r) s = (inl Http404, s).
Proof.
  intros Htpk Hrpk Hr Hne.
  unfold ReviewViewSet.get_object, ReviewViewSet.get_queryset. run.
  unfold ReviewSerializer.Title_by_id.
  destruct (at_most_one_cases _ _ _ (Htpk title_id)) as [E|[t E]]; rewrite E;
    [reflexivity|].
  cbn [get_object_or_404 get].
  assert (Ht : Title.id t = title_id).
  { assert (Hin : In t (filter (fun t => Title.id t =? title_id) (titles s)))
      by (rewrite E; left; reflexivity).
    apply filter_In in Hin. apply Z.eqb_eq. apply Hin. }
  rewrite filter_nil; [reflexivity|].
  intros x Hx. apply filter_In in Hx. destruct Hx as [Hx Tx].
  destruct (Z.eqb_spec (Review.id x) (Review.id r)) as [Ex|Ex]; [|reflexivity].
  exfalso. apply Hne.
  assert (x = r).
  { apply (at_most_one_eq _ _ _ x r (Hrpk (Review.id r)) Hx Hr).
    - apply Z.eqb_eq. exact Ex.
    - apply Z.eqb_refl. }
  subst x. apply Z.eqb_eq in Tx. congruence.
Qed.

(** X7: a review is reached only through its own title.  Addressed under
    another title id, whether that title is stored or not, the review is
    not found: update (PUT and PATCH) and destroy raise Http404 and write
    nothing. *)
Theorem X7_review_scoped_by_title :
  forall (s : Store) (user : User.t) (r : Review.t) (title_id : Z)
         (partial : bool) (d : ReviewData.t),
    Title_pk s -> Review_pk s ->
    In r (reviews s) -> Review.title r <> title_id ->
    ReviewViewSet.update user title_id (Review.id r) partial d s
    = (inl Http404, s)
    /\ ReviewViewSet.destroy title_id (Review.id r) s = (inl Http404, s).
Proof.
  intros s user r title_id partial d Htpk Hrpk Hr Hne.
  pose proof (get_object_wrong_title s r title_id Htpk Hrpk Hr Hne) as E.
  split.
  - unfold ReviewViewSet.update. run. rewrite E. reflexivity.
  - unfold ReviewViewSet.destroy. run. rewrite E. reflexivity.
Qed.

Lemma X7_review_scoped_by_title_witness :
  ReviewViewSet.update Sample.alice 2 1 true (ReviewData.Build None (Some 3))
    Sample.store
  = (inl Http404, Sample.store)
  /\ ReviewViewSet.destroy 2 1 Sample.store = (inl Http404, Sample.store).
Proof.
  assert (H1 : Title_pk Sample.store) by small_table.
  assert (H2 : Review_pk Sample.store) by small_table.
  apply (X7_review_scoped_by_title Sample.store Sample.alice Sample.review1 2
           true (ReviewData.Build None (Some 3)) H1 H2 (or_introl eq_refl)).
  discriminate.
Defined.

Lemma scores_of_app (s s' : Store) (t : Title.t) (new : Review.t) :
  reviews s' = reviews s ++ [new] ->
  TitleViewSet.scores_of s' t
  = TitleViewSet.scores_of s t
    ++ (if Review.title new =? Title.id t then [Review.score new] else []).
Proof.
  intros E. unfold TitleViewSet.scores_of. rewrite E.
  rewrite filter_app, map_app. cbn [filter].
  destruct (Review.title new =? Title.id t); reflexivity.
Qed.

Lemma retrieve_rating (s : Store) (t : Title.t) :
  Title_pk s -> In t (titles s) ->
  exists shown,
    TitleViewSet.retrieve (Title.id t) s
    = (inr (mkResponse (title_body shown) HTTP_200_OK), s)
    /\ TitleRepr.rating shown = shown_rating (TitleViewSet.scores_of s t).
Proof.
  intros Hpk Ht.
  exists (TitleViewSet.to_representation s (t, Avg (TitleViewSet.scores_of s t))).
  split.
  - unfold TitleViewSet.retrieve, TitleViewSet.get_object. run.
    rewrite queryset_filter.
    rewrite (at_most_one_singleton _ _ _ _ (Hpk (Title.id t)) Ht (Z.eqb_refl _)).
    reflexivity.
  - unfold TitleViewSet.to_representation. cbn. apply rating_of_Avg.
Qed.

(** What create_review does with a review that passes: the row and the
    store after it. *)
Lemma review_create_ok (s : Store) (now : Z) (user : User.t) (title : Title.t)
    (text : string) (score : Z) :
  Title_pk s -> In title (titles s) ->
  (forall r, In r (reviews s) ->
             ~ (Review.title r = Title.id title /\ Review.author r = User.id user)) ->
  strip text <> EmptyString -> contains zero (strip text) = false ->
  1 <= score <= 10 ->
  let new := Review.Build (next_id (Review_seq (sequences s))
                                   (map Review.id (reviews s)))
               (Title.id title) (strip text) (User.id user) score now in
  ReviewViewSet.create now user (Title.id title)
    (ReviewData.Build (Some text) (Some score)) s
  = (inr (mkResponse (review_body new) HTTP_201_CREATED),
     set_reviews (reviews s ++ [new])
       (set_sequences (Review_key_given (Review.id new) (sequences s)) s)).
Proof.
  intros Hpk Hin Hnone Hnb Hnul Hsc new.
  assert (Hfree : exists_ (filter (review_of (Title.id title) (User.id user))
                                  (reviews s)) = false).
  { apply exists_filter_false. intros r Hr.
    destruct (review_of (Title.id title) (User.id user) r) eqn:E; [|reflexivity].
    apply review_of_inv in E. exfalso. exact (Hnone r Hr E). }
  unfold ReviewViewSet.create. run.
  unfold ReviewSerializer.is_valid.
  cbn [ReviewData.text ReviewData.score on_key].
  rewrite CharField_plain.
  destruct (String.eqb_spec (strip text) EmptyString); [contradiction|].
  rewrite Hnul, (score_field_inside false score Hsc).
  unfold ReviewSerializer.validate.
  cbn [ReviewSerializer.title_id ReviewSerializer.method ReviewSerializer.user].
  rewrite (Title_by_id_singleton s title Hpk Hin). cbn [get_object_or_404 get].
  rewrite Hfree. cbn [Method_eqb andb].
  unfold ReviewViewSet.perform_create. run.
  rewrite (Title_by_id_singleton s title Hpk Hin). cbn [get_object_or_404 get].
  unfold ReviewSerializer.create, Review_insert.
  cbn [ReviewData.text ReviewData.score or_default Review.title Review.author
       Review.text Review.score Review.pub_date].
  rewrite review_taken_none, Hfree. reflexivity.
Qed.

(** X8: a first review is stored and counted.  For a stored title that
    the user has not reviewed, a text that is not blank once trimmed and
    holds no NUL, and a score from 1 to 10, create_review answers 201
    with the new review, appends exactly one review (that title, that
    user, the trimmed text, the score, the time of the request) under a
    key above every stored key and above the last key the table gave,
    and writes no other table; the scores of the title gain that score,
    the scores of every other title stay, and the next read of the title
    shows the mean, fraction dropped, of the old scores and the new
    one. *)
Theorem X8_review_created :
  forall (s : Store) (now : Z) (user : User.t) (title : Title.t)
         (text : string) (score : Z),
    Title_pk s -> In title (titles s) ->
    (forall r, In r (reviews s) ->
               ~ (Review.title r = Title.id title /\ Review.author r = User.id user)) ->
    strip text <> EmptyString -> contains zero (strip text) = false ->
    1 <= score <= 10 ->
    exists (new : Review.t) (s' : Store),
      ReviewViewSet.create now user (Title.id title)
        (ReviewData.Build (Some text) (Some score)) s
      = (inr (mkResponse (review_body new) HTTP_201_CREATED), s')
      /\ reviews s' = reviews s ++ [new]
      /\ (Review.title new, Review.text new, Review.author new,
          Review.score new, Review.pub_date new)
         = (Title.id title, strip text, User.id user, score, now)
      /\ (forall r, In r (reviews s) -> Review.id r < Review.id new)
      /\ Review_seq (sequences s) < Review.id new
      /\ users s' = users s /\ titles s' = titles s
      /\ categories s' = categories s /\ genres s' = genres s
      /\ genre_titles s' = genre_titles s /\ comments s' = comments s
      /\ outbox s' = outbox s
      /\ TitleViewSet.scores_of s' title
         = TitleViewSet.scores_of s title ++ [score]
      /\ (forall t, Title.id t <> Title.id title ->
                    TitleViewSet.scores_of s' t = TitleViewSet.scores_of s t)
      /\ exists shown,
           TitleViewSet.retrieve (Title.id title) s'
           = (inr (mkResponse (title_body shown) HTTP_200_OK), s')
           /\ TitleRepr.rating shown
              = shown_rating (TitleViewSet.scores_of s title ++ [score]).
Proof.
  intros s now user title text score Hpk Hin Hnone Hnb Hnul Hsc.
  pose proof (review_create_ok s now user title text score Hpk Hin Hnone Hnb
                Hnul Hsc) as E. cbv zeta in E.
  remember (Review.Build (next_id (Review_seq (sequences s))
                                  (map Review.id (reviews s)))
              (Title.id title) (strip text) (User.id user) score now)
    as new eqn:En.
  remember (set_reviews (reviews s ++ [new])
              (set_sequences (Review_key_given (Review.id new) (sequences s)) s))
    as s' eqn:Es'.
  assert (Er : reviews s' = reviews s ++ [new]) by (subst s'; reflexivity).
  assert (Hs1 : TitleViewSet.scores_of s' title
                = TitleViewSet.scores_of s title ++ [score]).
  { rewrite (scores_of_app s s' title new Er). subst new.
    cbn [Review.title Review.score]. rewrite Z.eqb_refl. reflexivity. }
  exists new, s'. split; [exact E|]. split; [exact Er|].
  split; [subst new; reflexivity|].
  split; [intros r Hr; subst new; cbn [Review.id]; apply next_id_above;
          apply in_map; exact Hr|].
  split; [subst new; cbn [Review.id]; apply next_id_new|].
  do 7 (split; [subst s'; reflexivity|]).
  split; [exact Hs1|]. split.
  - intros t Hne. rewrite (scores_of_app s s' t new Er). subst new.
    cbn [Review.title].
    destruct (Z.eqb_spec (Title.id title) (Title.id t)) as [E'|E'];
      [congruence|]. apply app_nil_r.
  - assert (Hpk' : Title_pk s') by (subst s'; exact Hpk).
    assert (Hin' : In title (titles s')) by (subst s'; exact Hin).
    destruct (retrieve_rating s' title Hpk' Hin') as [shown [E' R]].
    exists shown. split; [exact E'|]. rewrite R, Hs1. reflexivity.
Qed.

Lemma X8_review_created_witness :
  exists shown new s',
    ReviewViewSet.create 300 Sample.bob 2
      (ReviewData.Build (Some " Witty. ") (Some 9)) Sample.store
    = (inr (mkResponse (review_body new) HTTP_201_CREATED), s')
    /\ TitleViewSet.retrieve 2 s'
       = (inr (mkResponse (title_body shown) HTTP_200_OK), s')
    /\ TitleRepr.rating shown = Some 9.
Proof.
  assert (H1 : Title_pk Sample.store) by small_table.
  destruct (X8_review_created Sample.store 300 Sample.bob Sample.emma
              " Witty. " 9 H1 (or_intror (or_introl eq_refl)))
    as [new [s' [E [_ [_ [_ [_ [_ [_ [_ [_ [_ [_ [_ [_ [_ [shown [R V]]]]]]]]]]]]]]]]]].
  - intros r [<-|[<-|[]]] [A _]; discriminate A.
  - vm_compute. discriminate.
  - reflexivity.
  - lia.
  - exists shown, new, s'. split; [exact E|]. split; [exact R|exact V].
Defined.

Lemma mem_In (x : Z) (l : list Z) : mem x l = true <-> In x l.
Proof.
  unfold mem. rewrite existsb_exists. split.
  - intros [y [Hy E]]. apply Z.eqb_eq in E. subst y. exact Hy.
  - intros H. exists x. split; [exact H|apply Z.eqb_refl].
Qed.

Lemma mem_not_In (x : Z) (l : list Z) : mem x l = false <-> ~ In x l.
Proof.
  rewrite <- mem_In. destruct (mem x l); split; intros H; congruence.
Qed.

Lemma filter_spared A (p d : A -> bool) (l : list A) :
  (forall x, In x l -> d x = true -> p x = false) ->
  filter p (filter (fun x => negb (d x)) l) = filter p l.
Proof.
  induction l as [|x l IH]; intros H; [reflexivity|].
  cbn [filter]. destruct (d x) eqn:D; cbn [negb filter].
  - rewrite (H x (or_introl eq_refl) D). apply IH.
    intros y Hy. apply H. right. exact Hy.
  - destruct (p x); [f_equal|]; apply IH; intros y Hy; apply H; right; exact Hy.
Qed.

(** The scores of a title are those of before when none of the deleted
    reviews is a review of it. *)
Lemma scores_of_delete_reviews (doomed : Review.t -> bool) (s : Store) (t : Title.t) :
  (forall x, In x (reviews s) -> doomed x = true -> Review.title x <> Title.id t) ->
  TitleViewSet.scores_of (delete_reviews doomed s) t = TitleViewSet.scores_of s t.
Proof.
  intros H. unfold TitleViewSet.scores_of, delete_reviews.
  cbn [reviews set_reviews set_comments set_sequences]. f_equal. apply filter_spared.
  intros x Hx D. apply Z.eqb_neq. apply H; assumption.
Qed.

(** X9: a PATCH of a review that passes changes what was sent and nothing
    else.  With a text (when sent) that is not blank once trimmed and has
    no NUL, and a score (when sent) from 1 to 10, the update answers 200;
    the review has the trimmed text and the score that were sent and
    keeps the ones that were not, and keeps its key, title, author and
    publication date; every other review is still stored, and no other
    table is written. *)
Theorem X9_review_patched :
  forall (s : Store) (user : User.t) (title : Title.t) (r : Review.t)
         (text : option string) (score : option Z),
    Title_pk s -> Review_pk s -> one_review_per_pair s ->
    In title (titles s) -> In r (reviews s) ->
    Review.title r = Title.id title ->
    (forall tx, text = Some tx ->
                strip tx <> EmptyString /\ contains zero (strip tx) = false) ->
    (forall sc, score = Some sc -> 1 <= sc <= 10) ->
    let r' := Review.Build (Review.id r) (Review.title r)
                (or_default (option_map strip text) (Review.text r))
                (Review.author r)
                (or_default score (Review.score r))
                (Review.pub_date r) in
    let s' := set_reviews (map (fun x => if Review.id x =? Review.id r
                                         then r' else x) (reviews s)) s in
    ReviewViewSet.update user (Title.id title) (Review.id r) true
      (ReviewData.Build text score) s
    = (inr (mkResponse (review_body r') HTTP_200_OK), s')
    /\ In r' (reviews s')
    /\ (forall x, In x (reviews s) -> x <> r -> In x (reviews s'))
    /\ List.length (reviews s') = List.length (reviews s).
Proof.
  intros s user title r text score Htpk Hrpk Hone Hin Hr Ht Htext Hscore r' s'.
  assert (Ftext : on_key true true (CharField false None []) text
                  = inr (option_map strip text)).
  { destruct text as [tx|]; [|reflexivity]. cbn [on_key option_map].
    destruct (Htext tx eq_refl) as [Hnb Hnul]. rewrite CharField_plain.
    destruct (String.eqb_spec (strip tx) EmptyString); [contradiction|].
    rewrite Hnul. reflexivity. }
  assert (Fscore : ReviewSerializer.score_field true score = inr score).
  { destruct score as [sc|]; [|reflexivity].
    apply score_field_inside. apply Hscore. reflexivity. }
  split; [|split; [|split]].
  - unfold ReviewViewSet.update. run.
    rewrite (get_object_review s title r Htpk Hrpk Hin Hr Ht). cbn beta iota.
    unfold ReviewSerializer.is_valid.
    cbn [ReviewData.text ReviewData.score]. rewrite Ftext, Fscore.
    unfold ReviewSerializer.validate.
    cbn [ReviewSerializer.title_id ReviewSerializer.method ReviewSerializer.user].
    rewrite (Title_by_id_singleton s title Htpk Hin). cbn [get_object_or_404 get].
    cbn [Method_eqb andb].
    unfold ReviewSerializer.update, Review_update.
    cbn [ReviewData.text ReviewData.score Review.id Review.title Review.author].
    rewrite (review_not_taken_by_other s r Hone Hr). reflexivity.
  - unfold s'. cbn [reviews set_reviews set_sequences]. apply in_map_iff. exists r.
    rewrite Z.eqb_refl. auto.
  - intros x Hx Hne. unfold s'. cbn [reviews set_reviews set_sequences].
    apply in_map_iff. exists x. split; [|exact Hx].
    destruct (Z.eqb_spec (Review.id x) (Review.id r)) as [E|E]; [|reflexivity].
    exfalso. apply Hne.
    apply (at_most_one_eq _ _ _ x r (Hrpk (Review.id r)) Hx Hr).
    + apply Z.eqb_eq. exact E.
    + apply Z.eqb_refl.
  - unfold s'. cbn [reviews set_reviews set_sequences]. apply length_map.
Qed.

Lemma X9_review_patched_witness :
  ReviewViewSet.update Sample.alice 1 1 true (ReviewData.Build None (Some 3))
    Sample.store
  = (inr (mkResponse (review_body (Review.Build 1 1 "A classic." 1 3 100))
                     HTTP_200_OK),
     set_reviews [Review.Build 1 1 "A classic." 1 3 100; Sample.review2]
                 Sample.store).
Proof.
  assert (H1 : Title_pk Sample.store) by small_table.
  assert (H2 : Review_pk Sample.store) by small_table.
  assert (H3 : one_review_per_pair Sample.store) by small_table.
  refine (proj1 (X9_review_patched Sample.store Sample.alice Sample.dune
                   Sample.review1 None (Some 3) H1 H2 H3 (or_introl eq_refl)
                   (or_introl eq_refl) eq_refl _ _)).
  - discriminate.
  - intros sc [= <-]. lia.
Defined.
Lemma Review_delete_reviews (s : Store) (r : Review.t) :
  Review_pk s -> In r (reviews s) ->
  map Review.id (filter (fun x => Review.id x =? Review.id r) (reviews s))
  = [Review.id r].
Proof.
  intros Hpk Hr.
  rewrite (at_most_one_singleton _ _ _ _ (Hpk (Review.id r)) Hr (Z.eqb_refl _)).
  reflexivity.
Qed.

(** X10: destroying a review deletes that review and the comments on it,
    and nothing else.  The answer is 204; the reviews that remain are the
    others; the comments that remain are those on other reviews; users
    and catalogue are as they were, and so are the scores of every other
    title. *)
Theorem X10_review_destroyed :
  forall (s : Store) (title : Title.t) (r : Review.t),
    Title_pk s -> Review_pk s ->
    In title (titles s) -> In r (reviews s) ->
    Review.title r = Title.id title ->
    exists s',
      ReviewViewSet.destroy (Title.id title) (Review.id r) s
      = (inr (mkResponse no_body HTTP_204_NO_CONTENT), s')
      /\ (forall x, In x (reviews s') <-> In x (reviews s) /\ x <> r)
      /\ (forall c, In c (comments s') <->
                    In c (comments s) /\ Comment.review c <> Review.id r)
      /\ users s' = users s /\ titles s' = titles s
      /\ categories s' = categories s /\ genres s' = genres s
      /\ genre_titles s' = genre_titles s
      /\ (forall t, Title.id t <> Title.id title ->
                    TitleViewSet.scores_of s' t = TitleViewSet.scores_of s t).
Proof.
  intros s title r Htpk Hrpk Hin Hr Ht.
  assert (Hsame : forall x, In x (reviews s) ->
                            Review.id x = Review.id r -> x = r).
  { intros x Hx E.
    apply (at_most_one_eq _ _ _ x r (Hrpk (Review.id r)) Hx Hr).
    - apply Z.eqb_eq. exact E.
    - apply Z.eqb_refl. }
  exists (Review_delete r s). split.
  - unfold ReviewViewSet.destroy. run.
    rewrite (get_object_review s title r Htpk Hrpk Hin Hr Ht). reflexivity.
  - split; [|split; [|split; [|split; [|split; [|split; [|split]]]]]];
      try reflexivity.
    + intros x. unfold Review_delete, delete_reviews.
      cbn [reviews set_reviews set_comments set_sequences]. rewrite filter_In.
      split; intros [Hx Hn]; (split; [exact Hx|]).
      * intros ->. rewrite Z.eqb_refl in Hn. discriminate.
      * apply negb_true_iff. apply Z.eqb_neq. intros E. apply Hn.
        apply Hsame; assumption.
    + intros c. unfold Review_delete, delete_reviews.
      cbn [comments set_reviews set_comments set_sequences].
      rewrite filter_In, (Review_delete_reviews s r Hrpk Hr).
      split; intros [Hc Hn]; (split; [exact Hc|]).
      * apply negb_true_iff in Hn. apply mem_not_In in Hn. intros E.
        apply Hn. left. auto.
      * apply negb_true_iff. apply mem_not_In. intros [E|[]]. auto.
    + intros t Hne. unfold Review_delete. apply scores_of_delete_reviews.
      intros x Hx D. apply Z.eqb_eq in D.
      rewrite (Hsame x Hx D). congruence.
Qed.

Lemma X10_review_destroyed_witness :
  exists s',
    ReviewViewSet.destroy 1 1 Sample.store
    = (inr (mkResponse no_body HTTP_204_NO_CONTENT), s')
    /\ reviews s' = [Sample.review2].
Proof.
  assert (H1 : Title_pk Sample.store) by small_table.
  assert (H2 : Review_pk Sample.store) by small_table.
  destruct (X10_review_destroyed Sample.store Sample.dune Sample.review1 H1 H2
              (or_introl eq_refl) (or_introl eq_refl) eq_refl)
    as [s' [E _]].
  exists s'. split; [exact E|].
  vm_compute in E. injection E as <-. reflexivity.
Defined.

(** ** Deleting a title or a user *)

Lemma option_eqb_Z_Some (a : option Z) (x : Z) :
  option_eqb Z.eqb a (Some x) = true <-> a = Some x.
Proof.
  destruct a as [y|]; cbn; [|split; discriminate].
  rewrite Z.eqb_eq. split; congruence.
Qed.

Lemma delete_reviews_reviews (doomed : Review.t -> bool) (s : Store) (r : Review.t) :
  In r (reviews (delete_reviews doomed s)) <-> In r (reviews s) /\ doomed r = false.
Proof.
  unfold delete_reviews. cbn [reviews set_reviews set_comments set_sequences].
  rewrite filter_In, negb_true_iff. reflexivity.
Qed.

Lemma delete_reviews_comments (doomed : Review.t -> bool) (s : Store) (c : Comment.t) :
  In c (comments (delete_reviews doomed s)) <->
  In c (comments s)
  /\ ~ (exists r, In r (reviews s) /\ doomed r = true
                  /\ Review.id r = Comment.review c).
Proof.
  unfold delete_reviews. cbn [comments set_reviews set_comments set_sequences].
  rewrite filter_In, negb_true_iff, mem_not_In, in_map_iff.
  split; intros [Hc Hn]; (split; [exact Hc|]); intros [r Hr]; apply Hn; exists r.
  - destruct Hr as [Hr [D E]]. split; [exact E|]. apply filter_In. auto.
  - destruct Hr as [E Hr]. apply filter_In in Hr. tauto.
Qed.

Lemma filter_filter A (p q : A -> bool) (l : list A) :
  filter p (filter q l) = filter (fun x => p x && q x) l.
Proof.
  induction l as [|x l IH]; [reflexivity|]. cbn [filter].
  destruct (q x); cbn [filter]; destruct (p x); cbn [andb]; rewrite ?IH; reflexivity.
Qed.

(** X11: destroying a title deletes the title, its reviews, the comments
    on those reviews and its links to genres, and nothing else.  The
    answer is 204; a row of one of these four tables remains exactly when
    it is not one of those; users, categories and genres are as they
    were, and every other title has the scores it had. *)
Theorem X11_title_destroyed :
  forall (s : Store) (t : Title.t),
    Title_pk s -> In t (titles s) ->
    exists s',
      TitleViewSet.destroy (Title.id t) s
      = (inr (mkResponse no_body HTTP_204_NO_CONTENT), s')
      /\ (forall x, In x (titles s') <-> In x (titles s) /\ x <> t)
      /\ (forall r, In r (reviews s') <->
                    In r (reviews s) /\ Review.title r <> Title.id t)
      /\ (forall c, In c (comments s') <->
                    In c (comments s)
                    /\ ~ (exists r, In r (reviews s)
                                    /\ Review.title r = Title.id t
                                    /\ Review.id r = Comment.review c))
      /\ (forall g, In g (genre_titles s') <->
                    In g (genre_titles s)
                    /\ GenreTitle.title g <> Some (Title.id t))
      /\ users s' = users s /\ categories s' = categories s
      /\ genres s' = genres s
      /\ (forall t', Title.id t' <> Title.id t ->
                     TitleViewSet.scores_of s' t' = TitleViewSet.scores_of s t').
Proof.
  intros s t Hpk Ht.
  exists (Title_delete t s). split.
  - unfold TitleViewSet.destroy, TitleViewSet.get_object. run.
    rewrite queryset_filter.
    rewrite (at_most_one_singleton _ _ _ _ (Hpk (Title.id t)) Ht (Z.eqb_refl _)).
    reflexivity.
  - split; [|split; [|split; [|split; [|split; [|split; [|split]]]]]];
      try reflexivity.
    + intros x. unfold Title_delete.
      cbn [titles set_titles set_genre_titles set_sequences]. rewrite filter_In, negb_true_iff.
      unfold delete_reviews. cbn [titles set_reviews set_comments set_sequences].
      split; intros [Hx Hn]; (split; [exact Hx|]).
      * intros ->. rewrite Z.eqb_refl in Hn. discriminate.
      * apply Z.eqb_neq. intros E. apply Hn.
        apply (at_most_one_eq _ _ _ x t (Hpk (Title.id t)) Hx Ht).
        -- apply Z.eqb_eq. exact E.
        -- apply Z.eqb_refl.
    + intros r.
      change (reviews (Title_delete t s))
        with (reviews (delete_reviews (fun r => Review.title r =? Title.id t) s)).
      rewrite delete_reviews_reviews, Z.eqb_neq. reflexivity.
    + intros c.
      change (comments (Title_delete t s))
        with (comments (delete_reviews (fun r => Review.title r =? Title.id t) s)).
      rewrite delete_reviews_comments.
      split; intros [Hc Hn]; (split; [exact Hc|]); intros [r [Hr [D E]]];
        apply Hn; exists r; (split; [exact Hr|split; [|exact E]]).
      * apply Z.eqb_eq. exact D.
      * apply Z.eqb_eq in D. exact D.
    + intros g. unfold Title_delete, delete_reviews.
      cbn [genre_titles set_titles set_genre_titles set_reviews set_comments set_sequences].
      rewrite filter_In, negb_true_iff.
      split; intros [Hg Hn]; (split; [exact Hg|]).
      * intros E. apply option_eqb_Z_Some in E. congruence.
      * destruct (option_eqb Z.eqb (GenreTitle.title g) (Some (Title.id t))) eqn:E;
          [|reflexivity].
        apply option_eqb_Z_Some in E. contradiction.
    + intros t' Hne.
      change (TitleViewSet.scores_of (Title_delete t s) t')
        with (TitleViewSet.scores_of
                (delete_reviews (fun r => Review.title r =? Title.id t) s) t').
      apply scores_of_delete_reviews. intros x _ D. apply Z.eqb_eq in D.
      congruence.
Qed.

Lemma X11_title_destroyed_witness :
  exists s',
    TitleViewSet.destroy 1 Sample.store
    = (inr (mkResponse no_body HTTP_204_NO_CONTENT), s')
    /\ titles s' = [Sample.emma] /\ reviews s' = [].
Proof.
  assert (H1 : Title_pk Sample.store) by small_table.
  destruct (X11_title_destroyed Sample.store Sample.dune H1 (or_introl eq_refl))
    as [s' [E _]].
  exists s'. split; [exact E|].
  vm_compute in E. injection E as <-. split; reflexivity.
Defined.

(** X12: destroying a user deletes the user, the reviews and the comments
    that the user wrote and the comments on those reviews, and nothing
    else.  The answer is 204; the catalogue is as it was; the scores of a
    title are those of the reviews of it that other users wrote, so the
    rating of a title changes when one of its reviewers is deleted. *)
Theorem X12_user_destroyed :
  forall (s : Store) (u : User.t) (n : string),
    User_pk s -> username_unique s ->
    In u (users s) -> User.username u = Some n ->
    exists s',
      UserViewSet.destroy n s
      = (inr (mkResponse no_body HTTP_204_NO_CONTENT), s')
      /\ (forall x, In x (users s') <-> In x (users s) /\ x <> u)
      /\ (forall r, In r (reviews s') <->
                    In r (reviews s) /\ Review.author r <> User.id u)
      /\ (forall c, In c (comments s') <->
                    In c (comments s)
                    /\ Comment.author c <> User.id u
                    /\ ~ (exists r, In r (reviews s)
                                    /\ Review.author r = User.id u
                                    /\ Review.id r = Comment.review c))
      /\ titles s' = titles s /\ categories s' = categories s
      /\ genres s' = genres s /\ genre_titles s' = genre_titles s
      /\ (forall t, TitleViewSet.scores_of s' t
                    = map Review.score
                        (filter (fun r => (Review.title r =? Title.id t)
                                          && negb (Review.author r =? User.id u))
                                (reviews s))).
Proof.
  intros s u n Hpk Hun Hu Hn.
  exists (User_delete u s). split.
  - unfold UserViewSet.destroy, UserViewSet.get_object. run.
    rewrite (User_by_username_singleton s u n Hun Hu Hn). reflexivity.
  - split; [|split; [|split; [|split; [|split; [|split; [|split]]]]]];
      try reflexivity.
    + intros x. unfold User_delete, delete_reviews.
      cbn [users set_users set_reviews set_comments set_sequences].
      rewrite filter_In, negb_true_iff.
      split; intros [Hx Hne]; (split; [exact Hx|]).
      * intros ->. rewrite Z.eqb_refl in Hne. discriminate.
      * apply Z.eqb_neq. intros E. apply Hne.
        apply (at_most_one_eq _ _ _ x u (Hpk (User.id u)) Hx Hu).
        -- apply Z.eqb_eq. exact E.
        -- apply Z.eqb_refl.
    + intros r.
      change (reviews (User_delete u s))
        with (reviews (delete_reviews (fun r => Review.author r =? User.id u) s)).
      rewrite delete_reviews_reviews, Z.eqb_neq. reflexivity.
    + intros c. unfold User_delete.
      cbn [comments set_users set_comments set_sequences].
      rewrite filter_In, negb_true_iff, Z.eqb_neq, delete_reviews_comments.
      split.
      * intros [[Hc Hno] Ha]. split; [exact Hc|split; [exact Ha|]].
        intros [r [Hr [D E]]]. apply Hno. exists r.
        split; [exact Hr|split; [|exact E]]. apply Z.eqb_eq. exact D.
      * intros [Hc [Ha Hno]]. split; [split; [exact Hc|]|exact Ha].
        intros [r [Hr [D E]]]. apply Hno. exists r.
        split; [exact Hr|split; [|exact E]]. apply Z.eqb_eq in D. exact D.
    + intros t. unfold TitleViewSet.scores_of, User_delete, delete_reviews.
      cbn [reviews set_users set_comments set_reviews set_sequences].
      rewrite filter_filter. reflexivity.
Qed.

Lemma X12_user_destroyed_witness :
  exists s',
    UserViewSet.destroy "alice" Sample.store
    = (inr (mkResponse no_body HTTP_204_NO_CONTENT), s')
    /\ users s' = [Sample.bob] /\ reviews s' = [Sample.review2]
    /\ TitleViewSet.scores_of s' Sample.dune = [8].
Proof.
  assert (H1 : User_pk Sample.store) by small_table.
  assert (H2 : username_unique Sample.store) by small_table.
  destruct (X12_user_destroyed Sample.store Sample.alice "alice" H1 H2
              (or_introl eq_refl) eq_refl)
    as [s' [E _]].
  exists s'. split; [exact E|].
  vm_compute in E. injection E as <-. repeat split; reflexivity.
Defined.

(** ** Comments *)

Lemma at_most_one_weaken A (p q : A -> bool) (l : list A) :
  (forall x, p x = true -> q x = true) -> at_most_one q l -> at_most_one p l.
Proof.
  unfold at_most_one. intros H Hq. eapply Nat.le_trans; [|exact Hq].
  rewrite <- (map_id l) at 1. apply filter_map_le. intros x _. apply H.
Qed.

Lemma Review_by_id_title_singleton (s : Store) (r : Review.t) :
  Review_pk s -> In r (reviews s) ->
  CommentViewSet.Review_by_id_title s (Review.title r) (Review.id r) = [r].
Proof.
  intros Hpk Hr. unfold CommentViewSet.Review_by_id_title.
  assert (Hle : at_most_one (fun x => (Review.id x =? Review.id r)
                                      && (Review.title x =? Review.title r))
                            (reviews s)).
  { apply (at_most_one_weaken _ _ _ _ (fun x H => proj1 (proj1 (andb_true_iff _ _) H))
                               (Hpk (Review.id r))). }
  apply (at_most_one_singleton _ _ _ _ Hle Hr).
  rewrite !Z.eqb_refl. reflexivity.
Qed.

Lemma text_field_plain (partial : bool) (text : string) :
  strip text <> EmptyString -> contains zero (strip text) = false ->
  CommentSerializer.is_valid partial (Some text) = inr (Some (strip text)).
Proof.
  intros Hnb Hnul. unfold CommentSerializer.is_valid. cbn [on_key].
  rewrite CharField_plain.
  destruct (String.eqb_spec (strip text) EmptyString); [contradiction|].
  rewrite Hnul. reflexivity.
Qed.

Lemma comment_create_ok (s : Store) (now : Z) (user : User.t) (r : Review.t)
    (text : string) :
  Review_pk s -> In r (reviews s) ->
  strip text <> EmptyString -> contains zero (strip text) = false ->
  CommentViewSet.create now user (Review.title r) (Review.id r) (Some text) s
  = (inr (Reply.Build
            (Comment.Build (next_id (Comment_seq (sequences s))
                                    (map Comment.id (comments s)))
                           (Review.id r) (strip text) (User.id user) now)
            HTTP_201_CREATED),
     set_comments
       (comments s
        ++ [Comment.Build (next_id (Comment_seq (sequences s))
                                   (map Comment.id (comments s)))
                          (Review.id r) (strip text) (User.id user) now])
       (set_sequences
          (Comment_key_given (next_id (Comment_seq (sequences s))
                                      (map Comment.id (comments s)))
                             (sequences s)) s)).
Proof.
  intros Hpk Hr Hnb Hnul.
  unfold CommentViewSet.create, CommentViewSet.perform_create. run.
  rewrite (text_field_plain false text Hnb Hnul).
  rewrite (Review_by_id_title_singleton s r Hpk Hr). reflexivity.
Qed.

(** X13: a comment that passes is stored, and nothing limits how many
    comments a user writes on a review.  With a text that is not blank
    once trimmed and has no NUL, on a stored review addressed under its
    title, the create answers 201 and appends one comment with the
    trimmed text, the key of the review, the key of the user and the
    clock, under a key above every key of the table; the same request
    sent again answers 201 again and appends a second comment under
    another key.  The reviews are not written. *)
Theorem X13_comment_created :
  forall (s : Store) (now now' : Z) (user : User.t) (r : Review.t) (text : string),
    Review_pk s -> In r (reviews s) ->
    strip text <> EmptyString -> contains zero (strip text) = false ->
    exists c c' s' s'',
      CommentViewSet.create now user (Review.title r) (Review.id r) (Some text) s
      = (inr (Reply.Build c HTTP_201_CREATED), s')
      /\ CommentViewSet.create now' user (Review.title r) (Review.id r)
           (Some text) s'
         = (inr (Reply.Build c' HTTP_201_CREATED), s'')
      /\ comments s'' = comments s ++ [c; c']
      /\ Comment.id c < Comment.id c'
      /\ (forall x, In x (comments s) -> Comment.id x < Comment.id c)
      /\ (Comment.review c, Comment.text c, Comment.author c, Comment.pub_date c)
         = (Review.id r, strip text, User.id user, now)
      /\ (Comment.review c', Comment.text c', Comment.author c', Comment.pub_date c')
         = (Review.id r, strip text, User.id user, now')
      /\ reviews s'' = reviews s /\ users s'' = users s /\ titles s'' = titles s.
Proof.
  intros s now now' user r text Hpk Hr Hnb Hnul.
  pose proof (comment_create_ok s now user r text Hpk Hr Hnb Hnul) as E1.
  set (k := next_id (Comment_seq (sequences s)) (map Comment.id (comments s)))
    in E1.
  set (c := Comment.Build k (Review.id r) (strip text) (User.id user) now) in E1.
  set (s' := set_comments (comments s ++ [c])
               (set_sequences (Comment_key_given k (sequences s)) s)) in E1.
  assert (Hpk' : Review_pk s') by exact Hpk.
  assert (Hr' : In r (reviews s')) by exact Hr.
  pose proof (comment_create_ok s' now' user r text Hpk' Hr' Hnb Hnul) as E2.
  set (k' := next_id (Comment_seq (sequences s')) (map Comment.id (comments s')))
    in E2.
  set (c' := Comment.Build k' (Review.id r) (strip text) (User.id user) now')
    in E2.
  set (s'' := set_comments (comments s' ++ [c'])
                (set_sequences (Comment_key_given k' (sequences s')) s')) in E2.
  exists c, c', s', s''.
  split; [exact E1|]. split; [exact E2|].
  split; [|split; [|split; [|split; [|split]]]].
  - unfold s'', s'. cbn [comments set_comments set_sequences].
    rewrite <- app_assoc. reflexivity.
  - unfold c', k'. cbn [Comment.id]. apply next_id_above.
    unfold s'. cbn [comments set_comments set_sequences].
    rewrite map_app. apply in_or_app. right. left. reflexivity.
  - intros x Hx. unfold c, k. cbn [Comment.id]. apply next_id_above.
    apply in_map. exact Hx.
  - reflexivity.
  - reflexivity.
  - repeat split.
Qed.

Lemma X13_comment_created_witness :
  exists c c' s' s'',
    CommentViewSet.create 300 Sample.alice 1 2 (Some " Indeed. ") Sample.store
    = (inr (Reply.Build c HTTP_201_CREATED), s')
    /\ CommentViewSet.create 301 Sample.alice 1 2 (Some " Indeed. ") s'
       = (inr (Reply.Build c' HTTP_201_CREATED), s'')
    /\ comments s'' = comments Sample.store ++ [c; c'].
Proof.
  assert (H2 : Review_pk Sample.store) by small_table.
  assert (Hb : strip " Indeed. " <> EmptyString) by (vm_compute; discriminate).
  destruct (X13_comment_created Sample.store 300 301 Sample.alice Sample.review2
              " Indeed. " H2 (or_intror (or_introl eq_refl)) Hb eq_refl)
    as [c [c' [s' [s'' [E1 [E2 [E3 _]]]]]]].
  exists c, c', s', s''. auto.
Defined.

Lemma same_key A (key : A -> Z) (l : list A) (x y : A) :
  (forall k, at_most_one (fun z => key z =? k) l) ->
  In x l -> In y l -> key x = key y -> x = y.
Proof.
  intros Hpk Hx Hy E.
  apply (at_most_one_eq _ _ _ x y (Hpk (key y)) Hx Hy).
  - apply Z.eqb_eq. exact E.
  - apply Z.eqb_refl.
Qed.

Lemma get_object_comment (s : Store) (r : Review.t) (c : Comment.t) :
  Review_pk s -> Comment_pk s ->
  In r (reviews s) -> In c (comments s) -> Comment.review c = Review.id r ->
  CommentViewSet.get_object (Review.title r) (Review.id r) (Comment.id c) s
  = (inr c, s).
Proof.
  intros Hrpk Hcpk Hr Hc E.
  unfold CommentViewSet.get_object, CommentViewSet.get_queryset. run.
  rewrite (Review_by_id_title_singleton s r Hrpk Hr). cbn [get_object_or_404 get].
  assert (Hle : at_most_one (fun x => Comment.id x =? Comment.id c)
                  (filter (fun x => Comment.review x =? Review.id r) (comments s)))
    by (apply at_most_one_filter; apply Hcpk).
  assert (Hin : In c (filter (fun x => Comment.review x =? Review.id r) (comments s))).
  { apply filter_In. split; [exact Hc|]. apply Z.eqb_eq. exact E. }
  rewrite (at_most_one_singleton _ _ _ _ Hle Hin (Z.eqb_refl _)). reflexivity.
Qed.

Lemma get_object_comment_elsewhere (s : Store) (title_id review_id : Z)
    (c : Comment.t) :
  Review_pk s -> Comment_pk s -> In c (comments s) ->
  ~ (exists r, In r (reviews s) /\ Review.id r = review_id
               /\ Review.title r = title_id /\ Comment.review c = review_id) ->
  CommentViewSet.get_object title_id review_id (Comment.id c) s = (inl Http404, s).
Proof.
  intros Hrpk Hcpk Hc Hno.
  unfold CommentViewSet.get_object, CommentViewSet.get_queryset. run.
  assert (Hle : at_most_one (fun x => (Review.id x =? review_id)
                                      && (Review.title x =? title_id))
                            (reviews s)).
  { apply (at_most_one_weaken _ _ _ _
             (fun x H => proj1 (proj1 (andb_true_iff _ _) H)) (Hrpk review_id)). }
  unfold CommentViewSet.Review_by_id_title.
  destruct (at_most_one_cases _ _ _ Hle) as [E|[r E]]; rewrite E;
    [reflexivity|]. cbn [get_object_or_404 get].
  assert (Hr : In r (filter (fun x => (Review.id x =? review_id)
                                      && (Review.title x =? title_id))
                            (reviews s))) by (rewrite E; left; reflexivity).
  apply filter_In in Hr. destruct Hr as [Hr Hp].
  apply andb_true_iff in Hp. destruct Hp as [Hi Ht].
  apply Z.eqb_eq in Hi. apply Z.eqb_eq in Ht.
  rewrite filter_nil; [reflexivity|].
  intros x Hx. apply filter_In in Hx. destruct Hx as [Hx Hxr].
  apply Z.eqb_eq in Hxr.
  destruct (Z.eqb_spec (Comment.id x) (Comment.id c)) as [Ek|Ek]; [|reflexivity].
  exfalso. apply Hno. exists r.
  rewrite <- (same_key _ Comment.id (comments s) x c Hcpk Hx Hc Ek).
  repeat split; congruence.
Qed.

(** X14: a comment is reached only under its review and the title of
    that review.  Unless the review with the key in the address is
    stored, belongs to the title in the address and is the review of the
    comment, update and destroy answer Http404 and write nothing. *)
Theorem X14_comment_scoped_by_review :
  forall (s : Store) (title_id review_id : Z) (c : Comment.t)
         (partial : bool) (text : option string),
    Review_pk s -> Comment_pk s -> In c (comments s) ->
    ~ (exists r, In r (reviews s) /\ Review.id r = review_id
                 /\ Review.title r = title_id /\ Comment.review c = review_id) ->
    CommentViewSet.update title_id review_id (Comment.id c) partial text s
    = (inl Http404, s)
    /\ CommentViewSet.destroy title_id review_id (Comment.id c) s
       = (inl Http404, s).
Proof.
  intros s title_id review_id c partial text Hrpk Hcpk Hc Hno.
  pose proof (get_object_comment_elsewhere s title_id review_id c Hrpk Hcpk Hc Hno)
    as E.
  split.
  - unfold CommentViewSet.update. unfold bind at 1. rewrite E. reflexivity.
  - unfold CommentViewSet.destroy. unfold bind at 1. rewrite E. reflexivity.
Qed.

Lemma X14_comment_scoped_by_review_witness :
  CommentViewSet.update 2 1 1 true (Some "Edited") Sample.store
  = (inl Http404, Sample.store)
  /\ CommentViewSet.destroy 1 2 1 Sample.store = (inl Http404, Sample.store).
Proof.
  assert (H1 : Review_pk Sample.store) by small_table.
  assert (H2 : Comment_pk Sample.store) by (unfold Comment_pk; small_table).
  split.
  - refine (proj1 (X14_comment_scoped_by_review Sample.store 2 1
                     (Comment.Build 1 1 "Agreed." 2 150) true (Some "Edited")
                     H1 H2 (or_introl eq_refl) _)).
    intros [r [[<-|[<-|[]]] [_ [Ht _]]]]; discriminate.
  - refine (proj2 (X14_comment_scoped_by_review Sample.store 1 2
                     (Comment.Build 1 1 "Agreed." 2 150) true None
                     H1 H2 (or_introl eq_refl) _)).
    intros [r [_ [_ [_ Hc]]]]. discriminate.
Defined.

Lemma map_replace_self A (key : A -> Z) (l : list A) (x : A) :
  (forall k, at_most_one (fun z => key z =? k) l) -> In x l ->
  map (fun y => if key y =? key x then x else y) l = l.
Proof.
  intros Hpk Hx. rewrite <- (map_id l) at 2. apply map_ext_in.
  intros y Hy. destruct (Z.eqb_spec (key y) (key x)) as [E|E]; [|reflexivity].
  symmetry. exact (same_key _ key l y x Hpk Hy Hx E).
Qed.

(** X15: editing and deleting a comment.  For a stored comment addressed
    under its review and title: an update with a text that passes answers
    200, and the comment has the trimmed text and the key, review, author
    and date it had; a PUT without text is refused with required on text
    and a PATCH without text answers 200 and leaves every comment as it
    was; destroy answers 204 and removes that comment alone.  None of
    them writes another table. *)
Theorem X15_comment_edited :
  forall (s : Store) (r : Review.t) (c : Comment.t),
    Review_pk s -> Comment_pk s ->
    In r (reviews s) -> In c (comments s) -> Comment.review c = Review.id r ->
    (forall partial text,
        strip text <> EmptyString -> contains zero (strip text) = false ->
        let c' := Comment.Build (Comment.id c) (Comment.review c) (strip text)
                    (Comment.author c) (Comment.pub_date c) in
        CommentViewSet.update (Review.title r) (Review.id r) (Comment.id c)
          partial (Some text) s
        = (inr (Reply.Build c' HTTP_200_OK),
           set_comments (map (fun x => if Comment.id x =? Comment.id c
                                       then c' else x) (comments s)) s))
    /\ CommentViewSet.update (Review.title r) (Review.id r) (Comment.id c)
         false None s
       = (inl (ValidationError [("text", [required])]), s)
    /\ CommentViewSet.update (Review.title r) (Review.id r) (Comment.id c)
         true None s
       = (inr (Reply.Build c HTTP_200_OK), s)
    /\ exists s',
        CommentViewSet.destroy (Review.title r) (Review.id r) (Comment.id c) s
        = (inr (Reply.Build tt HTTP_204_NO_CONTENT), s')
        /\ (forall x, In x (comments s') <-> In x (comments s) /\ x <> c)
        /\ reviews s' = reviews s /\ users s' = users s /\ titles s' = titles s.
Proof.
  intros s r c Hrpk Hcpk Hr Hc E.
  pose proof (get_object_comment s r c Hrpk Hcpk Hr Hc E) as G.
  split; [|split; [|split]].
  - intros partial text Hnb Hnul c'.
    unfold CommentViewSet.update. unfold bind at 1. rewrite G. cbn beta iota.
    run. rewrite (text_field_plain partial text Hnb Hnul). reflexivity.
  - unfold CommentViewSet.update. unfold bind at 1. rewrite G. reflexivity.
  - unfold CommentViewSet.update. unfold bind at 1. rewrite G. cbn beta iota.
    run. change (CommentSerializer.is_valid true None) with (@inr exn _ (@None string)).
    unfold CommentSerializer.update, Comment_update. cbn [or_default Comment.id].
    destruct c as [ci cr ct ca cp]. cbn [Comment.id Comment.review Comment.text
                                          Comment.author Comment.pub_date].
    pose proof (map_replace_self _ Comment.id (comments s)
                  (Comment.Build ci cr ct ca cp) Hcpk Hc) as Em.
    cbn [Comment.id] in Em. rewrite Em.
    destruct s; reflexivity.
  - exists (Comment_delete c s). split; [|split; [|repeat split]].
    + unfold CommentViewSet.destroy. unfold bind at 1. rewrite G. reflexivity.
    + intros x. unfold Comment_delete. cbn [comments set_comments set_sequences].
      rewrite filter_In, negb_true_iff, Z.eqb_neq.
      split; intros [Hx Hne]; (split; [exact Hx|]).
      * intros ->. apply Hne. reflexivity.
      * intros Ek. apply Hne.
        exact (same_key _ Comment.id (comments s) x c Hcpk Hx Hc Ek).
Qed.

Lemma X15_comment_edited_witness :
  CommentViewSet.update 1 1 1 false (Some " Agreed, mostly. ") Sample.store
  = (inr (Reply.Build (Comment.Build 1 1 "Agreed, mostly." 2 150) HTTP_200_OK),
     set_comments [Comment.Build 1 1 "Agreed, mostly." 2 150] Sample.store).
Proof.
  assert (H1 : Review_pk Sample.store) by small_table.
  assert (H2 : Comment_pk Sample.store) by (unfold Comment_pk; small_table).
  assert (Hb : strip " Agreed, mostly. " <> EmptyString)
    by (vm_compute; discriminate).
  exact (proj1 (X15_comment_edited Sample.store Sample.review1
                  (Comment.Build 1 1 "Agreed." 2 150) H1 H2
                  (or_introl eq_refl) (or_introl eq_refl) eq_refl)
               false " Agreed, mostly. " Hb eq_refl).
Defined.

(** ** Creating categories and genres *)

Lemma slug_no_nul (v : string) :
  all_slug_chars v = true -> contains zero v = false.
Proof.
  induction v as [|c v IH]; [reflexivity|]. cbn [all_slug_chars contains].
  intros H. apply andb_true_iff in H. destruct H as [Hc Hv].
  rewrite (IH Hv), orb_false_r.
  destruct (Ascii.eqb_spec zero c) as [<-|]; [|reflexivity].
  vm_compute in Hc. discriminate.
Qed.

Lemma name_field_plain (name : string) :
  strip name <> EmptyString -> len (strip name) <= 256 ->
  contains zero (strip name) = false ->
  CharField false (Some 256) [] name = inr (strip name).
Proof.
  intros Hnb Hlen Hnul. unfold CharField.
  destruct (String.eqb_spec (strip name) EmptyString); [contradiction|].
  apply run_validators_ok. intros v [<-|[<-|[]]].
  - unfold MaxLengthValidator. apply check_nil. apply Z.leb_le. exact Hlen.
  - unfold ProhibitNullCharactersValidator. rewrite Hnul. reflexivity.
Qed.

(** The slug field of either serializer, on a slug that is shaped well:
    the answer of the uniqueness test decides. *)
Lemma SlugField_shaped (taken : string -> bool) (slug : string) :
  strip slug <> EmptyString -> len (strip slug) <= 50 ->
  all_slug_chars (strip slug) = true ->
  SlugField (Some 50) [fun v => check (negb (taken v)) unique] slug
  = if taken (strip slug) then inl [unique] else inr (strip slug).
Proof.
  intros Hnb Hlen Hsl. unfold SlugField.
  destruct (String.eqb_spec (strip slug) EmptyString); [contradiction|].
  unfold run_validators. cbn [app flat_map].
  unfold MaxLengthValidator, ProhibitNullCharactersValidator.
  rewrite (proj2 (Z.leb_le _ _) Hlen), (slug_no_nul _ Hsl), Hsl.
  destruct (taken (strip slug)); reflexivity.
Qed.

Lemma Category_slug_taken_iff (s : Store) (slug : string) :
  Category_slug_taken s slug = true <->
  exists c, In c (categories s) /\ Category.slug c = slug.
Proof.
  unfold Category_slug_taken. rewrite exists_filter_true.
  split; intros [c [Hc E]]; exists c; (split; [exact Hc|]);
    apply String.eqb_eq; exact E.
Qed.

Lemma Genre_slug_taken_iff (s : Store) (slug : string) :
  Genre_slug_taken s slug = true <->
  exists g, In g (genres s) /\ Genre.slug g = slug.
Proof.
  unfold Genre_slug_taken. rewrite exists_filter_true.
  split; intros [g [Hg E]]; exists g; (split; [exact Hg|]);
    apply String.eqb_eq; exact E.
Qed.

Lemma Category_create_fresh (s : Store) (name slug : string) :
  strip name <> EmptyString -> len (strip name) <= 256 ->
  contains zero (strip name) = false ->
  strip slug <> EmptyString -> len (strip slug) <= 50 ->
  all_slug_chars (strip slug) = true ->
  Category_slug_taken s (strip slug) = false ->
  let k := next_id (Category_seq (sequences s)) (map Category.id (categories s)) in
  CategoryViewSet_create (SlugData.Build (Some name) (Some slug)) s
  = (inr (Reply.Build (strip name, strip slug) HTTP_201_CREATED),
     set_categories
       (categories s ++ [Category.Build k (strip name) (strip slug)])
       (set_sequences (Category_key_given k (sequences s)) s)).
Proof.
  intros N1 N2 N3 S1 S2 S3 Hfree k.
  unfold CategoryViewSet_create, CategorySerializer.is_valid. run.
  cbn [SlugData.name SlugData.slug on_key].
  rewrite (name_field_plain name N1 N2 N3).
  rewrite (SlugField_shaped (Category_slug_taken s) slug S1 S2 S3), Hfree.
  unfold CategorySerializer.create, Category_insert.
  cbn [fst snd Category.slug Category.name]. rewrite Hfree. reflexivity.
Qed.

Lemma Genre_create_fresh (s : Store) (name slug : string) :
  strip name <> EmptyString -> len (strip name) <= 256 ->
  contains zero (strip name) = false ->
  strip slug <> EmptyString -> len (strip slug) <= 50 ->
  all_slug_chars (strip slug) = true ->
  Genre_slug_taken s (strip slug) = false ->
  let k := next_id (Genre_seq (sequences s)) (map Genre.id (genres s)) in
  GenreViewSet_create (SlugData.Build (Some name) (Some slug)) s
  = (inr (Reply.Build (strip name, strip slug) HTTP_201_CREATED),
     set_genres
       (genres s ++ [Genre.Build k (strip name) (strip slug)])
       (set_sequences (Genre_key_given k (sequences s)) s)).
Proof.
  intros N1 N2 N3 S1 S2 S3 Hfree k.
  unfold GenreViewSet_create, GenreSerializer.is_valid. run.
  cbn [SlugData.name SlugData.slug on_key].
  rewrite (name_field_plain name N1 N2 N3).
  rewrite (SlugField_shaped (Genre_slug_taken s) slug S1 S2 S3), Hfree.
  unfold GenreSerializer.create, Genre_insert.
  cbn [fst snd Genre.slug Genre.name]. rewrite Hfree. reflexivity.
Qed.

Lemma Category_slug_free (s : Store) (slug : string) :
  (forall c, In c (categories s) -> Category.slug c <> slug) ->
  Category_slug_taken s slug = false.
Proof.
  intros Hfree. destruct (Category_slug_taken s slug) eqn:E; [|reflexivity].
  apply Category_slug_taken_iff in E. destruct E as [c [Hc E]].
  destruct (Hfree c Hc E).
Qed.

Lemma Genre_slug_free (s : Store) (slug : string) :
  (forall g, In g (genres s) -> Genre.slug g <> slug) ->
  Genre_slug_taken s slug = false.
Proof.
  intros Hfree. destruct (Genre_slug_taken s slug) eqn:E; [|reflexivity].
  apply Genre_slug_taken_iff in E. destruct E as [g [Hg E]].
  destruct (Hfree g Hg E).
Qed.

(** X16: a slug is unique among the categories and unique among the
    genres, and the two do not see each other.  For a name and a slug
    that are shaped well once trimmed: the category create answers 201
    with the trimmed name and slug and appends one row that holds them,
    under a key above every stored key and above the last key the table
    gave, when no category has the slug, whatever the genres hold, and
    writes no other table; it is refused with unique on slug, writing
    nothing, when a category has it.  The genre create does the same on
    the genres, whatever the categories hold. *)
Theorem X16_slug_unique_per_table :
  forall (s : Store) (name slug : string),
    strip name <> EmptyString -> len (strip name) <= 256 ->
    contains zero (strip name) = false ->
    strip slug <> EmptyString -> len (strip slug) <= 50 ->
    all_slug_chars (strip slug) = true ->
    let d := SlugData.Build (Some name) (Some slug) in
    ((forall c, In c (categories s) -> Category.slug c <> strip slug) ->
     exists (c : Category.t) (s' : Store),
       CategoryViewSet_create d s
       = (inr (Reply.Build (strip name, strip slug) HTTP_201_CREATED), s')
       /\ categories s' = categories s ++ [c]
       /\ Category.name c = strip name /\ Category.slug c = strip slug
       /\ (forall x, In x (categories s) -> Category.id x < Category.id c)
       /\ Category_seq (sequences s) < Category.id c
       /\ genres s' = genres s /\ titles s' = titles s
       /\ genre_titles s' = genre_titles s /\ users s' = users s
       /\ reviews s' = reviews s /\ comments s' = comments s
       /\ outbox s' = outbox s)
    /\ ((exists c, In c (categories s) /\ Category.slug c = strip slug) ->
        CategoryViewSet_create d s
        = (inl (ValidationError [("slug", [unique])]), s))
    /\ ((forall g, In g (genres s) -> Genre.slug g <> strip slug) ->
        exists (g : Genre.t) (s' : Store),
          GenreViewSet_create d s
          = (inr (Reply.Build (strip name, strip slug) HTTP_201_CREATED), s')
          /\ genres s' = genres s ++ [g]
          /\ Genre.name g = strip name /\ Genre.slug g = strip slug
          /\ (forall x, In x (genres s) -> Genre.id x < Genre.id g)
          /\ Genre_seq (sequences s) < Genre.id g
          /\ categories s' = categories s /\ titles s' = titles s
          /\ genre_titles s' = genre_titles s /\ users s' = users s
          /\ reviews s' = reviews s /\ comments s' = comments s
          /\ outbox s' = outbox s)
    /\ ((exists g, In g (genres s) /\ Genre.slug g = strip slug) ->
        GenreViewSet_create d s
        = (inl (ValidationError [("slug", [unique])]), s)).
Proof.
  intros s name slug N1 N2 N3 S1 S2 S3 d. split; [|split; [|split]].
  - intros Hfree.
    pose proof (Category_create_fresh s name slug N1 N2 N3 S1 S2 S3
                  (Category_slug_free s _ Hfree)) as E. cbv zeta in E.
    eexists. eexists. split; [exact E|].
    cbn [categories genres titles genre_titles users reviews comments outbox
         set_categories set_sequences Category.name Category.slug Category.id].
    repeat split.
    + intros x Hx. apply next_id_above. apply in_map. exact Hx.
    + apply next_id_new.
  - intros Htaken. apply Category_slug_taken_iff in Htaken.
    unfold CategoryViewSet_create, CategorySerializer.is_valid, d. run.
    cbn [SlugData.name SlugData.slug on_key].
    rewrite (name_field_plain name N1 N2 N3).
    rewrite (SlugField_shaped (Category_slug_taken s) slug S1 S2 S3), Htaken.
    reflexivity.
  - intros Hfree.
    pose proof (Genre_create_fresh s name slug N1 N2 N3 S1 S2 S3
                  (Genre_slug_free s _ Hfree)) as E. cbv zeta in E.
    eexists. eexists. split; [exact E|].
    cbn [categories genres titles genre_titles users reviews comments outbox
         set_genres set_sequences Genre.name Genre.slug Genre.id].
    repeat split.
    + intros x Hx. apply next_id_above. apply in_map. exact Hx.
    + apply next_id_new.
  - intros Htaken. apply Genre_slug_taken_iff in Htaken.
    unfold GenreViewSet_create, GenreSerializer.is_valid, d. run.
    cbn [SlugData.name SlugData.slug on_key].
    rewrite (name_field_plain name N1 N2 N3).
    rewrite (SlugField_shaped (Genre_slug_taken s) slug S1 S2 S3), Htaken.
    reflexivity.
Qed.

Lemma X16_slug_unique_per_table_witness :
  CategoryViewSet_create (SlugData.Build (Some "Novels") (Some " books ")) Sample.store
  = (inl (ValidationError [("slug", [unique])]), Sample.store)
  /\ exists g s',
       GenreViewSet_create (SlugData.Build (Some "Novels") (Some " books "))
                           Sample.store
       = (inr (Reply.Build ("Novels", "books") HTTP_201_CREATED), s')
       /\ genres s' = [Sample.scifi; g] /\ Genre.slug g = "books".
Proof.
  assert (N1 : strip "Novels" <> EmptyString) by (vm_compute; discriminate).
  assert (N2 : len (strip "Novels") <= 256) by (vm_compute; discriminate).
  assert (S1 : strip " books " <> EmptyString) by (vm_compute; discriminate).
  assert (S2 : len (strip " books ") <= 50) by (vm_compute; discriminate).
  pose proof (X16_slug_unique_per_table Sample.store "Novels" " books "
                N1 N2 eq_refl S1 S2 eq_refl) as [_ [Hc [Hg _]]].
  split.
  - apply Hc. exists Sample.books. split; [left|]; reflexivity.
  - destruct Hg as [g [s' [E [G [_ [Sg _]]]]]].
    + intros g [<-|[]]. vm_compute. discriminate.
    + exists g, s'. split; [exact E|]. split; [exact G|exact Sg].
Defined.

Lemma filter_snoc_back A (p : A -> bool) (l : list A) (x : A) :
  (forall y, In y l -> p y = true) -> p x = false -> filter p (l ++ [x]) = l.
Proof.
  intros Hl Hx. rewrite filter_app. cbn [filter]. rewrite Hx, app_nil_r.
  induction l as [|y l IH]; [reflexivity|]. cbn [filter].
  rewrite (Hl y (or_introl eq_refl)). f_equal. apply IH.
  intros z Hz. apply Hl. right. exact Hz.
Qed.

Lemma filter_snoc_only A (p : A -> bool) (l : list A) (x : A) :
  (forall y, In y l -> p y = false) -> p x = true -> filter p (l ++ [x]) = [x].
Proof.
  intros Hl Hx. rewrite filter_app. cbn [filter]. rewrite Hx.
  rewrite (filter_nil _ p l Hl). reflexivity.
Qed.

Lemma map_unchanged A (f : A -> A) (l : list A) :
  (forall x, In x l -> f x = x) -> map f l = l.
Proof.
  intros H. rewrite <- (map_id l) at 2. apply map_ext_in. exact H.
Qed.

Lemma filter_unchanged A (p : A -> bool) (l : list A) :
  (forall x, In x l -> p x = true) -> filter p l = l.
Proof.
  intros H. induction l as [|x l IH]; [reflexivity|]. cbn [filter].
  rewrite (H x (or_introl eq_refl)). f_equal. apply IH.
  intros y Hy. apply H. right. exact Hy.
Qed.

(** What the destroy of a category or genre that was just created
    leaves: the store of before the create, with the key used up. *)
Lemma Category_create_destroy (s : Store) (name slug : string) :
  references_ok s ->
  strip name <> EmptyString -> len (strip name) <= 256 ->
  contains zero (strip name) = false ->
  strip slug <> EmptyString -> len (strip slug) <= 50 ->
  all_slug_chars (strip slug) = true ->
  (forall c, In c (categories s) -> Category.slug c <> strip slug) ->
  CategoryViewSet.destroy (strip slug)
    (snd (CategoryViewSet_create (SlugData.Build (Some name) (Some slug)) s))
  = (inr (mkResponse no_body HTTP_204_NO_CONTENT),
     set_sequences
       (Category_key_given
          (next_id (Category_seq (sequences s)) (map Category.id (categories s)))
          (sequences s)) s).
Proof.
  intros [Rc Rg _ _] N1 N2 N3 S1 S2 S3 Hfree.
  rewrite (Category_create_fresh s name slug N1 N2 N3 S1 S2 S3
             (Category_slug_free s _ Hfree)).
  cbn [snd]. unfold CategoryViewSet.destroy. run.
  cbn [categories set_categories set_sequences].
  rewrite filter_snoc_only;
    [|intros y Hy; apply String.eqb_neq; apply Hfree; exact Hy
     |apply String.eqb_refl].
  cbn [get_object_or_404 get]. f_equal.
  unfold Category_delete.
  cbn [titles categories set_titles set_categories Category.id set_sequences].
  rewrite filter_snoc_back;
    [|intros y Hy; apply negb_true_iff; apply Z.eqb_neq;
      pose proof (next_id_above (Category_seq (sequences s))
                    (map Category.id (categories s)) (Category.id y)
                    (in_map _ _ _ Hy)); lia
     |rewrite Z.eqb_refl; reflexivity].
  rewrite map_unchanged; [destruct s; reflexivity|].
  intros t Ht. rewrite Forall_forall in Rc. specialize (Rc t Ht).
  destruct (Title.category t) as [k|]; [|reflexivity].
  cbn [points_into option_eqb] in *.
  pose proof (next_id_above (Category_seq (sequences s)) _ _ Rc).
  destruct (Z.eqb_spec k (next_id (Category_seq (sequences s))
                                  (map Category.id (categories s))));
    [lia|reflexivity].
Qed.

Lemma Genre_create_destroy (s : Store) (name slug : string) :
  references_ok s ->
  strip name <> EmptyString -> len (strip name) <= 256 ->
  contains zero (strip name) = false ->
  strip slug <> EmptyString -> len (strip slug) <= 50 ->
  all_slug_chars (strip slug) = true ->
  (forall g, In g (genres s) -> Genre.slug g <> strip slug) ->
  GenreViewSet.destroy (strip slug)
    (snd (GenreViewSet_create (SlugData.Build (Some name) (Some slug)) s))
  = (inr (mkResponse no_body HTTP_204_NO_CONTENT),
     set_sequences
       (Genre_key_given
          (next_id (Genre_seq (sequences s)) (map Genre.id (genres s)))
          (sequences s)) s).
Proof.
  intros [Rc Rg _ _] N1 N2 N3 S1 S2 S3 Hfree.
  rewrite (Genre_create_fresh s name slug N1 N2 N3 S1 S2 S3
             (Genre_slug_free s _ Hfree)).
  cbn [snd]. unfold GenreViewSet.destroy. run.
  cbn [genres set_genres set_sequences].
  rewrite filter_snoc_only;
    [|intros y Hy; apply String.eqb_neq; apply Hfree; exact Hy
     |apply String.eqb_refl].
  cbn [get_object_or_404 get]. f_equal.
  unfold Genre_delete.
  cbn [genre_titles genres set_genre_titles set_genres Genre.id set_sequences].
  rewrite filter_snoc_back;
    [|intros y Hy; apply negb_true_iff; apply Z.eqb_neq;
      pose proof (next_id_above (Genre_seq (sequences s))
                    (map Genre.id (genres s)) (Genre.id y)
                    (in_map _ _ _ Hy)); lia
     |rewrite Z.eqb_refl; reflexivity].
  rewrite filter_unchanged; [destruct s; reflexivity|].
  intros x Hx. rewrite Forall_forall in Rg. destruct (Rg x Hx) as [_ Hg].
  apply negb_true_iff.
  destruct (GenreTitle.genre x) as [k|]; [|reflexivity].
  cbn [points_into option_eqb] in *.
  pose proof (next_id_above (Genre_seq (sequences s)) _ _ Hg).
  apply Z.eqb_neq. lia.
Qed.

(** X17: creating a category and destroying it by its slug gives back
    every table, and uses up a key.  In a store where the category of
    every title is a stored category and the genre of every link is a
    stored genre, a category (a genre) created under a slug that is new
    is found again by the destroy under the trimmed slug, which answers
    204 and leaves every table as it was before the create: no title and
    no link of another row is touched.  The store is not the one of
    before: the last key of the table has moved on, above what it was
    and above every stored key, so the next row of the table has another
    key than the row that is gone. *)
Theorem X17_create_then_destroy :
  forall (s : Store) (name slug : string),
    references_ok s ->
    strip name <> EmptyString -> len (strip name) <= 256 ->
    contains zero (strip name) = false ->
    strip slug <> EmptyString -> len (strip slug) <= 50 ->
    all_slug_chars (strip slug) = true ->
    let d := SlugData.Build (Some name) (Some slug) in
    ((forall c, In c (categories s) -> Category.slug c <> strip slug) ->
     let r := CategoryViewSet.destroy (strip slug)
                (snd (CategoryViewSet_create d s)) in
     fst r = inr (mkResponse no_body HTTP_204_NO_CONTENT)
     /\ users (snd r) = users s /\ categories (snd r) = categories s
     /\ genres (snd r) = genres s /\ titles (snd r) = titles s
     /\ genre_titles (snd r) = genre_titles s /\ reviews (snd r) = reviews s
     /\ comments (snd r) = comments s /\ outbox (snd r) = outbox s
     /\ Category_seq (sequences s) < Category_seq (sequences (snd r))
     /\ (forall x, In x (categories s) ->
                   Category.id x < Category_seq (sequences (snd r))))
    /\ ((forall g, In g (genres s) -> Genre.slug g <> strip slug) ->
        let r := GenreViewSet.destroy (strip slug)
                   (snd (GenreViewSet_create d s)) in
        fst r = inr (mkResponse no_body HTTP_204_NO_CONTENT)
        /\ users (snd r) = users s /\ categories (snd r) = categories s
        /\ genres (snd r) = genres s /\ titles (snd r) = titles s
        /\ genre_titles (snd r) = genre_titles s /\ reviews (snd r) = reviews s
        /\ comments (snd r) = comments s /\ outbox (snd r) = outbox s
        /\ Genre_seq (sequences s) < Genre_seq (sequences (snd r))
        /\ (forall x, In x (genres s) ->
                      Genre.id x < Genre_seq (sequences (snd r)))).
Proof.
  intros s name slug R N1 N2 N3 S1 S2 S3 d. split.
  - intros Hfree r. unfold r, d.
    rewrite (Category_create_destroy s name slug R N1 N2 N3 S1 S2 S3 Hfree).
    cbn [fst snd users categories genres titles genre_titles reviews comments
         outbox sequences set_sequences Category_seq Category_key_given].
    repeat split.
    + apply next_id_new.
    + intros x Hx. apply next_id_above. apply in_map. exact Hx.
  - intros Hfree r. unfold r, d.
    rewrite (Genre_create_destroy s name slug R N1 N2 N3 S1 S2 S3 Hfree).
    cbn [fst snd users categories genres titles genre_titles reviews comments
         outbox sequences set_sequences Genre_seq Genre_key_given].
    repeat split.
    + apply next_id_new.
    + intros x Hx. apply next_id_above. apply in_map. exact Hx.
Qed.

Lemma Sample_references_ok : references_ok Sample.store.
Proof.
  constructor; repeat (apply Forall_cons); try apply Forall_nil; cbn; tauto.
Qed.

Lemma X17_create_then_destroy_witness :
  let r := CategoryViewSet.destroy "novels"
             (snd (CategoryViewSet_create
                     (SlugData.Build (Some "Novels") (Some "novels"))
                     Sample.store)) in
  fst r = inr (mkResponse no_body HTTP_204_NO_CONTENT)
  /\ categories (snd r) = categories Sample.store
  /\ titles (snd r) = titles Sample.store.
Proof.
  assert (N1 : strip "Novels" <> EmptyString) by (vm_compute; discriminate).
  assert (N2 : len (strip "Novels") <= 256) by (vm_compute; discriminate).
  assert (S1 : strip "novels" <> EmptyString) by (vm_compute; discriminate).
  assert (S2 : len (strip "novels") <= 50) by (vm_compute; discriminate).
  destruct (proj1 (X17_create_then_destroy Sample.store "Novels" "novels"
                     Sample_references_ok N1 N2 eq_refl S1 S2 eq_refl))
    as [A [_ [B [_ [C _]]]]].
  - intros c [<-|[]]. vm_compute. discriminate.
  - cbv zeta. auto.
Defined.

(** ** The constraints of the tables, over the requests *)

Lemma tables_stay_ok_refl (s : Store) : tables_stay_ok s s.
Proof. intros H. exact H. Qed.

Lemma tables_stay_ok_trans (a b c : Store) :
  tables_stay_ok a b -> tables_stay_ok b c -> tables_stay_ok a c.
Proof. unfold tables_stay_ok. auto. Qed.

(** A write keeps the keys of the categories, genres, genre links and
    comments when all it does to these tables is to remove rows. *)
Lemma tables_ok_shrink (s s' : Store) (p : Category.t -> bool)
    (q : Genre.t -> bool) (l : GenreTitle.t -> bool) (r : Comment.t -> bool) :
  store_stays_ok s s' ->
  categories s' = filter p (categories s) ->
  genres s' = filter q (genres s) ->
  genre_titles s' = filter l (genre_titles s) ->
  comments s' = filter r (comments s) ->
  tables_stay_ok s s'.
Proof.
  intros Hs Ec Eg El Em [H1 H2 H3 H4 H5]. constructor.
  - apply Hs. exact H1.
  - intros k. rewrite Ec. apply at_most_one_filter. apply H2.
  - intros k. rewrite Eg. apply at_most_one_filter. apply H3.
  - intros k. rewrite El. apply at_most_one_filter. apply H4.
  - intros k. rewrite Em. apply at_most_one_filter. apply H5.
Qed.

Lemma filter_all A (l : list A) : l = filter (fun _ => true) l.
Proof. symmetry. apply filter_unchanged. reflexivity. Qed.

Lemma tables_ok_same (s s' : Store) :
  store_stays_ok s s' ->
  categories s' = categories s -> genres s' = genres s ->
  genre_titles s' = genre_titles s -> comments s' = comments s ->
  tables_stay_ok s s'.
Proof.
  intros Hs Ec Eg El Em.
  apply (tables_ok_shrink s s' (fun _ => true) (fun _ => true) (fun _ => true)
           (fun _ => true) Hs);
    [rewrite Ec|rewrite Eg|rewrite El|rewrite Em]; apply filter_all.
Qed.

Lemma send_confirm_mail_tables (env : Env) (now : Z) (u : User.t) :
  keeps tables_stay_ok (send_confirm_mail env now u).
Proof.
  intros s. apply tables_ok_same; [apply send_confirm_mail_store|..];
    unfold send_confirm_mail; destruct (delivers env now _); reflexivity.
Qed.

Lemma User_insert_tables (u : User.t) : keeps tables_stay_ok (User_insert u).
Proof.
  intros s. apply tables_ok_same; [apply User_insert_store| | | |];
    unfold User_insert; destruct (username_taken _ _ _); try reflexivity;
    destruct (email_taken _ _ _); reflexivity.
Qed.

Lemma User_update_tables (u : User.t) : keeps tables_stay_ok (User_update u).
Proof.
  intros s. apply tables_ok_same; [apply User_update_store| | | |];
    unfold User_update; destruct (username_taken _ _ _); try reflexivity;
    destruct (email_taken _ _ _); reflexivity.
Qed.

Lemma Review_insert_tables (r : Review.t) : keeps tables_stay_ok (Review_insert r).
Proof.
  intros s. apply tables_ok_same; [apply Review_insert_store| | | |];
    unfold Review_insert; destruct (review_taken _ _ _ _); reflexivity.
Qed.

Lemma Review_update_tables (r : Review.t) : keeps tables_stay_ok (Review_update r).
Proof.
  intros s. apply tables_ok_same; [apply Review_update_store| | | |];
    unfold Review_update; destruct (review_taken _ _ _ _); reflexivity.
Qed.

Lemma deletes_tables :
  (forall u, keeps tables_stay_ok (modify (User_delete u)))
  /\ (forall t, keeps tables_stay_ok (modify (Title_delete t)))
  /\ (forall c, keeps tables_stay_ok (modify (Category_delete c)))
  /\ (forall g, keeps tables_stay_ok (modify (Genre_delete g)))
  /\ (forall r, keeps tables_stay_ok (modify (Review_delete r))).
Proof.
  destruct deletes_store as [D1 [D2 [D3 [D4 D5]]]].
  split; [|split; [|split; [|split]]]; intros x s.
  - eapply tables_ok_shrink;
      [apply D1|apply filter_all|apply filter_all|apply filter_all|].
    cbn [modify snd]. unfold User_delete, delete_reviews.
    cbn [comments set_users set_comments set_reviews set_sequences].
    apply filter_filter.
  - eapply tables_ok_shrink;
      [apply D2|apply filter_all|apply filter_all|reflexivity|reflexivity].
  - eapply tables_ok_shrink;
      [apply D3|reflexivity|apply filter_all|apply filter_all|apply filter_all].
  - eapply tables_ok_shrink;
      [apply D4|apply filter_all|reflexivity|reflexivity|apply filter_all].
  - eapply tables_ok_shrink;
      [apply D5|apply filter_all|apply filter_all|apply filter_all|reflexivity].
Qed.

Lemma step_tables_ok (env : Env) (op : operation) :
  keeps tables_stay_ok (step env op).
Proof.
  destruct op; cbn [step];
    unfold register, get_or_create, get_jwt_token,
      UserViewSet.users_own_profile, UserViewSet.create, UserViewSet.update,
      UserViewSet.destroy, UserViewSet.get_object,
      UserEditSerializer.update, UserSerializer.create, UserSerializer.update,
      CategoryViewSet.destroy, GenreViewSet.destroy,
      TitleViewSet.list_, TitleViewSet.retrieve, TitleViewSet.destroy,
      TitleViewSet.get_object,
      ReviewViewSet.create, ReviewViewSet.perform_create, ReviewViewSet.update,
      ReviewViewSet.destroy, ReviewViewSet.get_object, ReviewViewSet.get_queryset,
      ReviewSerializer.create, ReviewSerializer.update;
    frame tables_stay_ok_refl tables_stay_ok_trans;
    first [ apply send_confirm_mail_tables | apply User_insert_tables
          | apply User_update_tables | apply Review_insert_tables
          | apply Review_update_tables | apply deletes_tables ].
Qed.

Lemma store_ok_catalogue (s s' : Store) :
  users s' = users s -> titles s' = titles s -> reviews s' = reviews s ->
  Category_slug_unique s' -> Genre_slug_unique s' ->
  store_ok s -> store_ok s'.
Proof.
  intros Eu Et Er Hc Hg [H1 H2 H3 H4 H5 H6 H7]. constructor; try assumption.
  - unfold User_pk. rewrite Eu. exact H1.
  - unfold email_unique. rewrite Eu. exact H2.
  - unfold username_unique. rewrite Eu. exact H3.
  - unfold Title_pk. rewrite Et. exact H6.
  - eapply reviews_ok_same; [exact Er|exact H7].
Qed.

Lemma at_most_one_new_key A (key : A -> Z) (last : Z) (l : list A) (x : A)
    (k : Z) :
  key x = next_id last (map key l) ->
  at_most_one (fun y => key y =? k) l ->
  at_most_one (fun y => key y =? k) (l ++ [x]).
Proof.
  intros Ex Hl. apply at_most_one_snoc; [exact Hl|].
  intros Hk y Hy. apply Z.eqb_eq in Hk. apply Z.eqb_neq.
  pose proof (next_id_above last (map key l) (key y) (in_map _ _ _ Hy)). lia.
Qed.

Lemma Category_insert_tables (c : Category.t) :
  keeps tables_stay_ok (Category_insert c).
Proof.
  intros s [Hs H2 H3 H4 H5]. unfold Category_insert.
  destruct (Category_slug_taken s (Category.slug c)) eqn:T;
    cbn [snd]; [constructor; assumption|].
  constructor; try assumption.
  - apply (store_ok_catalogue s); try reflexivity; try apply Hs.
    intros x. cbn [categories set_categories set_sequences].
    apply at_most_one_snoc; [apply Hs|]. cbn [Category.slug].
    intros Hx y Hy. apply String.eqb_eq in Hx. subst x.
    unfold Category_slug_taken in T.
    exact (proj1 (exists_filter_false _ _ _) T y Hy).
  - intros k. cbn [categories set_categories set_sequences].
    eapply at_most_one_new_key; [reflexivity|apply H2].
Qed.

Lemma Genre_insert_tables (g : Genre.t) :
  keeps tables_stay_ok (Genre_insert g).
Proof.
  intros s [Hs H2 H3 H4 H5]. unfold Genre_insert.
  destruct (Genre_slug_taken s (Genre.slug g)) eqn:T;
    cbn [snd]; [constructor; assumption|].
  constructor; try assumption.
  - apply (store_ok_catalogue s); try reflexivity; try apply Hs.
    intros x. cbn [genres set_genres set_sequences].
    apply at_most_one_snoc; [apply Hs|]. cbn [Genre.slug].
    intros Hx y Hy. apply String.eqb_eq in Hx. subst x.
    unfold Genre_slug_taken in T.
    exact (proj1 (exists_filter_false _ _ _) T y Hy).
  - intros k. cbn [genres set_genres set_sequences].
    eapply at_most_one_new_key; [reflexivity|apply H3].
Qed.

Lemma Comment_insert_tables (c : Comment.t) :
  keeps tables_stay_ok (Comment_insert c).
Proof.
  intros s [Hs H2 H3 H4 H5]. unfold Comment_insert. cbn [snd].
  constructor; try assumption.
  - apply (store_ok_catalogue s); try reflexivity; apply Hs.
  - intros k. cbn [comments set_comments set_sequences].
    eapply at_most_one_new_key; [reflexivity|apply H5].
Qed.

Lemma Comment_update_tables (c : Comment.t) :
  keeps tables_stay_ok (Comment_update c).
Proof.
  intros s [Hs H2 H3 H4 H5]. unfold Comment_update. cbn [snd].
  constructor; try assumption.
  - apply (store_ok_catalogue s); try reflexivity; apply Hs.
  - intros k. cbn [comments set_comments set_sequences].
    eapply Nat.le_trans; [|apply (H5 k)]. apply filter_map_le. intros x _.
    destruct (Z.eqb_spec (Comment.id x) (Comment.id c)) as [E|E];
      [rewrite E|]; auto.
Qed.

Lemma Comment_delete_tables (c : Comment.t) :
  keeps tables_stay_ok (modify (Comment_delete c)).
Proof.
  intros s. eapply tables_ok_shrink;
    [|apply filter_all|apply filter_all|apply filter_all|reflexivity].
  intros H. apply (store_ok_catalogue s); try reflexivity; apply H.
Qed.

Lemma handle_tables_ok (env : Env) (rq : request) (s : Store) :
  tables_ok s -> tables_ok (handle env rq s).
Proof.
  revert s. change (forall s, tables_stay_ok s (handle env rq s)).
  destruct rq; cbn [handle].
  - apply step_tables_ok.
  - unfold CategoryViewSet_create, CategorySerializer.create.
    frame tables_stay_ok_refl tables_stay_ok_trans. apply Category_insert_tables.
  - unfold GenreViewSet_create, GenreSerializer.create.
    frame tables_stay_ok_refl tables_stay_ok_trans. apply Genre_insert_tables.
  - unfold CommentViewSet.create, CommentViewSet.perform_create,
      CommentSerializer.create.
    frame tables_stay_ok_refl tables_stay_ok_trans. apply Comment_insert_tables.
  - unfold CommentViewSet.update, CommentViewSet.get_object,
      CommentViewSet.get_queryset, CommentSerializer.update.
    frame tables_stay_ok_refl tables_stay_ok_trans. apply Comment_update_tables.
  - unfold CommentViewSet.destroy, CommentViewSet.get_object,
      CommentViewSet.get_queryset.
    frame tables_stay_ok_refl tables_stay_ok_trans. apply Comment_delete_tables.
Qed.

(** X18: the requests of [request] never break a key or a uniqueness
    constraint.  These requests are register, the token exchange, the own
    profile, the users of the administrators, the reads of titles, the
    destroy of a title, category or genre, the create of a category or
    genre, and create, update and destroy of reviews and of comments;
    the create and update of a title, the only endpoints that add titles
    and genre links, are not among them, so for these two tables the
    theorem is about the deletes.  From a store where every table has
    distinct keys, usernames, e-mail addresses and slugs are unique and
    there is one review per title and author, the store after any
    sequence of these requests, in any order and whatever each answers,
    is such a store again. *)
Theorem X18_constraints_kept :
  forall (env : Env) (rqs : list request) (s : Store),
    tables_ok s -> tables_ok (handle_all env rqs s).
Proof.
  intros env rqs. unfold handle_all.
  induction rqs as [|rq rqs IH]; intros s H; [exact H|].
  cbn [fold_left]. apply IH. apply handle_tables_ok. exact H.
Qed.

Lemma Sample_tables_ok : tables_ok Sample.store.
Proof.
  constructor; [exact Sample_store_ok| | | |];
    unfold Category_pk, Genre_pk, GenreTitle_pk, Comment_pk; small_table.
Qed.

Lemma X18_constraints_kept_witness :
  tables_ok
    (handle_all Sample.env
       [CategoryCreate (SlugData.Build (Some "Films") (Some "books"));
        Core (ReviewCreate 300 Sample.alice 1 (ReviewData.Build (Some "Again") (Some 9)));
        CommentCreate 310 Sample.bob 1 1 (Some "Once more.");
        Core (RegisterUser 320 (Some "carol") (Some "c@x.com"));
        Core (UserDestroy "alice")]
       Sample.store).
Proof.
  apply X18_constraints_kept. exact Sample_tables_ok.
Defined.

(** ** The references between the tables, over the requests *)

Lemma points_into_incl (k : option Z) (l l' : list Z) :
  incl l l' -> points_into k l -> points_into k l'.
Proof. destruct k as [x|]; cbn; auto. Qed.

(** A write keeps the references when it leaves the referring rows alone
    and loses no key. *)
Lemma references_ok_grow (s s' : Store) :
  incl (map User.id (users s)) (map User.id (users s')) ->
  incl (map Category.id (categories s)) (map Category.id (categories s')) ->
  incl (map Genre.id (genres s)) (map Genre.id (genres s')) ->
  titles s' = titles s -> genre_titles s' = genre_titles s ->
  reviews s' = reviews s -> comments s' = comments s ->
  references_stay_ok s s'.
Proof.
  intros Iu Ic Ig Et Egt Er Em [R1 R2 R3 R4]. constructor.
  - rewrite Et. eapply Forall_impl; [|exact R1]. intros t.
    apply points_into_incl. exact Ic.
  - rewrite Egt, Et. eapply Forall_impl; [|exact R2]. intros x [H1 H2].
    split; [exact H1|]. eapply points_into_incl; [exact Ig|exact H2].
  - rewrite Er, Et. eapply Forall_impl; [|exact R3]. intros r [H1 H2].
    split; [exact H1|]. apply Iu. exact H2.
  - rewrite Em, Er. eapply Forall_impl; [|exact R4]. intros c [H1 H2].
    split; [exact H1|]. apply Iu. exact H2.
Qed.

Lemma references_stay_ok_refl (s : Store) : references_stay_ok s s.
Proof. intros H. exact H. Qed.

Lemma references_stay_ok_trans (a b c : Store) :
  references_stay_ok a b -> references_stay_ok b c -> references_stay_ok a c.
Proof. unfold references_stay_ok. auto. Qed.

Lemma send_confirm_mail_references (env : Env) (now : Z) (u : User.t) :
  keeps references_stay_ok (send_confirm_mail env now u).
Proof.
  intros s. unfold send_confirm_mail.
  destruct (delivers env now _); [|apply references_stay_ok_refl].
  apply references_ok_grow; try reflexivity; apply incl_refl.
Qed.

Lemma User_insert_references (u : User.t) :
  keeps references_stay_ok (User_insert u).
Proof.
  intros s. unfold User_insert.
  destruct (username_taken _ _ _); [apply references_stay_ok_refl|].
  destruct (email_taken _ _ _); [apply references_stay_ok_refl|].
  apply references_ok_grow; try reflexivity; try apply incl_refl.
  cbn [snd users set_users set_sequences]. rewrite map_app. apply incl_appl. apply incl_refl.
Qed.

Lemma map_replace_key A (key : A -> Z) (l : list A) (x : A) :
  map key (map (fun y => if key y =? key x then x else y) l) = map key l.
Proof.
  rewrite map_map. apply map_ext. intros y.
  destruct (Z.eqb_spec (key y) (key x)) as [E|E]; congruence.
Qed.

Lemma User_update_references (u : User.t) :
  keeps references_stay_ok (User_update u).
Proof.
  intros s. unfold User_update.
  destruct (username_taken _ _ _); [apply references_stay_ok_refl|].
  destruct (email_taken _ _ _); [apply references_stay_ok_refl|].
  apply references_ok_grow; try reflexivity; try apply incl_refl.
  cbn [snd users set_users set_sequences]. rewrite (map_replace_key _ User.id). apply incl_refl.
Qed.

Lemma Category_insert_references (c : Category.t) :
  keeps references_stay_ok (Category_insert c).
Proof.
  intros s. unfold Category_insert.
  destruct (Category_slug_taken _ _); [apply references_stay_ok_refl|].
  apply references_ok_grow; try reflexivity; try apply incl_refl.
  cbn [snd categories set_categories set_sequences]. rewrite map_app. apply incl_appl.
  apply incl_refl.
Qed.

Lemma Genre_insert_references (g : Genre.t) :
  keeps references_stay_ok (Genre_insert g).
Proof.
  intros s. unfold Genre_insert.
  destruct (Genre_slug_taken _ _); [apply references_stay_ok_refl|].
  apply references_ok_grow; try reflexivity; try apply incl_refl.
  cbn [snd genres set_genres set_sequences]. rewrite map_app. apply incl_appl.
  apply incl_refl.
Qed.

(** A key that is referred to stays when the row it names is not among
    the removed. *)
Lemma In_key_filter A (key : A -> Z) (p : A -> bool) (l : list A) (k : Z) :
  In k (map key l) -> (forall x, In x l -> key x = k -> p x = true) ->
  In k (map key (filter p l)).
Proof.
  intros Hk Hp. apply in_map_iff in Hk. destruct Hk as [x [E Hx]].
  apply in_map_iff. exists x. split; [exact E|]. apply filter_In. auto.
Qed.

(** The comments that the cascade of a review delete leaves point at
    reviews that it leaves. *)
Lemma delete_reviews_comment_ref (doomed : Review.t -> bool) (s : Store)
    (c : Comment.t) :
  In c (comments (delete_reviews doomed s)) ->
  In (Comment.review c) (map Review.id (reviews s)) ->
  In (Comment.review c) (map Review.id (reviews (delete_reviews doomed s))).
Proof.
  intros Hc Hr. apply delete_reviews_comments in Hc. destruct Hc as [_ Hno].
  apply in_map_iff in Hr. destruct Hr as [r [E Hr]].
  apply in_map_iff. exists r. split; [exact E|].
  apply delete_reviews_reviews. split; [exact Hr|].
  destruct (doomed r) eqn:D; [|reflexivity].
  exfalso. apply Hno. exists r. auto.
Qed.

Lemma delete_reviews_references (doomed : Review.t -> bool) (s : Store) :
  references_stay_ok s (delete_reviews doomed s).
Proof.
  intros [R1 R2 R3 R4]. constructor.
  - exact R1.
  - exact R2.
  - apply Forall_forall. intros r Hr. apply delete_reviews_reviews in Hr.
    rewrite Forall_forall in R3. apply (R3 r). tauto.
  - apply Forall_forall. intros c Hc. rewrite Forall_forall in R4.
    pose proof (proj1 (delete_reviews_comments doomed s c) Hc) as [Hc0 _].
    destruct (R4 c Hc0) as [H1 H2]. split; [|exact H2].
    apply delete_reviews_comment_ref; assumption.
Qed.

Lemma User_delete_references (u : User.t) (s : Store) :
  references_stay_ok s (User_delete u s).
Proof.
  intros R. pose proof (delete_reviews_references
                          (fun r => Review.author r =? User.id u) s R)
    as [R1 R2 R3 R4].
  set (s1 := delete_reviews (fun r => Review.author r =? User.id u) s) in *.
  assert (Hkeep : forall k, k <> User.id u ->
            In k (map User.id (users s)) ->
            In k (map User.id
                    (filter (fun x => negb (User.id x =? User.id u)) (users s)))).
  { intros k Hne Hk. apply In_key_filter; [exact Hk|].
    intros x _ E. apply negb_true_iff. apply Z.eqb_neq. congruence. }
  unfold User_delete. fold s1. constructor.
  - exact R1.
  - exact R2.
  - cbn [reviews titles users set_users set_comments set_sequences].
    apply Forall_forall. intros r Hr. rewrite Forall_forall in R3.
    destruct (R3 r Hr) as [H1 H2]. split; [exact H1|].
    apply Hkeep; [|exact H2].
    apply delete_reviews_reviews in Hr. destruct Hr as [_ D].
    apply Z.eqb_neq. exact D.
  - cbn [comments reviews users set_users set_comments set_sequences].
    apply Forall_forall. intros c Hc. apply filter_In in Hc.
    destruct Hc as [Hc Ha]. rewrite Forall_forall in R4.
    destruct (R4 c Hc) as [H1 H2]. split; [exact H1|].
    apply Hkeep; [|exact H2].
    apply negb_true_iff in Ha. apply Z.eqb_neq. exact Ha.
Qed.

Lemma Title_delete_references (t : Title.t) (s : Store) :
  references_stay_ok s (Title_delete t s).
Proof.
  intros R. pose proof (delete_reviews_references
                          (fun r => Review.title r =? Title.id t) s R)
    as [R1 R2 R3 R4].
  set (s1 := delete_reviews (fun r => Review.title r =? Title.id t) s) in *.
  assert (Hkeep : forall k, k <> Title.id t ->
            In k (map Title.id (titles s)) ->
            In k (map Title.id
                    (filter (fun x => negb (Title.id x =? Title.id t)) (titles s)))).
  { intros k Hne Hk. apply In_key_filter; [exact Hk|].
    intros x _ E. apply negb_true_iff. apply Z.eqb_neq. congruence. }
  unfold Title_delete. fold s1. constructor.
  - cbn [titles categories set_titles set_genre_titles set_sequences].
    apply Forall_forall. intros x Hx. apply filter_In in Hx.
    rewrite Forall_forall in R1. apply (R1 x). tauto.
  - cbn [genre_titles titles genres set_titles set_genre_titles set_sequences].
    apply Forall_forall. intros x Hx. apply filter_In in Hx.
    destruct Hx as [Hx Hn]. rewrite Forall_forall in R2.
    destruct (R2 x Hx) as [H1 H2]. split; [|exact H2].
    destruct (GenreTitle.title x) as [k|]; [|exact I].
    cbn [points_into option_eqb] in *. apply Hkeep; [|exact H1].
    apply negb_true_iff in Hn. apply Z.eqb_neq. exact Hn.
  - cbn [reviews titles users set_titles set_genre_titles set_sequences].
    apply Forall_forall. intros r Hr. rewrite Forall_forall in R3.
    destruct (R3 r Hr) as [H1 H2]. split; [|exact H2].
    apply Hkeep; [|exact H1].
    apply delete_reviews_reviews in Hr. destruct Hr as [_ D].
    apply Z.eqb_neq. exact D.
  - exact R4.
Qed.

Lemma Category_delete_references (c : Category.t) (s : Store) :
  references_stay_ok s (Category_delete c s).
Proof.
  intros [R1 R2 R3 R4]. unfold Category_delete. constructor.
  - cbn [titles categories set_titles set_categories set_sequences].
    apply Forall_forall. intros x Hx. apply in_map_iff in Hx.
    destruct Hx as [t [E Ht]]. rewrite Forall_forall in R1. specialize (R1 t Ht).
    destruct (option_eqb Z.eqb (Title.category t) (Some (Category.id c))) eqn:D;
      subst x; [exact I|].
    destruct (Title.category t) as [k|]; [|exact I].
    cbn [points_into option_eqb] in *. apply In_key_filter; [exact R1|].
    intros y _ Ey. apply negb_true_iff. apply Z.eqb_neq.
    apply Z.eqb_neq in D. congruence.
  - cbn [genre_titles titles genres set_titles set_categories set_sequences].
    eapply Forall_impl; [|exact R2]. intros x [H1 H2]. split; [|exact H2].
    destruct (GenreTitle.title x) as [k|]; [|exact I].
    cbn [points_into] in *. rewrite map_map.
    replace (map (fun t => Title.id (if option_eqb Z.eqb (Title.category t)
                                          (Some (Category.id c))
                                     then Title.set_category None t else t))
                 (titles s))
      with (map Title.id (titles s)); [exact H1|].
    apply map_ext. intros t. destruct (option_eqb _ _ _); reflexivity.
  - cbn [reviews titles users set_titles set_categories set_sequences].
    eapply Forall_impl; [|exact R3]. intros r [H1 H2]. split; [|exact H2].
    rewrite map_map.
    replace (map (fun t => Title.id (if option_eqb Z.eqb (Title.category t)
                                          (Some (Category.id c))
                                     then Title.set_category None t else t))
                 (titles s))
      with (map Title.id (titles s)); [exact H1|].
    apply map_ext. intros t. destruct (option_eqb _ _ _); reflexivity.
  - exact R4.
Qed.

Lemma Genre_delete_references (g : Genre.t) (s : Store) :
  references_stay_ok s (Genre_delete g s).
Proof.
  intros [R1 R2 R3 R4]. unfold Genre_delete. constructor.
  - exact R1.
  - cbn [genre_titles titles genres set_genre_titles set_genres set_sequences].
    apply Forall_forall. intros x Hx. apply filter_In in Hx.
    destruct Hx as [Hx Hn]. rewrite Forall_forall in R2.
    destruct (R2 x Hx) as [H1 H2]. split; [exact H1|].
    destruct (GenreTitle.genre x) as [k|]; [|exact I].
    cbn [points_into option_eqb] in *. apply In_key_filter; [exact H2|].
    intros y _ Ey. apply negb_true_iff. apply Z.eqb_neq.
    apply negb_true_iff in Hn. apply Z.eqb_neq in Hn. congruence.
  - exact R3.
  - exact R4.
Qed.

Lemma Comment_delete_references (c : Comment.t) (s : Store) :
  references_stay_ok s (Comment_delete c s).
Proof.
  intros [R1 R2 R3 R4]. unfold Comment_delete. constructor;
    try assumption.
  cbn [comments reviews users set_comments set_sequences].
  apply Forall_forall. intros x Hx. apply filter_In in Hx.
  rewrite Forall_forall in R4. apply (R4 x). tauto.
Qed.

Lemma get_object_or_404_In A (q : list A) (x : A) :
  get_object_or_404 q = inr x -> In x q.
Proof.
  destruct q as [|y [|z q]]; cbn; try discriminate.
  intros [= ->]. left. reflexivity.
Qed.

(** What a lookup of a review or of a comment through its address hands
    to the view is a stored row, and the lookup writes nothing. *)
Lemma Review_get_object_inv (s s1 : Store) (title_id pk : Z)
    (x : exn + Review.t) :
  ReviewViewSet.get_object title_id pk s = (x, s1) ->
  s1 = s /\ forall r, x = inr r -> In r (reviews s) /\ Review.id r = pk.
Proof.
  unfold ReviewViewSet.get_object, ReviewViewSet.get_queryset. run.
  destruct (get_object_or_404 (ReviewSerializer.Title_by_id s title_id))
    as [e|title]; cbn beta iota.
  - intros [= <- <-]. split; [reflexivity|discriminate].
  - intros [= <- <-]. split; [reflexivity|]. intros r Hr.
    apply get_object_or_404_In in Hr. apply filter_In in Hr.
    destruct Hr as [Hr Hk]. apply filter_In in Hr. apply Z.eqb_eq in Hk. tauto.
Qed.

Lemma Comment_get_object_inv (s s1 : Store) (title_id review_id pk : Z)
    (x : exn + Comment.t) :
  CommentViewSet.get_object title_id review_id pk s = (x, s1) ->
  s1 = s /\ forall c, x = inr c -> In c (comments s) /\ Comment.id c = pk.
Proof.
  unfold CommentViewSet.get_object, CommentViewSet.get_queryset. run.
  destruct (get_object_or_404
              (CommentViewSet.Review_by_id_title s title_id review_id))
    as [e|review]; cbn beta iota.
  - intros [= <- <-]. split; [reflexivity|discriminate].
  - intros [= <- <-]. split; [reflexivity|]. intros c Hc.
    apply get_object_or_404_In in Hc. apply filter_In in Hc.
    destruct Hc as [Hc Hk]. apply filter_In in Hc. apply Z.eqb_eq in Hk. tauto.
Qed.

Lemma Review_create_references (now : Z) (user : User.t) (title_id : Z)
    (d : ReviewData.t) (s : Store) :
  In user (users s) -> references_ok s ->
  references_ok (snd (ReviewViewSet.create now user title_id d s)).
Proof.
  intros Hu R. unfold ReviewViewSet.create, ReviewViewSet.perform_create. run.
  destruct (ReviewSerializer.is_valid s _ false d) as [e|v]; [exact R|].
  destruct (get_object_or_404 (ReviewSerializer.Title_by_id s title_id))
    as [e|title] eqn:G; [exact R|].
  apply get_object_or_404_In in G. apply filter_In in G. destruct G as [Ht _].
  unfold ReviewSerializer.create, Review_insert.
  cbn [Review.title Review.author].
  destruct (review_taken s None (Title.id title) (User.id user)); [exact R|].
  cbn [snd]. destruct R as [R1 R2 R3 R4]. constructor; try assumption.
  - cbn [reviews titles users set_reviews set_sequences]. apply Forall_app. split; [exact R3|].
    constructor; [|constructor]. cbn [Review.title Review.author].
    split; apply in_map; assumption.
  - cbn [comments reviews users set_reviews set_sequences]. eapply Forall_impl; [|exact R4].
    intros c [H1 H2]. split; [|exact H2]. rewrite map_app. apply in_or_app.
    left. exact H1.
Qed.

Lemma Review_update_references (user : User.t) (title_id pk : Z)
    (partial : bool) (d : ReviewData.t) (s : Store) :
  references_ok s ->
  references_ok (snd (ReviewViewSet.update user title_id pk partial d s)).
Proof.
  intros R. unfold ReviewViewSet.update. unfold bind at 1.
  destruct (ReviewViewSet.get_object title_id pk s) as [[e|r] s1] eqn:G;
    apply Review_get_object_inv in G; destruct G as [-> G]; [exact R|].
  destruct (G r eq_refl) as [Hr _]. run.
  destruct (ReviewSerializer.is_valid s _ partial d) as [e|v]; [exact R|].
  unfold ReviewSerializer.update, Review_update.
  cbn [Review.id Review.title Review.author].
  destruct (review_taken s (Some (Review.id r)) (Review.title r) (Review.author r));
    [exact R|].
  cbn [snd]. destruct R as [R1 R2 R3 R4]. constructor; try assumption.
  - cbn [reviews titles users set_reviews set_sequences]. rewrite Forall_forall in R3.
    apply Forall_forall. intros x Hx. apply in_map_iff in Hx.
    destruct Hx as [y [E Hy]].
    destruct (Review.id y =? Review.id r); subst x; [|apply R3; exact Hy].
    cbn [Review.title Review.author]. apply R3. exact Hr.
  - cbn [comments reviews users set_reviews set_sequences].
    pose proof (map_replace_key _ Review.id (reviews s)
                  (Review.Build (Review.id r) (Review.title r)
                     (or_default (ReviewData.text v) (Review.text r))
                     (Review.author r)
                     (or_default (ReviewData.score v) (Review.score r))
                     (Review.pub_date r))) as E.
    cbn [Review.id] in E. rewrite E. exact R4.
Qed.

Lemma Comment_create_references (now : Z) (user : User.t)
    (title_id review_id : Z) (text : option string) (s : Store) :
  In user (users s) -> references_ok s ->
  references_ok (snd (CommentViewSet.create now user title_id review_id text s)).
Proof.
  intros Hu R. unfold CommentViewSet.create, CommentViewSet.perform_create. run.
  destruct (CommentSerializer.is_valid false text) as [e|v]; [exact R|].
  destruct (get_object_or_404
              (CommentViewSet.Review_by_id_title s title_id review_id))
    as [e|review] eqn:G; [exact R|].
  apply get_object_or_404_In in G. apply filter_In in G. destruct G as [Hr _].
  unfold CommentSerializer.create, Comment_insert. cbn [snd].
  destruct R as [R1 R2 R3 R4]. constructor; try assumption.
  cbn [comments reviews users set_comments Comment.review Comment.author set_sequences].
  apply Forall_app. split; [exact R4|]. constructor; [|constructor].
  cbn [Comment.review Comment.author]. split; apply in_map; assumption.
Qed.

Lemma Comment_update_references (title_id review_id pk : Z) (partial : bool)
    (text : option string) (s : Store) :
  references_ok s ->
  references_ok (snd (CommentViewSet.update title_id review_id pk partial text s)).
Proof.
  intros R. unfold CommentViewSet.update. unfold bind at 1.
  destruct (CommentViewSet.get_object title_id review_id pk s) as [[e|c] s1] eqn:G;
    apply Comment_get_object_inv in G; destruct G as [-> G]; [exact R|].
  destruct (G c eq_refl) as [Hc _]. run.
  destruct (CommentSerializer.is_valid partial text) as [e|v]; [exact R|].
  unfold CommentSerializer.update, Comment_update. cbn [snd].
  destruct R as [R1 R2 R3 R4]. constructor; try assumption.
  cbn [comments reviews users set_comments set_sequences]. rewrite Forall_forall in R4.
  apply Forall_forall. intros x Hx. apply in_map_iff in Hx.
  destruct Hx as [y [E Hy]].
  destruct (Comment.id y =? _); subst x; [|apply R4; exact Hy].
  cbn [Comment.review Comment.author]. apply R4. exact Hc.
Qed.

Lemma handle_references_ok (env : Env) (rq : request) (s : Store) :
  match author_of rq with
  | Some u => In u (users s)
  | None => True
  end ->
  references_ok s -> references_ok (handle env rq s).
Proof.
  intros Ha. destruct rq as [op|d|d|now user title_id review_id text
                             |title_id review_id pk partial text
                             |title_id review_id pk]; cbn [handle].
  - destruct op; cbn [step author_of] in *;
      try (apply Review_create_references; exact Ha);
      try apply Review_update_references;
      match goal with
      | |- references_ok s -> references_ok (snd (?m s)) =>
          clear Ha; revert s; change (keeps references_stay_ok m)
      end;
      unfold register, get_or_create, get_jwt_token,
        UserViewSet.users_own_profile, UserViewSet.create, UserViewSet.update,
        UserViewSet.destroy, UserViewSet.get_object,
        UserEditSerializer.update, UserSerializer.create, UserSerializer.update,
        CategoryViewSet.destroy, GenreViewSet.destroy,
        TitleViewSet.list_, TitleViewSet.retrieve, TitleViewSet.destroy,
        TitleViewSet.get_object,
        ReviewViewSet.destroy, ReviewViewSet.get_object,
        ReviewViewSet.get_queryset;
      frame references_stay_ok_refl references_stay_ok_trans;
      first [ apply send_confirm_mail_references | apply User_insert_references
            | apply User_update_references
            | intros s; apply User_delete_references
            | intros s; apply Title_delete_references
            | intros s; apply Category_delete_references
            | intros s; apply Genre_delete_references
            | intros s; unfold Review_delete; apply delete_reviews_references ].
  - clear Ha. revert s. change (keeps references_stay_ok (CategoryViewSet_create d)).
    unfold CategoryViewSet_create, CategorySerializer.create.
    frame references_stay_ok_refl references_stay_ok_trans.
    apply Category_insert_references.
  - clear Ha. revert s. change (keeps references_stay_ok (GenreViewSet_create d)).
    unfold GenreViewSet_create, GenreSerializer.create.
    frame references_stay_ok_refl references_stay_ok_trans.
    apply Genre_insert_references.
  - apply Comment_create_references. exact Ha.
  - apply Comment_update_references.
  - clear Ha. revert s.
    change (keeps references_stay_ok (CommentViewSet.destroy title_id review_id pk)).
    unfold CommentViewSet.destroy, CommentViewSet.get_object,
      CommentViewSet.get_queryset.
    frame references_stay_ok_refl references_stay_ok_trans.
    intros s. apply Comment_delete_references.
Qed.

(** X19: no request of [request] leaves a row that refers to a row that
    is gone.  From a store where the category of every title, the title
    and genre of every link, the title and author of every review and
    the review and author of every comment are stored rows, the store
    after any sequence of these requests is such a store again, provided
    each review or comment is created by a user that is stored when the
    request arrives.  The create and update of a title, the only
    endpoints that set a category and add genre links, are not among
    these requests: for the category of a title and for the genre links
    the theorem says that no delete leaves them dangling; for reviews
    and comments it covers their creates, updates and every delete. *)
Theorem X19_references_kept :
  forall (env : Env) (rqs : list request) (s : Store),
    served env rqs s -> references_ok s ->
    references_ok (handle_all env rqs s).
Proof.
  intros env rqs. unfold handle_all.
  induction rqs as [|rq rqs IH]; intros s Hs R; [exact R|].
  cbn [fold_left]. destruct Hs as [Ha Hs]. apply IH; [exact Hs|].
  apply handle_references_ok; assumption.
Qed.

Lemma X19_references_kept_witness :
  references_ok
    (handle_all Sample.env
       [CommentCreate 310 Sample.alice 1 2 (Some "Once more.");
        Core (UserDestroy "bob");
        Core (CategoryDestroy "books");
        Core (ReviewUpdate Sample.alice 1 1 true (ReviewData.Build None (Some 2)))]
       Sample.store).
Proof.
  apply X19_references_kept; [|exact Sample_references_ok].
  cbn [served author_of]. repeat split. left. reflexivity.
Defined.

(** ** What a request can fail with *)







































(** ** Scores and ratings stay in range *)

Lemma scores_stay_ok_refl (s : Store) : scores_stay_ok s s.
Proof. intros H. exact H. Qed.

Lemma scores_stay_ok_trans (a b c : Store) :
  scores_stay_ok a b -> scores_stay_ok b c -> scores_stay_ok a c.
Proof. unfold scores_stay_ok. auto. Qed.

(** A write that only removes reviews keeps the scores in range. *)
Lemma scores_ok_shrink (s s' : Store) (p : Review.t -> bool) :
  reviews s' = filter p (reviews s) -> scores_stay_ok s s'.
Proof.
  intros E H. unfold scores_ok in *. rewrite E. rewrite Forall_forall in *.
  intros r Hr. apply filter_In in Hr. apply H. tauto.
Qed.

Lemma scores_ok_same (s s' : Store) :
  reviews s' = reviews s -> scores_stay_ok s s'.
Proof.
  intros E. apply (scores_ok_shrink s s' (fun _ => true)). rewrite E.
  apply filter_all.
Qed.

Lemma score_field_inr (partial : bool) (d : option Z) (x : option Z) :
  ReviewSerializer.score_field partial d = inr x ->
  (forall sc, x = Some sc -> 1 <= sc <= 10)
  /\ (partial = false -> x <> None).
Proof.
  unfold ReviewSerializer.score_field.
  destruct (on_key true partial (IntegerField 10 1) d) as [c|[v|]] eqn:E;
    cbn [and_then]; try discriminate.
  - unfold ReviewSerializer.validate_score.
    destruct ((1 <=? v) && (v <=? 10)) eqn:B; cbn [negb]; [|discriminate].
    intros [= <-]. apply andb_prop in B. destruct B as [B1 B2].
    apply Z.leb_le in B1, B2. split; [|discriminate].
    intros sc [= <-]. lia.
  - intros [= <-]. split; [discriminate|]. intros ->.
    destruct d as [z|]; cbn in E; [|discriminate].
    destruct (IntegerField 10 1 z); discriminate.
Qed.

Lemma ReviewSerializer_is_valid_score (s : Store) (ctx : ReviewSerializer.context)
    (partial : bool) (d v : ReviewData.t) :
  ReviewSerializer.is_valid s ctx partial d = inr v ->
  (forall sc, ReviewData.score v = Some sc -> 1 <= sc <= 10)
  /\ (partial = false -> ReviewData.score v <> None).
Proof.
  unfold ReviewSerializer.is_valid.
  destruct (on_key true partial (CharField false None []) (ReviewData.text d));
    [discriminate|].
  destruct (ReviewSerializer.score_field partial (ReviewData.score d)) as [c|x] eqn:E;
    [discriminate|].
  unfold ReviewSerializer.validate.
  destruct (get_object_or_404 _); [discriminate|].
  destruct (_ && _); [discriminate|]. intros [= <-].
  cbn [ReviewData.score]. exact (score_field_inr partial _ x E).
Qed.

Lemma Review_create_scores (now : Z) (user : User.t) (title_id : Z)
    (d : ReviewData.t) :
  keeps scores_stay_ok (ReviewViewSet.create now user title_id d).
Proof.
  intros s H. unfold ReviewViewSet.create, ReviewViewSet.perform_create. run.
  destruct (ReviewSerializer.is_valid s _ false d) as [e|v] eqn:V; [exact H|].
  destruct (get_object_or_404 _) as [e|title]; [exact H|].
  unfold ReviewSerializer.create, Review_insert. cbn [Review.title Review.author].
  destruct (review_taken _ _ _ _); [exact H|].
  cbn [snd]. unfold scores_ok. cbn [reviews set_reviews set_sequences].
  apply Forall_app. split; [exact H|]. constructor; [|constructor].
  cbn [Review.score].
  destruct (ReviewSerializer_is_valid_score _ _ _ _ _ V) as [Hin Hsome].
  destruct (ReviewData.score v) as [sc|]; [|destruct (Hsome eq_refl eq_refl)].
  apply Hin. reflexivity.
Qed.

Lemma Review_update_scores (user : User.t) (title_id pk : Z) (partial : bool)
    (d : ReviewData.t) :
  keeps scores_stay_ok (ReviewViewSet.update user title_id pk partial d).
Proof.
  intros s H. unfold ReviewViewSet.update. unfold bind at 1.
  destruct (ReviewViewSet.get_object title_id pk s) as [[e|r] s1] eqn:G;
    apply Review_get_object_inv in G; destruct G as [-> G]; [exact H|].
  destruct (G r eq_refl) as [Hr _]. run.
  destruct (ReviewSerializer.is_valid s _ partial d) as [e|v] eqn:V; [exact H|].
  unfold ReviewSerializer.update, Review_update.
  cbn [Review.id Review.title Review.author].
  destruct (review_taken _ _ _ _); [exact H|].
  cbn [snd]. unfold scores_ok in *. cbn [reviews set_reviews set_sequences].
  rewrite Forall_forall in *. intros x Hx. apply in_map_iff in Hx.
  destruct Hx as [y [E Hy]].
  destruct (Review.id y =? Review.id r); subst x; [|apply H; exact Hy].
  cbn [Review.score].
  destruct (ReviewSerializer_is_valid_score _ _ _ _ _ V) as [Hin _].
  destruct (ReviewData.score v) as [sc|]; cbn [or_default];
    [apply Hin; reflexivity|apply H; exact Hr].
Qed.

Lemma handle_scores_ok (env : Env) (rq : request) (s : Store) :
  scores_ok s -> scores_ok (handle env rq s).
Proof.
  revert s. change (forall s, scores_stay_ok s (handle env rq s)).
  destruct rq as [op|d|d|now user title_id review_id text
                  |title_id review_id pk partial text
                  |title_id review_id pk]; cbn [handle];
    [destruct op; cbn [step]|..];
    try apply Review_create_scores; try apply Review_update_scores;
    match goal with
    | |- forall s, scores_stay_ok s (snd (?m s)) => change (keeps scores_stay_ok m)
    end;
    unfold register, get_or_create, get_jwt_token,
      UserViewSet.users_own_profile, UserViewSet.create, UserViewSet.update,
      UserViewSet.destroy, UserViewSet.get_object,
      UserEditSerializer.update, UserSerializer.create, UserSerializer.update,
      CategoryViewSet.destroy, GenreViewSet.destroy,
      TitleViewSet.list_, TitleViewSet.retrieve, TitleViewSet.destroy,
      TitleViewSet.get_object,
      ReviewViewSet.destroy, ReviewViewSet.get_object, ReviewViewSet.get_queryset,
      CategoryViewSet_create, CategorySerializer.create,
      GenreViewSet_create, GenreSerializer.create,
      CommentViewSet.create, CommentViewSet.perform_create,
      CommentViewSet.update, CommentViewSet.destroy, CommentViewSet.get_object,
      CommentViewSet.get_queryset, CommentSerializer.create,
      CommentSerializer.update;
    frame scores_stay_ok_refl scores_stay_ok_trans;
    (let st := fresh "st" in intros st);
    first [ apply scores_ok_same; unfold User_insert, User_update,
              Category_insert, Genre_insert, send_confirm_mail;
            repeat match goal with
                   | |- context [if ?b then _ else _] => destruct b
                   end; reflexivity
          | eapply scores_ok_shrink; reflexivity ].
Qed.

Lemma total_bounds (scores : list Z) :
  Forall (fun x => 1 <= x <= 10) scores ->
  Z.of_nat (List.length scores) <= total scores
  <= 10 * Z.of_nat (List.length scores).
Proof.
  unfold total. induction 1 as [|x l Hx Hl IH]; [cbn; lia|].
  cbn [fold_right List.length]. rewrite Nat2Z.inj_succ. lia.
Qed.

Lemma shown_rating_bounds (scores : list Z) (z : Z) :
  Forall (fun x => 1 <= x <= 10) scores ->
  shown_rating scores = Some z -> 1 <= z <= 10.
Proof.
  intros H E. pose proof (total_bounds scores H) as B.
  destruct scores as [|x l]; [discriminate|].
  unfold shown_rating in E.
  remember (Z.of_nat (List.length (x :: l))) as n eqn:En.
  remember (total (x :: l)) as t eqn:Et.
  assert (Hn : 0 < n) by (subst n; cbn [List.length]; rewrite Nat2Z.inj_succ; lia).
  injection E as <-.
  rewrite Z.quot_div_nonneg by lia. split.
  - apply Z.div_le_lower_bound; lia.
  - apply Z.div_le_upper_bound; lia.
Qed.

(** X21: scores and ratings stay in range.  From a store whose scores are
    all from 1 to 10, the store after any requests has only such scores,
    and the rating that the title list and retrieve show for a title is
    absent or an integer from 1 to 10. *)
Theorem X21_ratings_in_range :
  forall (env : Env) (rqs : list request) (s : Store),
    scores_ok s ->
    let s' := handle_all env rqs s in
    scores_ok s'
    /\ forall row z,
         In row (TitleViewSet.queryset s') ->
         TitleRepr.rating (TitleViewSet.to_representation s' row) = Some z ->
         1 <= z <= 10.
Proof.
  intros env rqs s H s'.
  assert (H' : scores_ok s').
  { unfold s', handle_all. clear s'. revert s H.
    induction rqs as [|rq rqs IH]; intros s H; [exact H|].
    cbn [fold_left]. apply IH. apply handle_scores_ok. exact H. }
  split; [exact H'|].
  intros row z Hrow Hz. apply queryset_In in Hrow. destruct Hrow as [_ Eq].
  unfold TitleViewSet.to_representation in Hz. cbn [TitleRepr.rating] in Hz.
  rewrite Eq, rating_of_Avg in Hz.
  apply (shown_rating_bounds _ z) in Hz; [exact Hz|].
  unfold TitleViewSet.scores_of. apply Forall_forall. intros x Hx.
  apply in_map_iff in Hx. destruct Hx as [r [<- Hr]]. apply filter_In in Hr.
  unfold scores_ok in H'. rewrite Forall_forall in H'. apply H'. tauto.
Qed.

Lemma Sample_scores_ok : scores_ok Sample.store.
Proof. repeat constructor; cbn; lia. Qed.

Lemma X21_ratings_in_range_witness :
  scores_ok
    (handle_all Sample.env
       [Core (ReviewUpdate Sample.alice 1 1 true (ReviewData.Build None (Some 11)));
        Core (ReviewUpdate Sample.alice 1 1 true (ReviewData.Build None (Some 10)))]
       Sample.store).
Proof.
  exact (proj1 (X21_ratings_in_range Sample.env _ Sample.store Sample_scores_ok)).
Defined.

(** ** What the reads and the token exchange leave alone *)

Lemma get_jwt_token_reads (env : Env) (now : Z) (jti : string)
    (username code : option string) :
  keeps eq (get_jwt_token env now jti username code).
Proof.
  unfold get_jwt_token. frame (@eq_refl Store) (@eq_trans Store).
Qed.

(** X22: exchanging a confirmation code and reading write nothing.  The
    token endpoint, the title list, the title retrieve and the own
    profile under any method but PATCH leave the store as it is, at any
    time and whatever they answer: no user row, no table and no sequence
    is written, so an exchange leaves the row that a code is checked
    against as it was. *)
Theorem X22_reads_write_nothing :
  forall (env : Env) (s : Store),
    (forall now jti username code,
        snd (get_jwt_token env now jti username code s) = s)
    /\ snd (TitleViewSet.list_ s) = s
    /\ (forall pk, snd (TitleViewSet.retrieve pk s) = s)
    /\ (forall method user d,
           method <> PATCH ->
           snd (UserViewSet.users_own_profile env method user d s) = s).
Proof.
  intros env s. split; [|split; [|split]].
  - intros now jti username code. symmetry.
    apply (get_jwt_token_reads env now jti username code s).
  - reflexivity.
  - intros pk. symmetry. revert s.
    change (keeps eq (TitleViewSet.retrieve pk)).
    unfold TitleViewSet.retrieve, TitleViewSet.get_object.
    frame (@eq_refl Store) (@eq_trans Store).
  - intros method user d Hm. unfold UserViewSet.users_own_profile.
    destruct method; try reflexivity. destruct (Hm eq_refl).
Qed.

Lemma X22_reads_write_nothing_witness :
  snd (UserViewSet.users_own_profile Sample.env GET Sample.alice Sample.me_data
         Sample.store)
  = Sample.store.
Proof.
  apply (proj2 (proj2 (proj2 (X22_reads_write_nothing Sample.env Sample.store)))).
  discriminate.
Defined.
